(** * ai-data-agent: cleaning pipeline, fallback classifier and query router

    A shallow embedding of
      - [app/utils/data_cleaner.py]      (class [DataCleaner]),
      - [app/services/llm_service.py]    ([_fallback_analysis], [_detect_operation],
                                          [generate_sql_query]),
      - [app/services/query_processor.py] ([_execute_intent] and its handlers),
      - [app/services/data_analyzer.py]  ([analyze_dataframe], [_detect_patterns]),
      - [app/services/file_service.py]   ([make_dict_json_serializable],
                                          [_get_columns_info]),
      - [app/api/routes.py]              ([upload_file]),
    together with the properties of the specification that concern them and
    further properties of the code.

    Conventions.
    - A Python [str] is a [string]; a character is a code point below 256
      (Latin-1), so the two mis-decoded sequences repaired by the text
      standardisation are one and two characters long, as in Python.
    - A pandas cell is a [value]; a finite float is the rational it denotes
      (infinities are not modelled); NaN, None and NaT are the one [NaN].
    - The parts of pandas and numpy whose result depends on floating point
      or on parsing (to_numeric, to_datetime, median, corr, ...) are the
      fields of the class [Pandas]; every property is proved for all
      implementations, and closed examples use the instance [ref_pandas].
    - A Python exception is the [Raise] of [result]. *)

From Stdlib Require Import List String Ascii Bool Arith ZArith QArith Qabs Qround.
From Stdlib Require Import Lia Permutation Sorted DecimalString.
From Stdlib Require DecimalNat DecimalFacts.
Import ListNotations.

Set Implicit Arguments.
Open Scope string_scope.
Open Scope nat_scope.
Open Scope list_scope.

(** ** Python strings *)

Module Py.

Definition chars (s : string) : list ascii := list_ascii_of_string s.
Definition str (l : list ascii) : string := string_of_list_ascii l.

Definition code (c : ascii) : nat := nat_of_ascii c.

Definition between (lo hi n : nat) : bool := (lo <=? n) && (n <=? hi).

(** [str.isspace] and the regex class [\s], on Latin-1. *)
Definition isspace (c : ascii) : bool :=
  let n := code c in
  between 9 13 n || between 28 32 n || (n =? 133) || (n =? 160).

(** [str.isalnum], on Latin-1. *)
Definition isalnum (c : ascii) : bool :=
  let n := code c in
  between 48 57 n || between 65 90 n || between 97 122 n
  || (n =? 170) || (n =? 178) || (n =? 179) || (n =? 181) || (n =? 185)
  || (n =? 186) || between 188 190 n
  || between 192 214 n || between 216 246 n || between 248 255 n.

Definition underscore : ascii := "_"%char.

(** The regex class [\w]. *)
Definition isword (c : ascii) : bool := isalnum c || Ascii.eqb c underscore.

Definition is_underscore (c : ascii) : bool := Ascii.eqb c underscore.

(** [str.lower], character by character. *)
Definition lower_char (c : ascii) : ascii :=
  let n := code c in
  if between 65 90 n || (between 192 222 n && negb (n =? 215))
  then ascii_of_nat (n + 32) else c.

Definition lower (s : string) : string := str (map lower_char (chars s)).

Fixpoint dropwhile (p : ascii -> bool) (l : list ascii) : list ascii :=
  match l with
  | [] => []
  | c :: l' => if p c then dropwhile p l' else l
  end.

Definition lstrip_by (p : ascii -> bool) (l : list ascii) := dropwhile p l.
Definition rstrip_by (p : ascii -> bool) (l : list ascii) :=
  rev (dropwhile p (rev l)).
Definition strip_by (p : ascii -> bool) (l : list ascii) :=
  rstrip_by p (lstrip_by p l).

(** [s.strip()] *)
Definition strip (s : string) : string := str (strip_by isspace (chars s)).

(** [re.sub(p+, r, s)] for a character class [p]: every maximal run of
    [p]-characters becomes the single character [r] (emitted at the last
    character of the run). *)
Fixpoint collapse (p : ascii -> bool) (r : ascii) (l : list ascii)
  : list ascii :=
  match l with
  | [] => []
  | c :: l' =>
      if p c then
        match l' with
        | c' :: _ => if p c' then collapse p r l' else r :: collapse p r l'
        | [] => [r]
        end
      else c :: collapse p r l'
  end.

Fixpoint prefixb (p l : list ascii) : bool :=
  match p, l with
  | [], _ => true
  | _ :: _, [] => false
  | a :: p', b :: l' => Ascii.eqb a b && prefixb p' l'
  end.

Fixpoint containsb (p l : list ascii) : bool :=
  prefixb p l ||
  match l with
  | [] => false
  | _ :: l' => containsb p l'
  end.

(** [sub in s] *)
Definition contains (sub s : string) : bool := containsb (chars sub) (chars s).

(** [s.replace(old, new)] for a non-empty [old]: leftmost, non-overlapping
    occurrences; [skip] counts the characters of a matched occurrence that
    are still to be passed over. *)
Fixpoint replace_from (old new : list ascii) (skip : nat) (l : list ascii)
  : list ascii :=
  match l with
  | [] => []
  | c :: l' =>
      match skip with
      | S k => replace_from old new k l'
      | O =>
          if prefixb old l
          then new ++ replace_from old new (List.length old - 1) l'
          else c :: replace_from old new 0 l'
      end
  end.

Definition replace (old new s : string) : string :=
  str (replace_from (chars old) (chars new) 0 (chars s)).

(** [str(n)] for a non-negative integer. *)
Definition str_of_nat (n : nat) : string :=
  NilEmpty.string_of_uint (Nat.to_uint n).

Definition str_of_Z (z : Z) : string :=
  match z with
  | Zneg p => ("-" ++ str_of_nat (Pos.to_nat p))%string
  | _ => str_of_nat (Z.to_nat z)
  end.

(** [sep.join(l)] *)
Fixpoint join (sep : string) (l : list string) : string :=
  match l with
  | [] => ""
  | [s] => s
  | s :: l' => (s ++ sep ++ join sep l')%string
  end.

(** [x in l] for a list of strings. *)
Definition mem (x : string) (l : list string) : bool :=
  existsb (String.eqb x) l.

(** Truthiness of a string. *)
Definition nonempty (s : string) : bool := negb (String.eqb s "").

End Py.

(** ** Exceptions *)

Inductive result (A : Type) : Type :=
| Ok (a : A)
| Raise (e : string).

Arguments Ok {A} a.
Arguments Raise {A} e.

Definition bind {A B : Type} (r : result A) (k : A -> result B) : result B :=
  match r with
  | Ok a => k a
  | Raise e => Raise e
  end.

Notation "x <- r ;; k" := (bind r (fun x => k))
  (at level 61, r at next level, right associativity).

(** ** Cells, columns and frames *)

Inductive np_dtype : Type := float64 | int64 | bool_ | datetime64 | object.

Inductive value : Type :=
| NaN
| VFloat (q : Q)
| VInt (z : Z)
| VStr (s : string)
| VBool (b : bool)
| VTime (t : Z).

Record Series : Type := mkSeries {
  name : string;
  dtype : np_dtype;
  values : list value
}.

(** A frame keeps the length of its index next to its columns: pandas
    frames without columns still have rows. *)
Record DataFrame : Type := mkDF {
  nrows : nat;
  columns : list Series
}.

(** Every column is as long as the index. *)
Definition wf (df : DataFrame) : Prop :=
  Forall (fun s => List.length (values s) = nrows df) (columns df).

(** One row of [to_dict("records")]: field name and cell, in column order. *)
Definition record : Type := list (string * value).

(** The result of [pd.to_numeric] on one string. *)
Inductive number : Type :=
| NInt (z : Z)
| NFloat (q : Q).

Definition np_dtype_eqb (a b : np_dtype) : bool :=
  match a, b with
  | float64, float64 | int64, int64 | bool_, bool_
  | datetime64, datetime64 | object, object => true
  | _, _ => false
  end.

(** Equality of cells as [duplicated] and [unique] see it: missing values
    are equal to each other. *)
Definition value_eqb (a b : value) : bool :=
  match a, b with
  | NaN, NaN => true
  | VFloat p, VFloat q => Qeq_bool p q
  | VInt x, VInt y => Z.eqb x y
  | VStr s, VStr t => String.eqb s t
  | VBool x, VBool y => Bool.eqb x y
  | VTime x, VTime y => Z.eqb x y
  | _, _ => false
  end.

Definition Q_of_bool (b : bool) : Q := if b then 1%Q else 0%Q.

(** Elementwise [==] of a column with a literal: a missing value equals
    nothing, numbers compare by value. *)
Definition py_eq (a b : value) : bool :=
  match a, b with
  | VStr s, VStr t => String.eqb s t
  | VTime x, VTime y => Z.eqb x y
  | VFloat p, VFloat q => Qeq_bool p q
  | VFloat p, VInt y => Qeq_bool p (inject_Z y)
  | VFloat p, VBool y => Qeq_bool p (Q_of_bool y)
  | VInt x, VFloat q => Qeq_bool (inject_Z x) q
  | VInt x, VInt y => Z.eqb x y
  | VInt x, VBool y => Qeq_bool (inject_Z x) (Q_of_bool y)
  | VBool x, VFloat q => Qeq_bool (Q_of_bool x) q
  | VBool x, VInt y => Qeq_bool (Q_of_bool x) (inject_Z y)
  | VBool x, VBool y => Bool.eqb x y
  | _, _ => false
  end.

Definition isnull (v : value) : bool :=
  match v with
  | NaN => true
  | _ => false
  end.

Definition notna (v : value) : bool := negb (isnull v).

Definition is_str (v : value) : bool :=
  match v with
  | VStr _ => true
  | _ => false
  end.

Definition is_bool (v : value) : bool :=
  match v with
  | VBool _ => true
  | _ => false
  end.

(** [Series.dropna()] *)
Definition dropna (vs : list value) : list value := filter notna vs.

(** [Series.isnull().sum()] *)
Definition null_count (s : Series) : nat := List.length (filter isnull (values s)).

(** [Series.notna().sum()] *)
Definition notna_count (vs : list value) : nat := List.length (filter notna vs).

(** [pd.api.types.is_numeric_dtype] *)
Definition is_numeric_dtype (s : Series) : bool :=
  match dtype s with
  | float64 | int64 | bool_ => true
  | _ => false
  end.

(** Membership in [select_dtypes(include=[np.number])]: booleans are not
    numbers there. *)
Definition is_np_number (s : Series) : bool :=
  match dtype s with
  | float64 | int64 => true
  | _ => false
  end.

(** [pd.api.types.is_string_dtype] of pandas 2.1 on a column: an object
    column all of whose cells are strings. *)
Definition is_string_dtype (s : Series) : bool :=
  np_dtype_eqb (dtype s) object && forallb is_str (values s).

(** [Series.fillna(v)] *)
Definition fillna (v : value) (s : Series) : Series :=
  mkSeries (name s) (dtype s)
           (map (fun x => if isnull x then v else x) (values s)).

(** [df.columns.tolist()] *)
Definition labels (df : DataFrame) : list string := map name (columns df).

(** [col in df.columns] *)
Definition has_label (df : DataFrame) (col : string) : bool :=
  Py.mem col (labels df).

(** [df[col]] as a column: the first column of that label. *)
Definition getitem (df : DataFrame) (col : string) : option Series :=
  find (fun s => String.eqb (name s) col) (columns df).

(** [df[col]] where the code goes on to use it as a Series: with a repeated
    label pandas hands back a frame and the next attribute access fails. *)
Definition series_of (df : DataFrame) (col : string) : option Series :=
  match filter (fun s => String.eqb (name s) col) (columns df) with
  | [s] => Some s
  | _ => None
  end.

(** [df.drop(columns=[col])] *)
Definition drop_columns (col : string) (df : DataFrame) : DataFrame :=
  mkDF (nrows df)
       (filter (fun s => negb (String.eqb (name s) col)) (columns df)).

Definition rename (s : Series) (n : string) : Series :=
  mkSeries n (dtype s) (values s).

(** [df.columns = new], for a list of the right length. *)
Definition set_labels (df : DataFrame) (new : list string) : DataFrame :=
  mkDF (nrows df) (map (fun p => rename (fst p) (snd p)) (combine (columns df) new)).

(** The body of a loop [for col in df.columns] that either assigns
    [df[col] = ...] or rebinds [df = df.drop(columns=[col])]: [f] gives the
    new column, or [None] for a drop. *)
Definition at_label (f : Series -> option Series) (df : DataFrame)
  (col : string) : DataFrame :=
  mkDF (nrows df)
       (flat_map (fun s => if String.eqb (name s) col
                           then match f s with
                                | Some s' => [s']
                                | None => []
                                end
                           else [s])
                 (columns df)).

Definition for_each_column (f : nat -> Series -> option Series)
  (df : DataFrame) : DataFrame :=
  fold_left (fun d col => at_label (f (nrows d)) d col) (labels df) df.

(** Boolean indexing of a column by a mask. *)
Fixpoint select (A : Type) (mask : list bool) (l : list A) : list A :=
  match mask, l with
  | b :: mask', x :: l' => if b then x :: select mask' l' else select mask' l'
  | _, _ => []
  end.

Definition count_true (mask : list bool) : nat :=
  List.length (filter (fun b => b) mask).

(** [df[mask]] *)
Definition filter_rows (mask : list bool) (df : DataFrame) : DataFrame :=
  mkDF (count_true mask)
       (map (fun s => mkSeries (name s) (dtype s) (select mask (values s)))
            (columns df)).

(** The cells of row [i], in column order. *)
Definition row (df : DataFrame) (i : nat) : list value :=
  map (fun s => nth i (values s) NaN) (columns df).

Definition rows (df : DataFrame) : list (list value) :=
  map (row df) (seq 0 (nrows df)).

(** [df.head(n)] *)
Definition head (n : nat) (df : DataFrame) : DataFrame :=
  mkDF (Nat.min n (nrows df))
       (map (fun s => mkSeries (name s) (dtype s) (firstn n (values s)))
            (columns df)).

(** [df.to_dict("records")]: one record per row, read off the tuples of
    [itertuples]; a frame without columns has no tuple, so no record,
    whatever the length of its index. *)
Definition to_records (df : DataFrame) : list record :=
  match columns df with
  | [] => []
  | _ :: _ =>
      map (fun i => map (fun s => (name s, nth i (values s) NaN)) (columns df))
          (seq 0 (nrows df))
  end.

(** [df.empty] *)
Definition empty (df : DataFrame) : bool :=
  (nrows df =? 0) || (List.length (columns df) =? 0).

(** [a / b > p / q] on counts. Python divides in floating point; for a
    denominator below 2^50 the comparison with 0.5 and 0.9 agrees with the
    exact one, and a zero denominator gives NaN, which is greater than
    nothing. *)
Definition ratio_gt (a b p q : nat) : bool := (0 <? b) && (p * b <? a * q).

(** [a / b < p / q], likewise. *)
Definition ratio_lt (a b p q : nat) : bool := (0 <? b) && (a * q <? p * b).

(** ** The library interface *)

(** What the code obtains from pandas, numpy and the random generator and
    this development does not compute itself. *)
Class Pandas : Type := {
  (** [pd.to_numeric(s, errors='coerce')] on one string; [None] is NaN. *)
  to_numeric : string -> option number;
  (** [pd.to_datetime(col, errors='coerce')]: [None] when the call raises,
      otherwise the timestamp at each position ([None] is NaT). *)
  to_datetime : list value -> option (nat -> option Z);
  (** [str(a)] for a numpy array [a] of strings. *)
  ndarray_str : list string -> string;
  (** [Series.median()] of the non-missing numbers of a column. *)
  median : list Q -> Q;
  (** [str(x)] for a float and for a timestamp. *)
  str_float : Q -> string;
  str_time : Z -> string;
  (** Entry [i, j] of [df.corr()]; [None] is NaN. *)
  corr : DataFrame -> nat -> nat -> option Q;
  (** The reductions [sum], [mean], [median], [std], [min], [max] and
      [count] of a numeric column, by name. *)
  series_agg : string -> Series -> value;
  (** [Series.mode()] *)
  mode : Series -> list value;
  (** [Series.value_counts()]: the distinct values with their counts. *)
  value_counts : Series -> list (value * nat);
  (** [Series.value_counts(bins=n)]: the intervals with their counts. *)
  value_counts_bins : Series -> nat -> result (list (value * nat));
  (** [df.groupby(x)[y].agg(op).reset_index()] as records. *)
  groupby_agg : DataFrame -> string -> string -> string -> result (list record);
  (** [df.groupby([x, y]).size().reset_index(name="count")] as records. *)
  groupby_size : DataFrame -> string -> string -> result (list record);
  (** [df[cols].describe().reset_index()] as records. *)
  describe : DataFrame -> list string -> result (list record);
  (** The order in which [sample] draws the positions of [n] rows: each
      position once. *)
  sample_order : nat -> list nat;
  sample_order_perm : forall n, Permutation (sample_order n) (seq 0 n)
}.

(** ** [DataCleaner] *)

Section Cleaner.

Context {P : Pandas}.

(** [str(v)], as [astype(str)] applies it to every cell. *)
Definition py_str (v : value) : string :=
  match v with
  | NaN => "nan"
  | VFloat q => str_float q
  | VInt z => Py.str_of_Z z
  | VStr s => s
  | VBool true => "True"
  | VBool false => "False"
  | VTime t => str_time t
  end.

(** Strip; remove what is neither a word character nor whitespace; turn
    each run of whitespace, then each run of underscores, into one
    underscore; strip underscores; an empty result becomes "Column". *)
Definition _clean_column_name (name : string) : string :=
  let name := Py.chars (Py.strip name) in
  let name := filter (fun c => Py.isword c || Py.isspace c) name in
  let name := Py.collapse Py.isspace Py.underscore name in
  let name := Py.collapse Py.is_underscore Py.underscore name in
  let name := Py.strip_by Py.is_underscore name in
  match name with
  | [] => "Column"
  | _ => Py.str name
  end.

(** *** [_handle_unnamed_columns] *)

(** The loop state: the frame, [unnamed_count] and [new_columns]. *)
Definition unnamed_state : Type := DataFrame * nat * list string.

(** The body of the loop over the labels. A label is a string here, so
    the test [pd.isna(col)] is false and only ['Unnamed' in str(col)]
    remains. *)
Definition unnamed_step (st : result unnamed_state) (col : string)
  : result unnamed_state :=
  st <- st ;;
  let '(df, unnamed_count, new_columns) := st in
  if Py.contains "Unnamed" col then
    match series_of df col with
    | None => Raise "ValueError: The truth value of a Series is ambiguous"
    | Some s =>
        if existsb notna (values s) then
          match dropna (values s) with
          | VStr first_val :: _ =>
              if Py.nonempty first_val && (String.length first_val <? 50)
              then Ok (df, unnamed_count,
                       new_columns ++ [_clean_column_name first_val])
              else Ok (df, S unnamed_count,
                       new_columns
                         ++ [("Column_" ++ Py.str_of_nat (S unnamed_count))%string])
          | _ =>
              Ok (df, S unnamed_count,
                  new_columns
                    ++ [("Column_" ++ Py.str_of_nat (S unnamed_count))%string])
          end
        else Ok (drop_columns col df, unnamed_count, new_columns)
    end
  else Ok (df, unnamed_count, new_columns ++ [col]).

Definition _handle_unnamed_columns (df : DataFrame) : result DataFrame :=
  st <- fold_left unnamed_step (labels df) (Ok (df, 0, [])) ;;
  let '(df, _, new_columns) := st in
  if List.length new_columns =? List.length (columns df)
  then Ok (set_labels df new_columns)
  else Ok df.

(** *** [_clean_column_names] *)

(** [cols[cols.duplicated()]]: the entries that repeat an earlier one. *)
Fixpoint duplicated (seen cols : list string) : list string :=
  match cols with
  | [] => []
  | c :: cols' =>
      if Py.mem c seen then c :: duplicated seen cols'
      else duplicated (c :: seen) cols'
  end.

(** [.unique()], in order of first appearance. *)
Fixpoint unique (seen l : list string) : list string :=
  match l with
  | [] => []
  | c :: l' =>
      if Py.mem c seen then unique seen l'
      else c :: unique (c :: seen) l'
  end.

(** One round of the inner loop: the [i]-th further occurrence of [dup]
    becomes [dup_i]; [k] counts the occurrences already passed. *)
Fixpoint rename_occurrences (dup : string) (k : nat) (cols : list string)
  : list string :=
  match cols with
  | [] => []
  | c :: cols' =>
      if String.eqb c dup then
        (match k with
         | O => c
         | S _ => (dup ++ "_" ++ Py.str_of_nat k)%string
         end) :: rename_occurrences dup (S k) cols'
      else c :: rename_occurrences dup k cols'
  end.

Definition dedupe_labels (cols : list string) : list string :=
  fold_left (fun cols dup => rename_occurrences dup 0 cols)
            (unique [] (duplicated [] cols)) cols.

Definition _clean_column_names (df : DataFrame) : DataFrame :=
  let df := set_labels df (map _clean_column_name (labels df)) in
  set_labels df (dedupe_labels (labels df)).

(** *** [_detect_and_convert_types] *)

(** The text handed to [pd.to_numeric]. *)
Definition numeric_text (v : value) : string :=
  Py.strip (Py.replace "$" "" (Py.replace "," "" (py_str v))).

(** An integer that fits the signed 64-bit range of [int64]. *)
Definition is_int64 (o : option number) : bool :=
  match o with
  | Some (NInt z) => ((- 2 ^ 63 <=? z) && (z <? 2 ^ 63))%Z
  | _ => false
  end.

Definition float_cell (o : option number) : value :=
  match o with
  | Some (NInt z) => VFloat (inject_Z z)
  | Some (NFloat q) => VFloat q
  | None => NaN
  end.

Definition int_cell (o : option number) : value :=
  match o with
  | Some (NInt z) => VInt z
  | _ => NaN
  end.

(** [pd.to_numeric(cleaned, errors='coerce')]: [int64] when every cell is
    an integer of the signed 64-bit range, floats otherwise. Two things are
    idealised on columns that hold an integer beyond 2^53 in magnitude:
    pandas rounds such an integer when it makes a float of it, and reads a
    column of non-negative integers that reaches into [2^63, 2^64) as
    [uint64]; here the float is exact and the column is [float64].
    Neither changes whether the reading is numeric or which of its cells
    are missing. *)
Definition numeric_col (s : Series) : Series :=
  let parsed := map (fun v => to_numeric (numeric_text v)) (values s) in
  if forallb is_int64 parsed
  then mkSeries (name s) int64 (map int_cell parsed)
  else mkSeries (name s) float64 (map float_cell parsed).

(** The test on the first ten non-missing cells that guards the datetime
    attempt. *)
Definition looks_like_dates (s : Series) : bool :=
  let sample := map py_str (firstn 10 (dropna (values s))) in
  existsb (fun ch => Py.contains ch (ndarray_str sample)) ["/"; "-"; "20"; "19"].

Definition time_cell (o : option Z) : value :=
  match o with
  | Some t => VTime t
  | None => NaN
  end.

Definition datetime_col (s : Series) (f : nat -> option Z) : Series :=
  mkSeries (name s) datetime64
           (map (fun i => time_cell (f i)) (seq 0 (List.length (values s)))).

(** [df[col].dropna().unique()] *)
Fixpoint unique_values (seen l : list value) : list value :=
  match l with
  | [] => []
  | v :: l' =>
      if existsb (value_eqb v) seen then unique_values seen l'
      else v :: unique_values (v :: seen) l'
  end.

Definition bool_lexicon : list string := ["true"; "false"; "yes"; "no"; "1"; "0"].

Definition bool_map (v : value) : value :=
  match v with
  | VStr s =>
      if Py.mem s ["true"; "True"; "TRUE"; "1"; "yes"; "Yes"; "YES"]
      then VBool true
      else if Py.mem s ["false"; "False"; "FALSE"; "0"; "no"; "No"; "NO"]
      then VBool false
      else NaN
  | _ => NaN
  end.

(** The dtype of the result of [Series.map] with the dictionary of
    booleans: [bool] when every cell is mapped, and [object] as soon as one
    cell is not, were it every cell. *)
Definition infer_mapped (vs : list value) : np_dtype :=
  if forallb is_bool vs then bool_ else object.

Definition boolean_col (s : Series) : Series :=
  let vs := map bool_map (values s) in
  mkSeries (name s) (infer_mapped vs) vs.

Definition looks_boolean (s : Series) : bool :=
  let unique_vals := unique_values [] (dropna (values s)) in
  (List.length unique_vals <=? 3)
  && (let lower_vals := map (fun v => Py.lower (py_str v)) unique_vals in
      existsb (fun val => Py.mem val lower_vals) bool_lexicon).

(** The numeric attempt succeeds. *)
Definition numeric_adopted (len_df : nat) (s : Series) : bool :=
  ratio_gt (notna_count (values (numeric_col s))) len_df 1 2.

(** The datetime attempt is made, does not raise, and succeeds. *)
Definition datetime_adopted (len_df : nat) (s : Series) : option Series :=
  if looks_like_dates s then
    match to_datetime (values s) with
    | Some f =>
        let d := datetime_col s f in
        if ratio_gt (notna_count (values d)) len_df 1 2 then Some d else None
    | None => None
    end
  else None.

(** The loop body for one column. *)
Definition convert_column (len_df : nat) (s : Series) : Series :=
  match dtype s with
  | object =>
      if numeric_adopted len_df s then numeric_col s
      else match datetime_adopted len_df s with
           | Some d => d
           | None => if looks_boolean s then boolean_col s else s
           end
  | _ => s
  end.

Definition convert_step (acc : result DataFrame) (col : string)
  : result DataFrame :=
  df <- acc ;;
  match series_of df col with
  | None => Raise "AttributeError: 'DataFrame' object has no attribute 'dtype'"
  | Some _ => Ok (at_label (fun s => Some (convert_column (nrows df) s)) df col)
  end.

Definition _detect_and_convert_types (df : DataFrame) : result DataFrame :=
  fold_left convert_step (labels df) (Ok df).

(** *** [_handle_missing_values] *)

Definition floats_of (vs : list value) : list Q :=
  flat_map (fun v => match v with
                     | VFloat q => [q]
                     | VInt z => [inject_Z z]
                     | VBool b => [Q_of_bool b]
                     | _ => []
                     end) vs.

(** The loop body for one column; [None] drops it. Frames reach this stage
    with distinct labels, the previous stage raises otherwise. *)
Definition resolve_missing (len_df : nat) (s : Series) : option Series :=
  let null_count := null_count s in
  if null_count =? len_df then None
  else if 0 <? null_count then
    if ratio_gt null_count len_df 9 10 then None
    else if is_numeric_dtype s then
      if ratio_lt null_count len_df 1 2
      then Some (fillna (VFloat (median (floats_of (values s)))) s)
      else Some s
    else if is_string_dtype s then Some (fillna (VStr "") s)
    else Some s
  else Some s.

(** [df.dropna(how='all')] *)
Definition dropna_all (df : DataFrame) : DataFrame :=
  filter_rows (map (fun r => existsb notna r) (rows df)) df.

Definition _handle_missing_values (df : DataFrame) : DataFrame :=
  let df := for_each_column resolve_missing df in
  dropna_all df.

(** *** [_remove_duplicate_rows] *)

Definition row_eqb (r1 r2 : list value) : bool :=
  (List.length r1 =? List.length r2)
  && forallb (fun p => value_eqb (fst p) (snd p)) (combine r1 r2).

(** The mask of the rows that repeat no earlier row. *)
Fixpoint first_occurrences (seen rs : list (list value)) : list bool :=
  match rs with
  | [] => []
  | r :: rs' =>
      if existsb (row_eqb r) seen then false :: first_occurrences seen rs'
      else true :: first_occurrences (r :: seen) rs'
  end.

(** [df.drop_duplicates()]: an empty frame, one without a row or without a
    column, is returned as it is; otherwise the rows that repeat no earlier
    row are kept. *)
Definition drop_duplicates (df : DataFrame) : DataFrame :=
  if empty df then df
  else filter_rows (first_occurrences [] (rows df)) df.

Definition _remove_duplicate_rows (df : DataFrame) : DataFrame :=
  drop_duplicates df.

(** *** [_standardize_text_columns] *)

(** The two mis-decoded sequences and their repairs, as code points. *)
Definition A_tilde : string := String (ascii_of_nat 195) "".
Definition A_tilde_copyright : string :=
  String (ascii_of_nat 195) (String (ascii_of_nat 169) "").
Definition e_acute : string := String (ascii_of_nat 233) "".
Definition a_grave : string := String (ascii_of_nat 224) "".

Definition null_literals : list string := ["nan"; "NaN"; "NULL"; "null"; "None"].

(** The text of a cell after the strip, the whitespace collapse and the two
    repairs. *)
Definition standard_text (v : value) : string :=
  let s := Py.strip (py_str v) in
  let s := Py.str (Py.collapse Py.isspace " "%char (Py.chars s)) in
  Py.replace A_tilde a_grave (Py.replace A_tilde_copyright e_acute s).

Definition standardize_cell (v : value) : value :=
  let s := standard_text v in
  if Py.mem s null_literals then NaN else VStr s.

(** The dtype left by [Series.replace] on an object column: pandas 2.1
    converts the block once the replacement is done, and a non-empty column
    of missing values only becomes a float column. *)
Definition infer_replaced (vs : list value) : np_dtype :=
  match vs with
  | [] => object
  | _ => if forallb isnull vs then float64 else object
  end.

Definition standardize_column (s : Series) : Series :=
  match dtype s with
  | object =>
      let vs := map standardize_cell (values s) in
      mkSeries (name s) (infer_replaced vs) vs
  | _ => s
  end.

(** The loop visits the object columns and reassigns each in place. *)
Definition _standardize_text_columns (df : DataFrame) : DataFrame :=
  mkDF (nrows df) (map standardize_column (columns df)).

(** *** [clean_dataframe] *)

Definition clean_dataframe (df : DataFrame) : result DataFrame :=
  df <- _handle_unnamed_columns df ;;
  let df := _clean_column_names df in
  df <- _detect_and_convert_types df ;;
  let df := _handle_missing_values df in
  let df := _remove_duplicate_rows df in
  Ok (_standardize_text_columns df).

End Cleaner.

(** ** [LLMService]: the fallback classifier *)

(** The intent dictionary. A key that is absent (or null) is [None]. *)
Record Intent : Type := mkIntent {
  intent : option string;
  intent_columns : option (list string);
  operation : option string;
  filters : option (list (string * value));
  chart_type : option string;
  explanation : option string
}.

(** The part of [data_context] the fallback reads. *)
Record DataContext : Type := mkContext {
  context_columns : list string
}.

(** [any(word in query for word in words)] *)
Definition any_word (words : list string) (query : string) : bool :=
  existsb (fun word => Py.contains word query) words.

Definition _detect_operation (query : string) : string :=
  if Py.contains "sum" query || Py.contains "total" query then "sum"
  else if Py.contains "average" query || Py.contains "mean" query then "mean"
  else if Py.contains "count" query then "count"
  else if Py.contains "max" query || Py.contains "maximum" query then "max"
  else if Py.contains "min" query || Py.contains "minimum" query then "min"
  else "describe".

Definition visualize_words : list string := ["chart"; "plot"; "graph"; "visualize"].
Definition filter_words : list string := ["filter"; "where"; "only"].
Definition aggregate_words : list string := ["average"; "sum"; "total"; "count"; "mean"].
Definition compare_words : list string := ["compare"; "versus"; "vs"].
Definition correlation_words : list string := ["correlation"; "relate"].

Definition detect_intent (query_lower : string) : string :=
  if any_word visualize_words query_lower then "visualize"
  else if any_word filter_words query_lower then "filter"
  else if any_word aggregate_words query_lower then "aggregate"
  else if any_word compare_words query_lower then "compare"
  else if any_word correlation_words query_lower then "correlation"
  else "summarize".

Definition detect_chart_type (query_lower : string) : option string :=
  if Py.contains "bar" query_lower then Some "bar"
  else if Py.contains "line" query_lower then Some "line"
  else if Py.contains "pie" query_lower then Some "pie"
  else None.

Definition _fallback_analysis (query : string) (data_context : DataContext)
  : Intent :=
  let query_lower := Py.lower query in
  let columns := context_columns data_context in
  let intent := detect_intent query_lower in
  let mentioned_cols :=
    filter (fun col => Py.contains (Py.lower col) query_lower) columns in
  let chart_type := detect_chart_type query_lower in
  mkIntent (Some intent)
           (Some (match mentioned_cols with
                  | [] => firstn 2 columns
                  | _ => mentioned_cols
                  end))
           (Some (_detect_operation query_lower))
           (Some [])
           chart_type
           (Some ("I understood you want to " ++ intent ++ " the data")%string).

(** ** [QueryProcessor] *)

Record ChartSpec : Type := mkChart {
  chart_kind : string;          (* the field [type] *)
  chart_data : list record;     (* the field [data] *)
  x_axis : string;
  y_axis : string;
  title : option string
}.

Record QueryResponse : Type := mkResponse {
  sender : string;
  text : string;
  data : option (list record);
  chart : option ChartSpec
}.

Section Query.

Context {P : Pandas}.

(** Truthiness of [chart_type]. *)
Definition truthy (o : option string) : bool :=
  match o with
  | Some s => Py.nonempty s
  | None => false
  end.

Definition get_default (A : Type) (o : option A) (d : A) : A :=
  match o with
  | Some a => a
  | None => d
  end.

(** [QueryResponse(text=..., sender="ai")] *)
Definition say (t : string) : QueryResponse := mkResponse "ai" t None None.

(** [df[cols]]: the named columns in the order asked for. *)
Definition project (df : DataFrame) (cols : list string) : DataFrame :=
  mkDF (nrows df)
       (flat_map (fun c => match getitem df c with
                           | Some s => [s]
                           | None => []
                           end) cols).

(** [df.dropna()]: the rows without a missing cell. *)
Definition dropna_any (df : DataFrame) : DataFrame :=
  filter_rows (map (fun r => forallb notna r) (rows df)) df.

Definition is_numeric_label (df : DataFrame) (c : string) : bool :=
  match getitem df c with
  | Some s => is_numeric_dtype s
  | None => false
  end.

(** *** Visualization *)

Definition count_records (x_name : string) (l : list (value * nat))
  : list record :=
  map (fun p => [(x_name, fst p); ("count", VInt (Z.of_nat (snd p)))]) l.

Definition _create_visualization (df : DataFrame) (cols : list string)
  (chart_type : option string) (operation : string) : result QueryResponse :=
  let cols := match cols with
              | [] => firstn 2 (labels df)
              | _ => cols
              end in
  let cols := filter (has_label df) cols in
  let cols := match cols with
              | [] => firstn 2 (labels df)
              | _ => cols
              end in
  plot <-
    match cols with
    | [col] =>
        match getitem df col with
        | Some s =>
            if is_numeric_dtype s then
              counts <- value_counts_bins s 10 ;;
              Ok (firstn 20 (count_records "range" counts), "range", "count")
            else
              Ok (firstn 10 (count_records col (value_counts s)), col, "count")
        | None => Raise "KeyError"
        end
    | x_col :: y_col :: _ =>
        if is_numeric_label df y_col then
          if negb (is_numeric_label df x_col) then
            recs <- groupby_agg df x_col y_col operation ;;
            Ok (firstn 20 recs, x_col, y_col)
          else
            Ok (to_records (head 200 (dropna_any (project df [x_col; y_col]))),
                x_col, y_col)
        else
          recs <- groupby_size df x_col y_col ;;
          Ok (firstn 20 recs, x_col, "count")
    | [] => Raise "ValueError: not enough values to unpack (expected 2, got 0)"
    end ;;
  let '(chart_data, x_axis, y_axis) := plot in
  let chart_type :=
    if truthy chart_type then get_default chart_type ""
    else if List.length chart_data <=? 5 then "pie"
    else if match cols with
            | c :: _ => is_numeric_label df c
            | [] => false
            end then "line"
    else "bar" in
  let chart_spec :=
    mkChart chart_type chart_data x_axis y_axis
            (Some (y_axis ++ " by " ++ x_axis)%string) in
  Ok (mkResponse "ai"
        ("Here's a " ++ chart_type ++ " chart showing " ++ y_axis ++ " by "
           ++ x_axis ++ ". Showing up to "
           ++ Py.str_of_nat (List.length chart_data) ++ " items.")%string
        None (Some chart_spec)).

(** *** Aggregation *)

(** [float(val) if pd.notna(val) else None] *)
Definition float_or_none (v : value) : value :=
  match v with
  | VInt z => VFloat (inject_Z z)
  | VBool b => VFloat (Q_of_bool b)
  | _ => v
  end.

Definition _perform_aggregation (df : DataFrame) (cols : list string)
  (operation : string) : result QueryResponse :=
  let numeric_cols := map name (filter is_np_number (columns df)) in
  let cols :=
    match cols with
    | [] => numeric_cols
    | ["*"] => numeric_cols
    | _ => filter (fun c => Py.mem c numeric_cols) cols
    end in
  match cols with
  | [] => Ok (say "No numeric columns found for aggregation. Please specify numeric columns.")
  | _ =>
      data <-
        (if Py.mem operation ["sum"; "mean"; "count"; "max"; "min"] then
           Ok (flat_map
                 (fun c => match getitem df c with
                           | Some s => [[("Column", VStr c);
                                         ("Value", float_or_none (series_agg operation s))]]
                           | None => []
                           end) cols)
         else describe df cols) ;;
      Ok (mkResponse "ai"
            ("Here are the " ++ operation
               ++ " values for the requested columns:")%string
            (Some data) None)
  end.

(** *** Filtering *)

Definition filter_step (df : DataFrame) (filtered_df : DataFrame)
  (f : string * value) : DataFrame :=
  let (col, v) := f in
  if has_label df col then
    match getitem filtered_df col with
    | Some s => filter_rows (map (fun x => py_eq x v) (values s)) filtered_df
    | None => filtered_df
    end
  else filtered_df.

Definition _filter_data (df : DataFrame) (filters : list (string * value))
  : result QueryResponse :=
  let filtered_df := fold_left (filter_step df) filters df in
  if empty filtered_df then
    Ok (say "No data matches the specified filters. Try adjusting your criteria.")
  else
    let data := to_records (head 20 filtered_df) in
    Ok (mkResponse "ai"
          ("Found " ++ Py.str_of_nat (nrows filtered_df)
             ++ " matching records. Showing the first 20:")%string
          (Some data) None).

(** *** Comparison *)

(** [DataFrame.sample(n)]: [n] rows drawn without replacement, which fails
    when the frame has fewer. *)
Definition sample (n : nat) (df : DataFrame) : result DataFrame :=
  if nrows df <? n
  then Raise "ValueError: Cannot take a larger sample than population when 'replace=False'"
  else
    let picked := firstn n (sample_order (nrows df)) in
    Ok (mkDF (List.length picked)
             (map (fun s => mkSeries (name s) (dtype s)
                              (map (fun i => nth i (values s) NaN) picked))
                  (columns df))).

(** [Series.nunique()] *)
Definition nunique (s : Series) : nat :=
  List.length (unique_values [] (dropna (values s))).

Definition numeric_stats (df : DataFrame) (col : string) : list record :=
  match getitem df col with
  | Some s =>
      [[("Column", VStr col);
        ("Mean", float_or_none (series_agg "mean" s));
        ("Median", float_or_none (series_agg "median" s));
        ("Std Dev", float_or_none (series_agg "std" s));
        ("Min", float_or_none (series_agg "min" s));
        ("Max", float_or_none (series_agg "max" s))]]
  | None => []
  end.

Definition most_common (s : Series) : string :=
  match mode s with
  | v :: _ => py_str v
  | [] => "N/A"
  end.

Definition categorical_stats (df : DataFrame) (col : string) : list record :=
  match getitem df col with
  | Some s =>
      [[("Column", VStr col);
        ("Unique Values", VInt (Z.of_nat (nunique s)));
        ("Most Common", VStr (most_common s));
        ("Missing Values", VInt (Z.of_nat (null_count s)))]]
  | None => []
  end.

Definition _compare_columns (df : DataFrame) (cols : list string)
  : result QueryResponse :=
  if List.length cols <? 2 then
    Ok (say "Please specify at least two columns to compare.")
  else
    let cols := firstn 3 (filter (has_label df) cols) in
    let numeric_cols := filter (is_numeric_label df) cols in
    let cat_cols := filter (fun c => negb (Py.mem c numeric_cols)) cols in
    let comparison_data :=
      flat_map (numeric_stats df) numeric_cols
        ++ flat_map (categorical_stats df) cat_cols in
    chart <-
      match numeric_cols with
      | x :: y :: _ =>
          sample_df <-
            sample (Nat.min 100 (Nat.max 1 (nrows df)))
                   (dropna_any (project df [x; y])) ;;
          Ok (Some (mkChart "line" (to_records sample_df) x y
                      (Some ("Comparison: " ++ x ++ " vs " ++ y)%string)))
      | _ => Ok None
      end ;;
    Ok (mkResponse "ai"
          ("Comparison of " ++ Py.join ", " cols ++ ":")%string
          (Some comparison_data) chart).

(** *** Correlation *)

(** [round(x, 3)]: to the nearest thousandth, halves to the even one. *)
Definition round_half_even (x : Q) : Z :=
  let f := Qfloor x in
  let r := (x - inject_Z f)%Q in
  match (r ?= 1 # 2)%Q with
  | Lt => f
  | Gt => (f + 1)%Z
  | Eq => if Z.even f then f else (f + 1)%Z
  end.

Definition round3 (x : Q) : Q := (round_half_even (x * 1000) # 1000)%Q.

Definition Qgtb (x y : Q) : bool :=
  match (x ?= y)%Q with
  | Gt => true
  | _ => false
  end.

(** One entry of [strong_correlations], before it is made a dictionary:
    the two labels, the rounded coefficient and the strength. *)
Record Correlation : Type := mkCorrelation {
  column_1 : string;
  column_2 : string;
  correlation : Q;
  strength : string
}.

Definition correlation_record (c : Correlation) : record :=
  [("Column 1", VStr (column_1 c));
   ("Column 2", VStr (column_2 c));
   ("Correlation", VFloat (correlation c));
   ("Strength", VStr (strength c))].

(** The positions [(i, j)] with [i < j < n], in the order of the two
    nested loops. *)
Definition index_pairs (n : nat) : list (nat * nat) :=
  flat_map (fun i => map (fun j => (i, j)) (seq (S i) (n - S i))) (seq 0 n).

(** The body of the inner loop, for one pair of positions. *)
Definition correlation_entry (numeric_df : DataFrame) (names : list string)
  (ij : nat * nat) : list Correlation :=
  let (i, j) := ij in
  match corr numeric_df i j with
  | Some corr_value =>
      if Qgtb (Qabs corr_value) (1 # 2) then
        [mkCorrelation (nth i names "") (nth j names "")
                       (round3 corr_value)
                       (if Qgtb (Qabs corr_value) (7 # 10)
                        then "Strong" else "Moderate")]
      else []
  | None => []
  end.

(** [list.sort(key=..., reverse=True)]: a stable sort by decreasing key. *)
Fixpoint insert_desc (A : Type) (key : A -> Q) (x : A) (l : list A) : list A :=
  match l with
  | [] => [x]
  | y :: l' =>
      if Qgtb (key y) (key x) then y :: insert_desc key x l'
      else x :: l
  end.

Fixpoint sort_desc (A : Type) (key : A -> Q) (l : list A) : list A :=
  match l with
  | [] => []
  | x :: l' => insert_desc key x (sort_desc key l')
  end.

Definition strong_correlations (df : DataFrame) : list Correlation :=
  let numeric_df := mkDF (nrows df) (filter is_np_number (columns df)) in
  let names := labels numeric_df in
  sort_desc (fun c => Qabs (correlation c))
            (flat_map (correlation_entry numeric_df names)
                      (index_pairs (List.length names))).

Definition _find_correlations (df : DataFrame) : result QueryResponse :=
  let numeric_df := mkDF (nrows df) (filter is_np_number (columns df)) in
  if empty numeric_df then
    Ok (say "No numeric columns found for correlation analysis.")
  else
    let found := strong_correlations df in
    match found with
    | [] => Ok (say "No strong correlations found between numeric columns (threshold: |r| > 0.5).")
    | _ =>
        Ok (mkResponse "ai"
              ("Found " ++ Py.str_of_nat (List.length found)
                 ++ " significant correlations:")%string
              (Some (map correlation_record (firstn 10 found))) None)
    end.

(** *** Summary *)

(** The per-column summary the handler computes and does not return. *)
Definition col_summary (df : DataFrame) (col : string) : list record :=
  match getitem df col with
  | Some s =>
      [[("Column", VStr col);
        ("Non-Null Count", VInt (Z.of_nat (notna_count (values s))));
        ("Null Count", VInt (Z.of_nat (null_count s)));
        ("Unique Values", VInt (Z.of_nat (nunique s)))]
         ++ (if is_numeric_dtype s
             then [("Mean", float_or_none (series_agg "mean" s));
                   ("Min", float_or_none (series_agg "min" s));
                   ("Max", float_or_none (series_agg "max" s))]
             else [("Most Common", VStr (most_common s))])]
  | None => []
  end.

Definition _summarize_data (df : DataFrame) (cols : list string)
  : result QueryResponse :=
  let cols := match cols with
              | [] => labels df
              | _ => cols
              end in
  let cols := firstn 5 (filter (has_label df) cols) in
  let summary_data := flat_map (col_summary df) cols in
  let sample_data := to_records (head 10 (project df cols)) in
  Ok (mkResponse "ai"
        ("Summary of " ++ Py.join ", " cols ++ ":")%string
        (Some sample_data) None).

(** *** The router *)

Definition error_response (e : string) : QueryResponse :=
  say ("I encountered an error processing your request: " ++ e
         ++ ". Could you please rephrase your question?")%string.

(** [try: ... except Exception as e: ...] *)
Definition catch (r : result QueryResponse) : QueryResponse :=
  match r with
  | Ok resp => resp
  | Raise e => error_response e
  end.

(** The handler the router picks, still free to raise. *)
Definition dispatch (df : DataFrame) (i : Intent) : result QueryResponse :=
  let intent_type := get_default (intent i) "summarize" in
  let cols := get_default (intent_columns i) [] in
  let operation := get_default (operation i) "describe" in
  let chart_type := chart_type i in
  if String.eqb intent_type "visualize" || truthy chart_type then
    _create_visualization df cols chart_type operation
  else if String.eqb intent_type "aggregate" then
    _perform_aggregation df cols operation
  else if String.eqb intent_type "filter" then
    _filter_data df (get_default (filters i) [])
  else if String.eqb intent_type "compare" then
    _compare_columns df cols
  else if String.eqb intent_type "correlation" then
    _find_correlations df
  else
    _summarize_data df cols.

Definition _execute_intent (df : DataFrame) (i : Intent) (query : string)
  : QueryResponse :=
  catch (dispatch df i).

End Query.

(** ** [LLMService]: the SQL text *)

(** [str.upper], character by character. The three Latin-1 letters whose
    capital lies outside Latin-1 (181, 223, 255) are left as they are; the
    function is applied to the names of the five reductions only. *)
Definition upper_char (c : ascii) : ascii :=
  let n := Py.code c in
  if Py.between 97 122 n || (Py.between 224 254 n && negb (n =? 247))
  then ascii_of_nat (n - 32) else c.

Definition upper (s : string) : string := Py.str (map upper_char (Py.chars s)).

Section Sql.

Context {P : Pandas}.

(** [f"{v}"] for a filter value of the intent, where a missing value is
    the [None] that a JSON null is read as. *)
Definition format_value (v : value) : string :=
  match v with
  | NaN => "None"
  | _ => py_str v
  end.

Definition default_query (table_name : string) : string :=
  ("SELECT * FROM " ++ table_name ++ " LIMIT 10")%string.

(** A key of the intent that is absent has the default of [get]. *)
Definition generate_sql_query (intent_analysis : Intent) (table_name : string)
  : string :=
  let intent := get_default (intent intent_analysis) "summarize" in
  let columns := get_default (intent_columns intent_analysis) ["*"] in
  let operation := get_default (operation intent_analysis) "select" in
  let filters := get_default (filters intent_analysis) [] in
  if String.eqb intent "summarize" then default_query table_name
  else if String.eqb intent "aggregate" then
    if Py.mem operation ["sum"; "mean"; "count"; "max"; "min"] then
      let agg_cols :=
        Py.join ", "
          (map (fun col => (upper operation ++ "(" ++ col ++ ") as " ++ col
                              ++ "_" ++ operation)%string)
               (filter (fun col => negb (String.eqb col "*")) columns)) in
      ("SELECT " ++ agg_cols ++ " FROM " ++ table_name)%string
    else default_query table_name
  else if String.eqb intent "filter" then
    let where_clause :=
      Py.join " AND "
        (map (fun kv => (fst kv ++ " = '" ++ format_value (snd kv) ++ "'")%string)
             filters) in
    ("SELECT * FROM " ++ table_name ++ " WHERE " ++ where_clause
       ++ " LIMIT 100")%string
  else default_query table_name.

End Sql.

(** ** [DataAnalyzer] *)

(** The dictionary that [_detect_patterns] returns. *)
Record Patterns : Type := mkPatterns {
  potential_date_columns : list string;
  potential_id_columns : list string;
  constant_columns : list string
}.

(** One entry of the categorical statistics. *)
Record CategoricalStats : Type := mkCategoricalStats {
  unique_count : nat;
  top_values : list (value * nat)
}.

(** [str(dtype)] *)
Definition dtype_str (d : np_dtype) : string :=
  match d with
  | float64 => "float64"
  | int64 => "int64"
  | bool_ => "bool"
  | datetime64 => "datetime64[ns]"
  | object => "object"
  end.

(** [[x for x in l if test(x)]] for a test that may raise. *)
Fixpoint comprehension (A : Type) (test : A -> result bool) (l : list A)
  : result (list A) :=
  match l with
  | [] => Ok []
  | x :: l' =>
      b <- test x ;;
      rest <- comprehension test l' ;;
      Ok (if b then x :: rest else rest)
  end.

Section Analyzer.

Context {P : Pandas}.

(** [pd.to_datetime(col)] with the default [errors='raise']: whether the
    call returns. *)
Variable to_datetime_returns : list value -> bool.

(** [df[cols].describe().to_dict()], kept abstract. *)
Variable NumericStats : Type.
Variable describe_dict : DataFrame -> list string -> result NumericStats.

(** The body of the loop that collects the date columns. With a repeated
    label [df[col]] is a frame, which has no [dtype]; the test is outside
    the [try]. *)
Definition date_step (df : DataFrame) (acc : result (list string))
  (col : string) : result (list string) :=
  date_cols <- acc ;;
  match series_of df col with
  | None => Raise "AttributeError: 'DataFrame' object has no attribute 'dtype'"
  | Some s =>
      match dtype s with
      | object =>
          if to_datetime_returns (firstn 100 (dropna (values s)))
          then Ok (date_cols ++ [col])
          else Ok date_cols
      | _ => Ok date_cols
      end
  end.

(** [df[col].nunique() / len(df) > 0.95]: a quotient of two Python
    integers, which fails on a zero divisor. *)
Definition id_test (df : DataFrame) (col : string) : result bool :=
  match series_of df col with
  | None => Raise "ValueError: The truth value of a Series is ambiguous"
  | Some s =>
      if nrows df =? 0 then Raise "ZeroDivisionError: division by zero"
      else Ok (ratio_gt (nunique s) (nrows df) 19 20)
  end.

(** [df[col].nunique() == 1] *)
Definition constant_test (df : DataFrame) (col : string) : result bool :=
  match series_of df col with
  | None => Raise "ValueError: The truth value of a Series is ambiguous"
  | Some s => Ok (nunique s =? 1)
  end.

Definition _detect_patterns (df : DataFrame) : result Patterns :=
  date_cols <- fold_left (date_step df) (labels df) (Ok []) ;;
  id_cols <- comprehension (id_test df) (labels df) ;;
  constant <- comprehension (constant_test df) (labels df) ;;
  Ok (mkPatterns date_cols id_cols constant).

(** The summary dictionary. The two entries of [statistics] are present
    when the frame has a column of the kind. *)
Record Summary : Type := mkSummary {
  shape : nat * nat;
  summary_columns : list string;
  dtypes : list (string * string);
  missing_values : list (string * nat);
  statistics_numeric : option NumericStats;
  statistics_categorical : option (list (string * CategoricalStats));
  patterns : Patterns
}.

(** What [analyze_dataframe] returns: the summary, or the dictionary with
    the single key [error], whose text stands for the exception caught. *)
Inductive Analysis : Type :=
| Analyzed (summary : Summary)
| Failed (error : string).

(** The statistics of one categorical column. With a repeated label pandas
    computes them on a frame and the analysis fails further on, in
    [_detect_patterns]; the first column of the label stands for it here. *)
Definition categorical_entry (df : DataFrame) (col : string)
  : list (string * CategoricalStats) :=
  match getitem df col with
  | Some s => [(col, mkCategoricalStats (nunique s) (firstn 10 (value_counts s)))]
  | None => []
  end.

Definition analyze_dataframe (df : DataFrame) : Analysis :=
  let attempt :=
    let numeric_cols := map name (filter is_np_number (columns df)) in
    numeric <-
      match numeric_cols with
      | [] => Ok None
      | _ => stats <- describe_dict df numeric_cols ;; Ok (Some stats)
      end ;;
    let categorical_cols :=
      map name (filter (fun s => np_dtype_eqb (dtype s) object) (columns df)) in
    let categorical :=
      match categorical_cols with
      | [] => None
      | _ => Some (flat_map (categorical_entry df) (firstn 10 categorical_cols))
      end in
    patterns <- _detect_patterns df ;;
    Ok (mkSummary (nrows df, List.length (columns df))
                  (labels df)
                  (map (fun s => (name s, dtype_str (dtype s))) (columns df))
                  (map (fun s => (name s, null_count s)) (columns df))
                  numeric categorical patterns) in
  match attempt with
  | Ok summary => Analyzed summary
  | Raise e => Failed e
  end.

End Analyzer.

Arguments Failed {NumericStats} error.

(** ** [FileService] *)

(** A Python float. *)
Inductive pyfloat : Type :=
| Finite (q : Q)
| NotANumber
| Infinity (negative : bool).

(** The scalars that reach [make_dict_json_serializable], as Python
    objects or as numpy scalars. *)
Inductive scalar : Type :=
| SNone
| SBool (b : bool)
| SInt (z : Z)
| SFloat (f : pyfloat)
| SStr (s : string).

(** The objects that reach [make_dict_json_serializable]. The keys of a
    dictionary are left as they are by the function; they are strings here.
    A numpy scalar is an instance of [np.generic] that wraps a scalar other
    than [None]. *)
#[local] Unset Elimination Schemes.

Inductive pyobj : Type :=
| PyDict (items : list (string * pyobj))
| PyList (elements : list pyobj)
| PyTuple (elements : list pyobj)
| PyTimestamp (t : Z)
| PyNumpy (x : scalar)
| PyScalar (x : scalar).

#[local] Set Elimination Schemes.

Definition isfinite (f : pyfloat) : bool :=
  match f with
  | Finite _ => true
  | _ => false
  end.

(** [d[k] = v] *)
Fixpoint dict_set (A : Type) (d : list (string * A)) (k : string) (v : A)
  : list (string * A) :=
  match d with
  | [] => [(k, v)]
  | (k', v') :: d' =>
      if String.eqb k' k then (k', v) :: d' else (k', v') :: dict_set d' k v
  end.

(** [Series.tolist()] on one cell. *)
Definition tolist_cell (v : value) : pyobj :=
  match v with
  | NaN => PyScalar (SFloat NotANumber)
  | VFloat q => PyScalar (SFloat (Finite q))
  | VInt z => PyScalar (SInt z)
  | VStr s => PyScalar (SStr s)
  | VBool b => PyScalar (SBool b)
  | VTime t => PyTimestamp t
  end.

Section FileService.

(** [Timestamp.isoformat()] *)
Variable isoformat : Z -> string.

(** The branches in the order of the source: dictionary, list, timestamp,
    numpy scalar, Python float that is not finite, anything else. A numpy
    float is a Python float as well, and is taken by the earlier branch;
    [item()] returns the Python scalar of the same value. *)
Fixpoint make_dict_json_serializable (d : pyobj) : pyobj :=
  match d with
  | PyDict items =>
      PyDict (map (fun kv => match kv with
                             | (k, v) => (k, make_dict_json_serializable v)
                             end) items)
  | PyList elements => PyList (map make_dict_json_serializable elements)
  | PyTimestamp t => PyScalar (SStr (isoformat t))
  | PyNumpy x => PyScalar x
  | PyScalar (SFloat f) => if isfinite f then d else PyScalar SNone
  | _ => d
  end.

Definition column_info (s : Series) : pyobj :=
  PyDict [("dtype", PyScalar (SStr (dtype_str (dtype s))));
          ("unique_values", PyScalar (SInt (Z.of_nat (nunique s))));
          ("null_count", PyScalar (SInt (Z.of_nat (null_count s))));
          ("sample_values",
           PyList (map tolist_cell (firstn 3 (dropna (values s)))))].

(** The body of the loop of [_get_columns_info]. *)
Definition info_step (df : DataFrame) (acc : result (list (string * pyobj)))
  (col : string) : result (list (string * pyobj)) :=
  info <- acc ;;
  match series_of df col with
  | None => Raise "AttributeError: 'DataFrame' object has no attribute 'dtype'"
  | Some s => Ok (dict_set info col (column_info s))
  end.

Definition _get_columns_info (df : DataFrame) : result pyobj :=
  info <- fold_left (info_step df) (labels df) (Ok []) ;;
  Ok (PyDict info).

End FileService.

(** ** The upload route *)

(** The exceptions raised inside the route: an [HTTPException], or any
    other. *)
Inductive exception : Type :=
| HTTPException (status_code : nat) (detail : string)
| OtherException (message : string).

(** A computation that returns or raises. *)
Inductive outcome (A : Type) : Type :=
| Returned (a : A)
| Raised (e : exception).

Arguments Returned {A} a.
Arguments Raised {A} e.

(** What the client receives: the body, or the error that leaves the
    route. *)
Inductive reply (A : Type) : Type :=
| Body (a : A)
| HTTPError (status_code : nat) (detail : string).

Arguments Body {A} a.
Arguments HTTPError {A} status_code detail.

Definition is_dot (c : ascii) : bool := Ascii.eqb c "."%char.

(** [s.split('.')[-1]] on the characters: what follows the last dot, or
    everything when there is no dot. *)
Fixpoint last_segment (l : list ascii) : list ascii :=
  match l with
  | [] => []
  | _ :: l' => if existsb is_dot l then last_segment l' else l
  end.

Definition ALLOWED_EXTENSIONS : list string := [".xlsx"; ".xls"; ".csv"].

Section Routes.

(** The result of [FileService.process_upload], which may raise. *)
Variable Upload : Type.
Variable process_upload : string -> outcome Upload.

(** [str(e)] for an exception, and the message that lists the allowed
    extensions (a set, printed in no fixed order). *)
Variable exception_str : exception -> string.
Variable unsupported_detail : string.

(** The body of the [try]. A missing file name is [None]. *)
Definition validate_and_process (filename : option string) : outcome Upload :=
  match filename with
  | None => Raised (HTTPException 400 "No file provided")
  | Some name =>
      if Py.nonempty name then
        let file_ext :=
          ("." ++ Py.lower (Py.str (last_segment (Py.chars name))))%string in
        if Py.mem file_ext ALLOWED_EXTENSIONS then process_upload name
        else Raised (HTTPException 400 unsupported_detail)
      else Raised (HTTPException 400 "No file provided")
  end.

(** [except Exception as e: raise HTTPException(500, detail=str(e))]: the
    clause also catches the two [HTTPException]s raised in the body. *)
Definition upload_file (filename : option string) : reply Upload :=
  match validate_and_process filename with
  | Returned result => Body result
  | Raised e => HTTPError 500 (exception_str e)
  end.

End Routes.

(** ** A reference implementation of the library

    Exact rational arithmetic stands for floating point; square roots are
    taken to nine decimals. The examples below run on it. *)

Module Ref.

Definition digit_of (c : ascii) : option Z :=
  let n := Py.code c in
  if Py.between 48 57 n then Some (Z.of_nat (n - 48)) else None.

Fixpoint parse_digits (acc : Z) (l : list ascii) : option Z :=
  match l with
  | [] => Some acc
  | c :: l' =>
      match digit_of c with
      | Some d => parse_digits (10 * acc + d)%Z l'
      | None => None
      end
  end.

(** The characters before and after the first dot, if there is one. *)
Fixpoint split_dot (l : list ascii) : list ascii * option (list ascii) :=
  match l with
  | [] => ([], None)
  | c :: l' =>
      if Ascii.eqb c "."%char then ([], Some l')
      else let (a, b) := split_dot l' in (c :: a, b)
  end.

Definition unsigned_number (l : list ascii) : option number :=
  match split_dot l with
  | (ip, None) =>
      match ip with
      | [] => None
      | _ => option_map NInt (parse_digits 0 ip)
      end
  | (ip, Some fp) =>
      match ip ++ fp with
      | [] => None
      | ds =>
          option_map
            (fun n => NFloat (Qred (n # Pos.pow 10 (Pos.of_nat (List.length fp))
                                    * (if List.length fp =? 0 then 10 else 1))))
            (parse_digits 0 ds)
      end
  end.

Definition negate (n : number) : number :=
  match n with
  | NInt z => NInt (- z)
  | NFloat q => NFloat (- q)
  end.

(** Decimal numerals: an optional sign, digits, an optional fraction. *)
Definition to_numeric (s : string) : option number :=
  match Py.chars s with
  | c :: l =>
      if Ascii.eqb c "-"%char then option_map negate (unsigned_number l)
      else if Ascii.eqb c "+"%char then unsigned_number l
      else unsigned_number (c :: l)
  | [] => None
  end.

(** ISO dates [YYYY-MM-DD], as the number [YYYYMMDD]. *)
Definition parse_date (v : value) : option Z :=
  match v with
  | VStr s =>
      match Py.chars s with
      | [y1; y2; y3; y4; d1; m1; m2; d2; a1; a2] =>
          if Ascii.eqb d1 "-"%char && Ascii.eqb d2 "-"%char then
            match parse_digits 0 [y1; y2; y3; y4], parse_digits 0 [m1; m2],
                  parse_digits 0 [a1; a2] with
            | Some y, Some m, Some d =>
                if ((1 <=? m) && (m <=? 12) && (1 <=? d) && (d <=? 31))%Z
                then Some (y * 10000 + m * 100 + d)%Z
                else None
            | _, _, _ => None
            end
          else None
      | _ => None
      end
  | VTime t => Some t
  | _ => None
  end.

Definition to_datetime (vs : list value) : option (nat -> option Z) :=
  Some (fun i => parse_date (nth i vs NaN)).

Definition ndarray_str (l : list string) : string :=
  ("[" ++ Py.join " " (map (fun s => "'" ++ s ++ "'") l) ++ "]")%string.

Definition Qleb (x y : Q) : bool :=
  match (x ?= y)%Q with
  | Gt => false
  | _ => true
  end.

Fixpoint insert_asc (x : Q) (l : list Q) : list Q :=
  match l with
  | [] => [x]
  | y :: l' => if Qleb x y then x :: l else y :: insert_asc x l'
  end.

Definition sort_asc (l : list Q) : list Q := fold_right insert_asc [] l.

(** Linear interpolation between the order statistics, as numpy does. *)
Definition quantile (num den : nat) (l : list Q) : Q :=
  let s := sort_asc l in
  let n := List.length s in
  let k := (num * (n - 1)) / den in
  let frac := (Z.of_nat ((num * (n - 1)) mod den) # Pos.of_nat den)%Q in
  let a := nth k s 0%Q in
  let b := nth (S k) s a in
  Qred (a + frac * (b - a)).

Definition median (l : list Q) : Q := quantile 1 2 l.

Definition Qsum (l : list Q) : Q := Qred (fold_right Qplus 0%Q l).

Definition mean (l : list Q) : Q :=
  Qred (Qsum l / inject_Z (Z.of_nat (List.length l))).

(** The square root of a non-negative rational, to nine decimals. *)
Definition Qsqrt (x : Q) : Q :=
  Qred (Z.sqrt (Qfloor (x * inject_Z (10 ^ 18))) # Pos.pow 10 9).

Definition variance (ddof : nat) (l : list Q) : Q :=
  let m := mean l in
  Qred (Qsum (map (fun x => (x - m) * (x - m))%Q l)
        / inject_Z (Z.of_nat (List.length l - ddof))).

Definition series_agg (op : string) (s : Series) : value :=
  let l := floats_of (values s) in
  let n := List.length l in
  if String.eqb op "count" then VInt (Z.of_nat n)
  else if String.eqb op "sum" then VFloat (Qsum l)
  else if n =? 0 then NaN
  else if String.eqb op "mean" then VFloat (mean l)
  else if String.eqb op "median" then VFloat (median l)
  else if String.eqb op "min" then VFloat (nth 0 (sort_asc l) 0%Q)
  else if String.eqb op "max" then VFloat (nth (n - 1) (sort_asc l) 0%Q)
  else if String.eqb op "std" then
    if n <? 2 then NaN else VFloat (Qsqrt (variance 1 l))
  else NaN.

(** Pearson's coefficient over the rows where both columns are present. *)
Definition pearson (xs ys : list value) : option Q :=
  let both := filter (fun p => notna (fst p) && notna (snd p)) (combine xs ys) in
  let x := floats_of (map fst both) in
  let y := floats_of (map snd both) in
  match x with
  | [] => None
  | _ =>
      let mx := mean x in
      let my := mean y in
      let cov := Qsum (map (fun p => (fst p - mx) * (snd p - my))%Q (combine x y)) in
      let vx := Qsum (map (fun a => (a - mx) * (a - mx))%Q x) in
      let vy := Qsum (map (fun b => (b - my) * (b - my))%Q y) in
      if Qeq_bool (vx * vy) 0 then None
      else
        let r := Qsqrt (cov * cov / (vx * vy)) in
        Some (match (cov ?= 0)%Q with
              | Lt => Qred (- r)
              | _ => r
              end)
  end.

Definition corr (df : DataFrame) (i j : nat) : option Q :=
  match nth_error (columns df) i, nth_error (columns df) j with
  | Some a, Some b => pearson (values a) (values b)
  | _, _ => None
  end.

Definition count_of (v : value) (l : list value) : nat :=
  List.length (filter (value_eqb v) l).

Fixpoint insert_by_count (x : value * nat) (l : list (value * nat))
  : list (value * nat) :=
  match l with
  | [] => [x]
  | y :: l' =>
      if snd x <? snd y then y :: insert_by_count x l' else x :: l
  end.

(** Distinct values by decreasing count, ties in order of appearance. *)
Definition value_counts (s : Series) : list (value * nat) :=
  let present := dropna (values s) in
  fold_right insert_by_count []
             (map (fun v => (v, count_of v present)) (unique_values [] present)).

Definition mode (s : Series) : list value :=
  match value_counts s with
  | [] => []
  | (v, n) :: l => v :: map fst (filter (fun p => snd p =? n) l)
  end.

Definition str_digits (width : nat) (n : Z) : string :=
  let s := Py.str_of_nat (Z.to_nat n) in
  (Py.str (repeat "0"%char (width - String.length s)) ++ s)%string.

(** A float in decimal notation with at most six fractional digits. *)
Definition str_float (q : Q) : string :=
  let n := Qfloor (Qabs q * inject_Z (10 ^ 6)) in
  let frac :=
    Py.str (rev (Py.dropwhile (Ascii.eqb "0"%char)
                   (rev (Py.chars (str_digits 6 (n mod 10 ^ 6)))))) in
  ((if Qgtb 0 q then "-" else "")
     ++ Py.str_of_nat (Z.to_nat (n / 10 ^ 6)) ++ "."
     ++ (if String.eqb frac "" then "0" else frac))%string.

Definition str_time (t : Z) : string :=
  (str_digits 4 (t / 10000) ++ "-" ++ str_digits 2 ((t / 100) mod 100)
     ++ "-" ++ str_digits 2 (t mod 100) ++ " 00:00:00")%string.

(** Ten bins of equal width between the least and the greatest value. *)
Definition value_counts_bins (s : Series) (bins : nat)
  : result (list (value * nat)) :=
  let l := sort_asc (floats_of (values s)) in
  match l, dtype s with
  | [], _ => Raise "ValueError: cannot specify integer `bins` when input data contains infinity"
  | _, bool_ => Raise "TypeError: numpy boolean subtract"
  | lo :: _, _ =>
      let hi := nth (List.length l - 1) l lo in
      let width := ((hi - lo) / inject_Z (Z.of_nat bins))%Q in
      let edge := fun k => Qred (lo + inject_Z (Z.of_nat k) * width) in
      let bin := fun k =>
        (VStr ("(" ++ str_float (edge k) ++ ", " ++ str_float (edge (S k)) ++ "]")%string,
         List.length
           (filter (fun x => (if k =? 0 then Qleb (edge k) x else Qgtb x (edge k))
                             && Qleb x (edge (S k))) l)) in
      Ok (fold_right insert_by_count [] (map bin (seq 0 bins)))
  end.

(** The groups of [key], in order of first appearance. *)
Definition group_rows (df : DataFrame) (key : list value)
  : list (list value * list nat) :=
  map (fun k => (k, filter (fun i => row_eqb (map (fun s => nth i (values s) NaN)
                                                   (columns df)) k)
                           (seq 0 (nrows df))))
      ((fix uniq (seen l : list (list value)) : list (list value) :=
          match l with
          | [] => []
          | r :: l' => if existsb (row_eqb r) seen then uniq seen l'
                       else r :: uniq (r :: seen) l'
          end) [] (filter (forallb notna) (rows df))).

Definition groupby_agg (df : DataFrame) (x y op : string) : result (list record) :=
  if Py.mem op ["sum"; "mean"; "median"; "min"; "max"; "count"; "std"] then
    match getitem df x, getitem df y with
    | Some sx, Some sy =>
        Ok (map (fun k => [(x, k);
                           (y, series_agg op
                                 (mkSeries y (dtype sy)
                                    (map snd (filter (fun p => value_eqb (fst p) k)
                                                (combine (values sx) (values sy))))))])
                (unique_values [] (dropna (values sx))))
    | _, _ => Raise "KeyError"
    end
  else Raise ("AttributeError: 'SeriesGroupBy' object has no attribute '" ++ op ++ "'").

Definition groupby_size (df : DataFrame) (x y : string) : result (list record) :=
  match getitem df x, getitem df y with
  | Some sx, Some sy =>
      let pairs := filter (fun p => notna (fst p) && notna (snd p))
                          (combine (values sx) (values sy)) in
      let same := fun p q : value * value =>
                    value_eqb (fst p) (fst q) && value_eqb (snd p) (snd q) in
      Ok (map (fun p => [(x, fst p); (y, snd p);
                         ("count", VInt (Z.of_nat (List.length (filter (same p) pairs))))])
              ((fix uniq (seen l : list (value * value)) : list (value * value) :=
                  match l with
                  | [] => []
                  | p :: l' => if existsb (same p) seen then uniq seen l'
                               else p :: uniq (p :: seen) l'
                  end) [] pairs))
  | _, _ => Raise "KeyError"
  end.

Definition describe (df : DataFrame) (cols : list string) : result (list record) :=
  let stat := fun (label : string) (f : Series -> value) =>
    ("index", VStr label)
      :: flat_map (fun c => match getitem df c with
                            | Some s => [(c, f s)]
                            | None => []
                            end) cols in
  let q := fun num den (s : Series) =>
    match floats_of (values s) with
    | [] => NaN
    | l => VFloat (quantile num den l)
    end in
  Ok [stat "count" (series_agg "count"); stat "mean" (series_agg "mean");
      stat "std" (series_agg "std"); stat "min" (series_agg "min");
      stat "25%" (q 1 4); stat "50%" (q 1 2); stat "75%" (q 3 4);
      stat "max" (series_agg "max")].

(** One draw: the rows from the last to the first. *)
Definition sample_order (n : nat) : list nat := rev (seq 0 n).

End Ref.

#[export] Instance ref_pandas : Pandas := {|
  to_numeric := Ref.to_numeric;
  to_datetime := Ref.to_datetime;
  ndarray_str := Ref.ndarray_str;
  median := Ref.median;
  str_float := Ref.str_float;
  str_time := Ref.str_time;
  corr := Ref.corr;
  series_agg := Ref.series_agg;
  mode := Ref.mode;
  value_counts := Ref.value_counts;
  value_counts_bins := Ref.value_counts_bins;
  groupby_agg := Ref.groupby_agg;
  groupby_size := Ref.groupby_size;
  describe := Ref.describe;
  sample_order := Ref.sample_order;
  sample_order_perm := fun n => Permutation_sym (Permutation_rev (seq 0 n))
|}.

(** ** Example inputs *)

Definition text_column (n : string) (l : list string) : Series :=
  mkSeries n object (map VStr l).

Definition int_column (n : string) (l : list Z) : Series :=
  mkSeries n int64 (map VInt l).

Definition float_column (n : string) (l : list (option Q)) : Series :=
  mkSeries n float64 (map (fun o => match o with
                                    | Some q => VFloat q
                                    | None => NaN
                                    end) l).

(** The two sales records of the specification. *)
Definition sales_df : DataFrame :=
  mkDF 2 [text_column "region" ["east"; "west"]; int_column "sales" [10; 20]%Z].

(** The intent the model-based classifier returns when it follows its
    prompt and proposes a scatter plot. *)
Definition scatter_intent : Intent :=
  mkIntent (Some "visualize") (Some ["region"]) (Some "count") (Some [])
           (Some "scatter") (Some "a scatter plot of the regions").

Definition sales_context : DataContext := mkContext ["region"; "sales"].

(** Two columns in perfect negative correlation: y = 8 - 2 x. *)
Definition anticorrelated_df : DataFrame :=
  mkDF 3 [int_column "x" [1; 2; 3]%Z;
          float_column "y" [Some 6%Q; Some 4%Q; Some 2%Q];
          text_column "tag" ["a"; "b"; "c"]].

(** Three numeric columns: the coefficient of x and b is 0.8, that of x and
    c is 0.80012, that of b and c is above 0.9999. *)
Definition near_tie_df : DataFrame :=
  mkDF 5 [int_column "x" [1; 2; 3; 4; 5]%Z;
          int_column "b" [1; 3; 2; 5; 4]%Z;
          int_column "c" [1000; 3000; 2000; 5000; 4001]%Z].

(** A numeric column that is half missing next to a complete one. *)
Definition half_missing_df : DataFrame :=
  mkDF 4 [float_column "a" [Some 1%Q; Some 2%Q; None; None];
          int_column "b" [1; 2; 3; 4]%Z].

(** A text column that holds null literals only, next to an ordinary one. *)
Definition null_text_df : DataFrame :=
  mkDF 2 [text_column "a" [" NULL"; "None "]; text_column "b" ["x"; "y"]].

(** A text column of which exactly half parses as a number. *)
Definition half_numeric_df : DataFrame :=
  mkDF 2 [text_column "a" ["5"; "x"]].

(** A text column of which two thirds parse as numbers. *)
Definition mostly_numeric_df : DataFrame :=
  mkDF 3 [text_column "price" ["$5"; "1,007"; "x"]].

(** Three distinct raw labels, two of which normalise to the same name
    while the third is that name with the suffix of the first repeat. *)
Definition colliding_df : DataFrame :=
  mkDF 1 [text_column "a b" ["u"]; text_column "a_b" ["v"];
          text_column "a_b_1" ["w"]].

(** Three rows of which the third repeats the first. *)
Definition repeated_df : DataFrame :=
  mkDF 3 [int_column "id" [1; 2; 1]%Z; text_column "tag" ["a"; "b"; "a"]].

(** A numeric column and a text column that each miss one cell of three. *)
Definition gap_df : DataFrame :=
  mkDF 3 [float_column "a" [Some 1%Q; None; Some 3%Q];
          mkSeries "t" object [VStr "u"; NaN; VStr "w"]].

Definition mixed_nan_dict : pyobj :=
  PyDict [("shape", PyTuple [PyScalar (SInt 1); PyScalar (SInt 1)]);
          ("a", PyNumpy (SFloat NotANumber));
          ("b", PyScalar (SFloat NotANumber))].

(** Three rows with a key and a column that holds one value. *)
Definition keyed_df : DataFrame :=
  mkDF 3 [int_column "id" [1; 2; 3]%Z; text_column "kind" ["a"; "a"; "a"]].

(** A numeric column without a row. *)
Definition no_rows_df : DataFrame := mkDF 0 [int_column "a" []].

(** A frame as [read_csv] loads it from a sheet with a title row and an
    empty column: three columns without a header, one of them empty. *)
Definition unnamed_df : DataFrame :=
  mkDF 2 [text_column "Unnamed: 0" ["Name"; "x"];
          float_column "Unnamed: 1" [None; None];
          int_column "n" [1; 2]%Z;
          int_column "Unnamed: 3" [5; 6]%Z].

(** One row, with a text column and a numeric column. *)
Definition one_row_df : DataFrame :=
  mkDF 1 [text_column "region" ["east"]; int_column "sales" [10]%Z].



(** Tables on which a second pass finds work that the first pass made:
    a label that becomes "Unnamed"; a text column in which the numbers
    become the majority once the repeated rows are gone; a numeric column
    whose missing cells become the minority for the same reason; a row that
    the standardisation empties; two rows that it makes equal. *)
Definition hyphen_label_df : DataFrame :=
  mkDF 2 [text_column "Un-named" ["x"; "y"]].

Definition late_numeric_df : DataFrame :=
  mkDF 5 [text_column "t" ["5"; "7"; "x"; "x"; "x"]].

Definition late_gap_df : DataFrame :=
  mkDF 4 [float_column "a" [Some 1%Q; Some 2%Q; None; None];
          text_column "b" ["p"; "q"; "r"; "r"]].

Definition late_empty_row_df : DataFrame :=
  mkDF 2 [text_column "t" ["x"; "NULL"]].

Definition late_repeat_df : DataFrame :=
  mkDF 2 [text_column "t" ["a"; "a "]].

(** ** Specification vocabulary *)

(** [w] occurs in [s] as a substring. *)
Definition occurs_in (w s : string) : Prop :=
  exists pre suf : string, s = (pre ++ w ++ suf)%string.

(** The query contains a word of the group. *)
Definition mentions (group : list string) (query : string) : Prop :=
  exists w, In w group /\ occurs_in w query.

(** [l'] keeps, in order, exactly the entries of [l] that satisfy [keep]. *)
Inductive Selected (A : Type) (keep : A -> Prop) : list A -> list A -> Prop :=
| sel_nil : Selected keep [] []
| sel_keep : forall x l l', keep x -> Selected keep l l' ->
                            Selected keep (x :: l) (x :: l')
| sel_skip : forall x l l', ~ keep x -> Selected keep l l' ->
                            Selected keep (x :: l) l'.

(** What the correlation handler reports for the positions [i < j] of two
    numeric columns whose coefficient is [r]. *)
Definition reported_pair (names : list string) (i j : nat) (r : Q)
  : Correlation :=
  mkCorrelation (nth i names "") (nth j names "") (round3 r)
                (if Qgtb (Qabs r) (7 # 10) then "Strong" else "Moderate").

(** [select_dtypes(include=[np.number])] *)
Definition numeric_frame (df : DataFrame) : DataFrame :=
  mkDF (nrows df) (filter is_np_number (columns df)).

(** The coefficient at a pair of positions, 0 standing for NaN. *)
Definition coefficient {P : Pandas} (N : DataFrame) (ij : nat * nat) : Q :=
  match corr N (fst ij) (snd ij) with
  | Some r => r
  | None => 0%Q
  end.

(** The pair of positions has a coefficient, and its magnitude exceeds 0.5. *)
Definition clears_threshold {P : Pandas} (N : DataFrame) (ij : nat * nat)
  : Prop :=
  exists r, corr N (fst ij) (snd ij) = Some r /\ (1 # 2 < Qabs r)%Q.

(** The record of row [i] of a frame. *)
Definition record_at (df : DataFrame) (i : nat) : record :=
  map (fun s => (name s, nth i (values s) NaN)) (columns df).

Definition opt_list (A : Type) (o : option A) : list A :=
  match o with
  | Some a => [a]
  | None => []
  end.

(** The column has a cell that is not missing. *)
Definition has_value (s : Series) : Prop :=
  exists v, In v (values s) /\ v <> NaN.

Definition is_some (A : Type) (o : option A) : bool :=
  match o with
  | Some _ => true
  | None => false
  end.

(** The pipeline up to, and without, the text standardisation. *)
Definition before_standardization {P : Pandas} (df : DataFrame)
  : result DataFrame :=
  df <- _handle_unnamed_columns df ;;
  let df := _clean_column_names df in
  df <- _detect_and_convert_types df ;;
  Ok (_remove_duplicate_rows (_handle_missing_values df)).

(** The pipeline up to, and with, the normalisation of the names. *)
Definition after_names {P : Pandas} (df : DataFrame) : result DataFrame :=
  df <- _handle_unnamed_columns df ;;
  Ok (_clean_column_names df).

(** The cell reads as one of the five null literals once standardised. *)
Definition reads_as_null {P : Pandas} (v : value) : Prop :=
  In (standard_text v) null_literals.

(** The number of cells of a column that parse as numbers once the
    separators and the currency sign are stripped. *)
Definition parsed_count {P : Pandas} (s : Series) : nat :=
  notna_count (values (numeric_col s)).

(** The three readings that type inference tries on a text column of a
    frame of [n] rows. It reads the column as numbers when more than half
    of the rows parse as numbers. *)
Definition reads_numbers {P : Pandas} (n : nat) (s : Series) : Prop :=
  0 < n /\ n < 2 * parsed_count s.

(** It reads the column as dates, with the timestamps [f], when its first
    ten values, printed as an array, show a slash, a dash, 20 or 19, the
    datetime parse does not raise, and more than half of the rows get a
    timestamp. *)
Definition reads_dates {P : Pandas} (n : nat) (s : Series)
  (f : nat -> option Z) : Prop :=
  mentions ["/"; "-"; "20"; "19"]
           (ndarray_str (map py_str (firstn 10 (dropna (values s)))))
  /\ to_datetime (values s) = Some f
  /\ 0 < n /\ n < 2 * notna_count (values (datetime_col s f)).

(** It reads the column as booleans when this has at most three distinct
    values and one of them, in lower case, is a boolean word. *)
Definition reads_booleans {P : Pandas} (s : Series) : Prop :=
  nunique s <= 3
  /\ exists v, In v (unique_values [] (dropna (values s)))
               /\ In (Py.lower (py_str v))
                     ["true"; "false"; "yes"; "no"; "1"; "0"].

(** No row repeats an earlier one. *)
Definition distinct_rows (df : DataFrame) : Prop :=
  ForallOrdPairs (fun earlier later => row_eqb later earlier = false) (rows df).


(** [a] may stand before [b] in a list sorted by decreasing key. *)
Definition key_ge (A : Type) (key : A -> Q) (a b : A) : Prop :=
  (key b <= key a)%Q.

(** The label [c] names exactly one column. *)
Definition unique_in (ls : list string) (c : string) : bool :=
  List.length (filter (fun l => String.eqb l c) ls) =? 1.

(** The test of the inner loop. *)
Definition clears_thresholdb {P : Pandas} (N : DataFrame) (ij : nat * nat) : bool :=
  match corr N (fst ij) (snd ij) with
  | Some r => Qgtb (Qabs r) (1 # 2)
  | None => false
  end.

(** A name that is not empty and made of word characters (letters, digits,
    underscore). *)
Definition well_named (l : string) : Prop :=
  l <> "" /\ Forall (fun c => Py.isword c = true) (Py.chars l).

(** The frame made of the rows of [df] at the positions [idx]. *)
Definition take_rows (idx : list nat) (df : DataFrame) : DataFrame :=
  mkDF (List.length idx)
       (map (fun s => mkSeries (name s) (dtype s)
                        (map (fun i => nth i (values s) NaN) idx))
            (columns df)).

(** The cell of row [i] in the column labelled [col]. *)
Definition cell (df : DataFrame) (i : nat) (col : string) : value :=
  match getitem df col with
  | Some s => nth i (values s) NaN
  | None => NaN
  end.

(** Row [i] passes one filter: the column is absent, or the cell equals the
    literal. *)
Definition passes (df : DataFrame) (i : nat) (f : string * value) : bool :=
  if has_label df (fst f) then py_eq (cell df i (fst f)) (snd f) else true.

(** Row [i] passes every filter. *)
Definition matches (df : DataFrame) (fs : list (string * value)) (i : nat)
  : bool :=
  forallb (passes df i) fs.

(** The label names a column that [select_dtypes(include=[np.number])]
    retains. *)
Definition is_np_label (df : DataFrame) (c : string) : bool :=
  match getitem df c with
  | Some s => is_np_number s
  | None => false
  end.

(** The request [columns] of the aggregation handler asks for every
    numeric column. *)
Definition requests_all (cols : list string) : bool :=
  match cols with
  | [] => true
  | ["*"] => true
  | _ => false
  end.

(** The record that the aggregation handler returns for the column [c]. *)
Definition aggregated {P : Pandas} (df : DataFrame) (op c : string)
  (rec : record) : Prop :=
  exists s, In s (columns df) /\ name s = c /\ is_np_number s = true
            /\ rec = [("Column", VStr c);
                      ("Value", float_or_none (series_agg op s))].

(** The chart types that the front end draws. *)
Definition supported_charts : list string := ["bar"; "line"; "pie"].

(** [h] is the first of bar, line and pie, tried in this order, that occurs
    in the query. *)
Definition first_chart_word (q h : string) : Prop :=
  (occurs_in "bar" q /\ h = "bar")
  \/ (~ occurs_in "bar" q /\ occurs_in "line" q /\ h = "line")
  \/ (~ occurs_in "bar" q /\ ~ occurs_in "line" q
      /\ occurs_in "pie" q /\ h = "pie").

(** What a JSON document can hold: no timestamp, no numpy scalar and no
    float that is not finite; a tuple is written as a list. *)
Fixpoint json_safe (d : pyobj) : bool :=
  match d with
  | PyDict items =>
      forallb (fun kv => match kv with (_, v) => json_safe v end) items
  | PyList elements => forallb json_safe elements
  | PyTuple elements => forallb json_safe elements
  | PyTimestamp _ => false
  | PyNumpy _ => false
  | PyScalar (SFloat f) => isfinite f
  | PyScalar _ => true
  end.

(** Every tuple in the object can be written to JSON as it is. *)
Fixpoint tuples_safe (d : pyobj) : bool :=
  match d with
  | PyDict items =>
      forallb (fun kv => match kv with (_, v) => tuples_safe v end) items
  | PyList elements => forallb tuples_safe elements
  | PyTuple elements => forallb json_safe elements
  | _ => true
  end.

(** No numpy float of the object, outside the tuples, is NaN or infinite. *)
Fixpoint numpy_finite (d : pyobj) : bool :=
  match d with
  | PyDict items =>
      forallb (fun kv => match kv with (_, v) => numpy_finite v end) items
  | PyList elements => forallb numpy_finite elements
  | PyNumpy (SFloat f) => isfinite f
  | _ => true
  end.

(** The tests of [_detect_patterns] on a column. *)
Definition looks_like_id (df : DataFrame) (c : string) : bool :=
  match getitem df c with
  | Some s => ratio_gt (nunique s) (nrows df) 19 20
  | None => false
  end.

Definition is_constant (df : DataFrame) (c : string) : bool :=
  match getitem df c with
  | Some s => nunique s =? 1
  | None => false
  end.

(** An unnamed column without a value: the one kind of column that
    [_handle_unnamed_columns] drops. *)
Definition empty_unnamed (s : Series) : bool :=
  Py.contains "Unnamed" (name s) && negb (existsb notna (values s)).

(** The labels that [_handle_unnamed_columns] gives to the columns it
    keeps, in their order, [k] columns having been numbered so far. A
    column whose label does not contain "Unnamed" keeps its label. An
    unnamed column whose first value is a non-empty text of fewer than 50
    characters is labelled with the normalisation of that text. Any other
    unnamed column is numbered: it is labelled "Column_" followed by the
    number of columns numbered up to and including it. *)
Inductive relabelled : nat -> list Series -> list string -> Prop :=
| relabelled_nil : forall k, relabelled k [] []
| relabelled_named : forall k s cs ns,
    Py.contains "Unnamed" (name s) = false ->
    relabelled k cs ns ->
    relabelled k (s :: cs) (name s :: ns)
| relabelled_value : forall k s cs ns v others,
    Py.contains "Unnamed" (name s) = true ->
    dropna (values s) = VStr v :: others ->
    v <> "" -> String.length v < 50 ->
    relabelled k cs ns ->
    relabelled k (s :: cs) (_clean_column_name v :: ns)
| relabelled_numbered : forall k s cs ns,
    Py.contains "Unnamed" (name s) = true ->
    (forall v others, dropna (values s) = VStr v :: others ->
                      v = "" \/ 50 <= String.length v) ->
    relabelled (S k) cs ns ->
    relabelled k (s :: cs) (("Column_" ++ Py.str_of_nat (S k))%string :: ns).

(** No integer read off a cell of the column exceeds 2^53 in magnitude:
    each is then a float without rounding, and fits [int64]. *)
Definition exact_integers {P : Pandas} (s : Series) : Prop :=
  Forall (fun v => forall z, to_numeric (numeric_text v) = Some (NInt z) ->
                             (Z.abs z <= 2 ^ 53)%Z)
         (values s).

(** No two neighbours in the list satisfy [p]. *)
Definition isolated (p : ascii -> bool) (l : list ascii) : Prop :=
  forall pre a b suf, l = pre ++ a :: b :: suf -> p a = true -> p b = false.

(** The list is empty or its first character is outside the class. *)
Definition starts_clear (p : ascii -> bool) (l : list ascii) : bool :=
  match l with
  | [] => true
  | c :: _ => negb (p c)
  end.

(** The list is empty or its last character is outside the class. *)
Fixpoint ends_clear (p : ascii -> bool) (l : list ascii) : bool :=
  match l with
  | [] => true
  | [c] => negb (p c)
  | _ :: l' => ends_clear p l'
  end.


(** Text as the standardisation leaves it: no whitespace at either end,
    no two whitespace characters in a row, no whitespace but the space, and
    no character of code 195. *)
Definition standard_chars (l : list ascii) : Prop :=
  starts_clear Py.isspace l = true
  /\ ends_clear Py.isspace l = true
  /\ isolated Py.isspace l
  /\ (forall c, In c l -> Py.isspace c = true -> c = " "%char)
  /\ ~ In (ascii_of_nat 195) l.

(** The four steps of the standardisation, on the characters. *)
Definition text_pass (l : list ascii) : list ascii :=
  Py.replace_from (Py.chars A_tilde) (Py.chars a_grave) 0
    (Py.replace_from (Py.chars A_tilde_copyright) (Py.chars e_acute) 0
       (Py.collapse Py.isspace " "%char (Py.strip_by Py.isspace l))).

(** The extension that the upload route reads off a file name. *)
Definition extension (name : string) : string :=
  Py.lower (Py.str (last_segment (Py.chars name))).

(** * Properties *)

(** ** Strings *)

Lemma chars_app (a b : string) :
  Py.chars (a ++ b)%string = Py.chars a ++ Py.chars b.
Proof.
  induction a as [|c a IH]; simpl; [reflexivity|].
  unfold Py.chars in *. simpl. now rewrite IH.
Qed.

Lemma str_chars (s : string) : Py.str (Py.chars s) = s.
Proof. apply string_of_list_ascii_of_string. Qed.

Lemma chars_str (l : list ascii) : Py.chars (Py.str l) = l.
Proof. apply list_ascii_of_string_of_list_ascii. Qed.

Lemma str_app (a b : list ascii) :
  Py.str (a ++ b) = (Py.str a ++ Py.str b)%string.
Proof.
  rewrite <- (str_chars (Py.str a ++ Py.str b)), chars_app, !chars_str.
  reflexivity.
Qed.

Lemma prefixb_spec (p l : list ascii) :
  Py.prefixb p l = true <-> exists suf, l = p ++ suf.
Proof.
  revert l. induction p as [|a p IH]; intros l; simpl.
  - split; [intros _; now exists l | reflexivity].
  - destruct l as [|b l].
    + split; [discriminate | intros [suf H]; discriminate].
    + rewrite andb_true_iff, Ascii.eqb_eq, IH. split.
      * intros [-> [suf ->]]. now exists suf.
      * intros [suf H]. injection H as -> ->. split; [reflexivity | now exists suf].
Qed.

Lemma containsb_spec (p l : list ascii) :
  Py.containsb p l = true <-> exists pre suf, l = pre ++ p ++ suf.
Proof.
  induction l as [|c l IH].
  - simpl. rewrite orb_false_r, prefixb_spec. split.
    + intros [suf H]. now exists [], suf.
    + intros [pre [suf H]]. destruct pre; [now exists suf | discriminate].
  - cbn [Py.containsb]. rewrite orb_true_iff, prefixb_spec, IH. split.
    + intros [[suf H] | [pre [suf H]]].
      * now exists [], suf.
      * exists (c :: pre), suf. simpl. now rewrite H.
    + intros [pre [suf H]]. destruct pre as [|c' pre].
      * left. now exists suf.
      * right. injection H as _ H. now exists pre, suf.
Qed.

Lemma contains_spec (w s : string) :
  Py.contains w s = true <-> occurs_in w s.
Proof.
  unfold Py.contains, occurs_in. rewrite containsb_spec. split.
  - intros [pre [suf H]]. exists (Py.str pre), (Py.str suf).
    rewrite <- (str_chars s), H, !str_app, str_chars. reflexivity.
  - intros [pre [suf ->]]. exists (Py.chars pre), (Py.chars suf).
    now rewrite !chars_app.
Qed.

Lemma contains_false (w s : string) :
  Py.contains w s = false <-> ~ occurs_in w s.
Proof.
  rewrite <- contains_spec. destruct (Py.contains w s); split; intuition congruence.
Qed.

Lemma any_word_spec (group : list string) (query : string) :
  any_word group query = true <-> mentions group query.
Proof.
  unfold any_word, mentions. rewrite existsb_exists.
  split; intros [w [Hin H]]; exists w; split; try assumption;
    now apply contains_spec.
Qed.

Lemma any_word_false (group : list string) (query : string) :
  any_word group query = false <-> ~ mentions group query.
Proof.
  rewrite <- any_word_spec. destruct (any_word group query); split; intuition congruence.
Qed.

Lemma filter_Selected (A : Type) (f : A -> bool) (keep : A -> Prop) (l : list A) :
  (forall x, f x = true <-> keep x) -> Selected keep l (filter f l).
Proof.
  intros H. induction l as [|x l IH]; simpl; [constructor|].
  destruct (f x) eqn:E.
  - apply sel_keep; [now apply H | exact IH].
  - apply sel_skip; [|exact IH]. intros K. apply H in K. congruence.
Qed.

Lemma Selected_nil_iff (A : Type) (keep : A -> Prop) (l : list A) :
  Selected keep l [] <-> Forall (fun x => ~ keep x) l.
Proof.
  split.
  - intros H. remember [] as l' eqn:E. induction H; try discriminate; auto.
  - induction 1; constructor; auto.
Qed.

Lemma Selected_fun (A : Type) (keep : A -> Prop) (l l1 l2 : list A) :
  Selected keep l l1 -> Selected keep l l2 -> l1 = l2.
Proof.
  intros H1. revert l2. induction H1; intros l2 H2; inversion H2; subst;
    try contradiction; try reflexivity; try (f_equal; auto); auto.
Qed.

(** ** The fallback classifier *)






(** ** The router and its handlers *)

Section RouterFacts.

Context {P : Pandas}.

Lemma bind_Ok (A B : Type) (r : result A) (k : A -> result B) (b : B) :
  (x <- r ;; k x) = Ok b -> exists a, r = Ok a /\ k a = Ok b.
Proof. destruct r as [a|e]; simpl; [now exists a | discriminate]. Qed.

Lemma firstn_seq_min (n a m : nat) : firstn n (seq a m) = seq a (Nat.min n m).
Proof.
  revert a m. induction n as [|n IH]; intros a m; [reflexivity|].
  destruct m as [|m]; [reflexivity|]. simpl. now rewrite IH.
Qed.

Lemma to_records_rows (df : DataFrame) :
  columns df <> [] ->
  to_records df = map (record_at df) (seq 0 (nrows df)).
Proof. unfold to_records, record_at. now destruct (columns df). Qed.

Lemma to_records_no_columns (df : DataFrame) :
  columns df = [] -> to_records df = [].
Proof. unfold to_records. now intros ->. Qed.

Lemma to_records_head (n : nat) (df : DataFrame) :
  to_records (head n df) = firstn n (to_records df).
Proof.
  destruct (columns df) as [|c cs] eqn:E.
  { rewrite !to_records_no_columns; [now rewrite firstn_nil | exact E |].
    unfold head. cbn [columns]. now rewrite E. }
  rewrite !to_records_rows;
    [| now rewrite E | unfold head; cbn [columns]; now rewrite E].
  clear E. unfold record_at, head. cbn [nrows columns].
  rewrite firstn_map, firstn_seq_min.
  apply map_ext_in. intros i Hi. apply in_seq in Hi.
  rewrite map_map. apply map_ext. intros s. cbn [name values].
  f_equal. rewrite <- (firstn_skipn n (values s)) at 2.
  destruct (Nat.lt_ge_cases i (List.length (firstn n (values s)))) as [L|L].
  - now rewrite app_nth1.
  - rewrite (nth_overflow (firstn n (values s))) by assumption.
    destruct (Nat.lt_ge_cases n (List.length (values s))) as [L'|L'].
    + rewrite length_firstn in L. lia.
    + rewrite nth_overflow; [reflexivity|].
      rewrite firstn_skipn. rewrite length_firstn in L. lia.
Qed.

Lemma visualization_text (df : DataFrame) (cols : list string)
  (hint : option string) (op : string) (r : QueryResponse) :
  _create_visualization df cols hint op = Ok r ->
  exists kind rest : string, text r = ("Here's a " ++ kind ++ rest)%string.
Proof.
  unfold _create_visualization. intros H.
  apply bind_Ok in H. destruct H as [[[chart_data x] y] [_ H]].
  injection H as <-. cbn [text]. eexists. eexists. reflexivity.
Qed.

Lemma visualization_kind (df : DataFrame) (cols : list string)
  (hint : string) (op : string) (r : QueryResponse) :
  hint <> "" ->
  _create_visualization df cols (Some hint) op = Ok r ->
  exists c, chart r = Some c /\ chart_kind c = hint.
Proof.
  unfold _create_visualization. intros Hne H.
  apply bind_Ok in H. destruct H as [[[chart_data x] y] [_ H]].
  injection H as <-. cbn [chart]. eexists. split; [reflexivity|].
  cbn [chart_kind truthy get_default]. unfold Py.nonempty.
  destruct (String.eqb_spec hint ""); [contradiction | reflexivity].
Qed.

Lemma aggregation_text (df : DataFrame) (cols : list string) (op : string)
  (r : QueryResponse) :
  _perform_aggregation df cols op = Ok r -> text r <> "".
Proof.
  unfold _perform_aggregation. intros H.
  match type of H with
  | match ?c with _ => _ end = _ => destruct c
  end.
  - injection H as <-. discriminate.
  - apply bind_Ok in H. destruct H as [d [_ H]]. injection H as <-. discriminate.
Qed.

Lemma filter_text (df : DataFrame) (fs : list (string * value))
  (r : QueryResponse) :
  _filter_data df fs = Ok r -> text r <> "".
Proof.
  unfold _filter_data. intros H.
  destruct (empty _); injection H as <-; discriminate.
Qed.

Lemma compare_text (df : DataFrame) (cols : list string) (r : QueryResponse) :
  _compare_columns df cols = Ok r -> text r <> "".
Proof.
  unfold _compare_columns. intros H.
  destruct (List.length cols <? 2).
  - injection H as <-. discriminate.
  - apply bind_Ok in H. destruct H as [c [_ H]]. injection H as <-. discriminate.
Qed.

Lemma correlations_text (df : DataFrame) (r : QueryResponse) :
  _find_correlations df = Ok r -> text r <> "".
Proof.
  unfold _find_correlations. intros H.
  destruct (empty _); [injection H as <-; discriminate|].
  destruct (strong_correlations df); injection H as <-; discriminate.
Qed.

Lemma summarize_text (df : DataFrame) (cols : list string) (r : QueryResponse) :
  _summarize_data df cols = Ok r -> text r <> "".
Proof.
  unfold _summarize_data. intros H. injection H as <-. discriminate.
Qed.

Lemma dispatch_text (df : DataFrame) (i : Intent) (r : QueryResponse) :
  dispatch df i = Ok r -> text r <> "".
Proof.
  unfold dispatch. intros H.
  destruct (_ || _).
  { apply visualization_text in H. destruct H as [k [rest ->]]. discriminate. }
  destruct (String.eqb _ "aggregate"); [now apply aggregation_text in H|].
  destruct (String.eqb _ "filter"); [now apply filter_text in H|].
  destruct (String.eqb _ "compare"); [now apply compare_text in H|].
  destruct (String.eqb _ "correlation"); [now apply correlations_text in H|].
  now apply summarize_text in H.
Qed.

(** C1. The router is total: whatever the frame, the intent and the query,
    [_execute_intent] yields a response sent by "ai" whose text is not
    empty; the response is the handler's when the handler returns, and the
    apology that quotes the exception when the handler raises. *)
Theorem execute_intent_never_raises (df : DataFrame) (i : Intent)
  (query : string) :
  exists r : QueryResponse,
    _execute_intent df i query = r
    /\ text r <> ""
    /\ (forall r', dispatch df i = Ok r' -> r = r')
    /\ (forall e, dispatch df i = Raise e ->
          r = say ("I encountered an error processing your request: " ++ e
                     ++ ". Could you please rephrase your question?")%string).
Proof.
  exists (_execute_intent df i query). split; [reflexivity|].
  unfold _execute_intent, catch.
  destruct (dispatch df i) as [r|e] eqn:D.
  - split; [now apply dispatch_text in D|].
    split; [intros r' H; now injection H | intros e H; discriminate].
  - split; [discriminate|].
    split; [intros r' H; discriminate | intros e' H; now injection H as ->].
Qed.

End RouterFacts.

Section FilterFacts.

Context {P : Pandas}.

Lemma detect_chart_type_none (q : string) :
  ~ mentions ["bar"; "line"; "pie"] q -> detect_chart_type q = None.
Proof.
  intros H. unfold detect_chart_type.
  assert (A : forall w, In w ["bar"; "line"; "pie"] -> Py.contains w q = false).
  { intros w Hw. apply contains_false. intros O. apply H. now exists w. }
  rewrite (A "bar"), (A "line"), (A "pie"); simpl; auto.
Qed.

Lemma detect_intent_filter (q : string) :
  ~ mentions visualize_words q -> mentions filter_words q ->
  detect_intent q = "filter".
Proof.
  intros V F. unfold detect_intent.
  apply any_word_false in V. apply any_word_spec in F. now rewrite V, F.
Qed.

Lemma filter_data_no_filters (df : DataFrame) :
  0 < nrows df -> columns df <> [] ->
  _filter_data df []
  = Ok (mkResponse "ai"
          ("Found " ++ Py.str_of_nat (nrows df)
             ++ " matching records. Showing the first 20:")%string
          (Some (firstn 20 (to_records df))) None).
Proof.
  intros R C. unfold _filter_data. cbn [fold_left].
  assert (E : empty df = false).
  { unfold empty. apply orb_false_iff. split; apply Nat.eqb_neq; [lia|].
    destruct (columns df); [contradiction | discriminate]. }
  rewrite E, to_records_head. reflexivity.
Qed.

(** C10. The fallback classifier always answers with an empty filter
    mapping. Hence, on a frame with at least one row and one column, a
    query that the fallback sends to the filter handler (a filter word and
    no visualization word in it, and none of bar, line, pie) is answered
    with the first 20 rows of the whole frame and its total row count, and
    not with the "no match" message. *)
Theorem fallback_filter_returns_all_rows :
  (forall query ctx, filters (_fallback_analysis query ctx) = Some [])
  /\ (forall df query ctx,
        0 < nrows df -> columns df <> [] ->
        ~ mentions visualize_words (Py.lower query) ->
        mentions filter_words (Py.lower query) ->
        ~ mentions ["bar"; "line"; "pie"] (Py.lower query) ->
        dispatch df (_fallback_analysis query ctx) = _filter_data df []
        /\ _execute_intent df (_fallback_analysis query ctx) query
           = mkResponse "ai"
               ("Found " ++ Py.str_of_nat (nrows df)
                  ++ " matching records. Showing the first 20:")%string
               (Some (firstn 20 (to_records df))) None
        /\ text (_execute_intent df (_fallback_analysis query ctx) query)
           <> "No data matches the specified filters. Try adjusting your criteria.").
Proof.
  split; [reflexivity|].
  intros df query ctx R C V F B.
  assert (D : dispatch df (_fallback_analysis query ctx) = _filter_data df []).
  { unfold dispatch, _fallback_analysis.
    cbn [intent intent_columns operation filters chart_type get_default].
    rewrite (detect_chart_type_none B), (detect_intent_filter V F).
    reflexivity. }
  split; [exact D|].
  unfold _execute_intent. rewrite D, (filter_data_no_filters df R C).
  cbn [catch text]. split; [reflexivity | discriminate].
Qed.

End FilterFacts.

Lemma fallback_filter_witness :
  _execute_intent (P := ref_pandas) sales_df
                  (_fallback_analysis "Show only east" sales_context)
                  "Show only east"
  = mkResponse "ai" "Found 2 matching records. Showing the first 20:"
      (Some [[("region", VStr "east"); ("sales", VInt 10)];
             [("region", VStr "west"); ("sales", VInt 20)]]) None.
Proof.
  refine (proj1 (proj2 (proj2 (@fallback_filter_returns_all_rows ref_pandas)
            sales_df "Show only east" sales_context _ _ _ _ _))).
  - simpl. lia.
  - discriminate.
  - apply any_word_false. reflexivity.
  - apply any_word_spec. reflexivity.
  - apply any_word_false. reflexivity.
Defined.

(** C4. A chart type handed to the visualization handler is emitted as it
    is: whenever the handler returns for a non-empty hint, the chart has
    exactly that type. In particular the hint "scatter", which the prompt of
    the model-based classifier offers, yields a chart of type "scatter",
    which is none of bar, line and pie. *)
Theorem scatter_hint_is_emitted :
  (forall (P : Pandas) df cols hint op r,
      hint <> "" ->
      _create_visualization df cols (Some hint) op = Ok r ->
      exists c, chart r = Some c /\ chart_kind c = hint)
  /\ (exists c,
        chart (_execute_intent (P := ref_pandas) sales_df scatter_intent
                               "scatter plot of the regions") = Some c
        /\ chart_kind c = "scatter"
        /\ ~ In (chart_kind c) ["bar"; "line"; "pie"]).
Proof.
  split.
  - intros P df cols hint op r. apply visualization_kind.
  - eexists. split; [vm_compute; reflexivity|]. split; [reflexivity|].
    cbn [chart_kind]. simpl. intros [H|[H|[H|[]]]]; discriminate.
Qed.

(** ** The correlation handler *)

Lemma Qgtb_true (x y : Q) : Qgtb x y = true <-> (y < x)%Q.
Proof.
  unfold Qgtb. change (y < x)%Q with (x > y)%Q. rewrite Qgt_alt.
  destruct (x ?= y)%Q; split; congruence.
Qed.

Lemma Qgtb_false (x y : Q) : Qgtb x y = false <-> (x <= y)%Q.
Proof.
  unfold Qgtb. rewrite Qle_alt.
  destruct (x ?= y)%Q; split; congruence.
Qed.

Lemma insert_desc_perm (A : Type) (key : A -> Q) (x : A) (l : list A) :
  Permutation (insert_desc key x l) (x :: l).
Proof.
  induction l as [|y l IH]; simpl; [reflexivity|].
  destruct (Qgtb (key y) (key x)); [|reflexivity].
  rewrite IH. apply perm_swap.
Qed.

Lemma sort_desc_perm (A : Type) (key : A -> Q) (l : list A) :
  Permutation (sort_desc key l) l.
Proof.
  induction l as [|x l IH]; simpl; [reflexivity|].
  rewrite insert_desc_perm. now constructor.
Qed.

Lemma insert_desc_sorted (A : Type) (key : A -> Q) (x : A) (l : list A) :
  StronglySorted (key_ge key) l ->
  StronglySorted (key_ge key) (insert_desc key x l).
Proof.
  induction 1 as [|y l S IH F]; simpl.
  - repeat constructor.
  - destruct (Qgtb (key y) (key x)) eqn:E.
    + constructor; [exact IH|].
      apply (Permutation_Forall (Permutation_sym (insert_desc_perm key x l))).
      constructor; [|exact F].
      apply Qgtb_true in E. now apply Qlt_le_weak.
    + apply Qgtb_false in E.
      constructor; [now constructor|].
      constructor; [exact E|].
      apply Forall_forall. intros z Hz.
      rewrite Forall_forall in F. specialize (F z Hz).
      unfold key_ge in *. now apply Qle_trans with (key y).
Qed.

Lemma sort_desc_sorted (A : Type) (key : A -> Q) (l : list A) :
  StronglySorted (key_ge key) (sort_desc key l).
Proof.
  induction l as [|x l IH]; simpl; [constructor|].
  now apply insert_desc_sorted.
Qed.

Lemma in_index_pairs (n i j : nat) :
  In (i, j) (index_pairs n) <-> i < j < n.
Proof.
  unfold index_pairs. rewrite in_flat_map. split.
  - intros [k [Hk H]]. apply in_seq in Hk. apply in_map_iff in H.
    destruct H as [m [E Hm]]. injection E as -> ->. apply in_seq in Hm. lia.
  - intros H. exists i. split; [apply in_seq; lia|].
    apply in_map_iff. exists j. split; [reflexivity | apply in_seq; lia].
Qed.

Lemma NoDup_index_pairs (n : nat) : NoDup (index_pairs n).
Proof.
  unfold index_pairs.
  assert (G : forall l : list nat, NoDup l ->
            NoDup (flat_map (fun i => map (fun j => (i, j))
                                          (seq (S i) (n - S i))) l)).
  { induction 1 as [|i l Hi Hl IH]; simpl; [constructor|].
    apply NoDup_app.
    - apply Finite.Injective_map_NoDup; [|apply seq_NoDup].
      intros a b E. now injection E.
    - exact IH.
    - intros [a b] Ha Hb. apply in_map_iff in Ha.
      destruct Ha as [m [E _]]. injection E as <- _.
      apply in_flat_map in Hb. destruct Hb as [k [Hk Hb]].
      apply in_map_iff in Hb. destruct Hb as [m' [E' _]].
      injection E' as -> _. contradiction. }
  apply G, seq_NoDup.
Qed.

Section CorrelationFacts.

Context {P : Pandas}.

Lemma in_correlation_entry (N : DataFrame) (names : list string)
  (i j : nat) (c : Correlation) :
  In c (correlation_entry N names (i, j))
  <-> exists r, corr N i j = Some r /\ (1 # 2 < Qabs r)%Q
                /\ c = reported_pair names i j r.
Proof.
  unfold correlation_entry, reported_pair. split.
  - destruct (corr N i j) as [r|]; [|intros []].
    destruct (Qgtb (Qabs r) (1 # 2)) eqn:E; [|intros []].
    intros [<-|[]]. exists r. split; [reflexivity|].
    split; [now apply Qgtb_true | reflexivity].
  - intros [r [-> [H ->]]]. apply Qgtb_true in H. rewrite H. now left.
Qed.

Lemma in_strong_correlations (df : DataFrame) (c : Correlation) :
  let N := numeric_frame df in
  In c (strong_correlations df)
  <-> exists i j r, i < j < List.length (columns N)
                    /\ corr N i j = Some r /\ (1 # 2 < Qabs r)%Q
                    /\ c = reported_pair (labels N) i j r.
Proof.
  cbv zeta. unfold strong_correlations. fold (numeric_frame df).
  split.
  - intros H. apply (Permutation_in _ (sort_desc_perm _ _)) in H.
    apply in_flat_map in H. destruct H as [[i j] [Hp H]].
    apply in_index_pairs in Hp. apply in_correlation_entry in H.
    destruct H as [r H]. exists i, j, r. split; [|exact H].
    unfold labels in Hp. now rewrite length_map in Hp.
  - intros [i [j [r [Hp H]]]].
    apply (Permutation_in _ (Permutation_sym (sort_desc_perm _ _))).
    apply in_flat_map. exists (i, j). split.
    + apply in_index_pairs. unfold labels. now rewrite length_map.
    + apply in_correlation_entry. now exists r.
Qed.

Lemma round3_minus_one (r : Q) :
  (r == -1)%Q -> (round3 r == -1)%Q /\ Qgtb (Qabs r) (7 # 10) = true.
Proof.
  intros H. split.
  - unfold round3.
    assert (E : round_half_even (r * 1000) = (-1000)%Z).
    { unfold round_half_even.
      assert (F : Qfloor (r * 1000) = (-1000)%Z).
      { rewrite (Qfloor_comp (r * 1000) (inject_Z (-1000))).
        - apply Qfloor_Z.
        - rewrite H. reflexivity. }
      rewrite F.
      assert (C : (r * 1000 - inject_Z (-1000) ?= 1 # 2)%Q = Lt).
      { apply Qlt_alt. rewrite H. reflexivity. }
      now rewrite C. }
    rewrite E. reflexivity.
  - apply Qgtb_true. rewrite H. reflexivity.
Qed.

End CorrelationFacts.

Lemma filter_insert_desc (A : Type) (key : A -> Q) (k : Q) (x : A) (l : list A) :
  filter (fun c => Qeq_bool (key c) k) (insert_desc key x l)
  = filter (fun c => Qeq_bool (key c) k) (x :: l).
Proof.
  induction l as [|y l IH]; [reflexivity|].
  cbn [insert_desc]. destruct (Qgtb (key y) (key x)) eqn:E; [|reflexivity].
  cbn [filter] in *. rewrite IH.
  destruct (Qeq_bool (key x) k) eqn:Ex; [|reflexivity].
  destruct (Qeq_bool (key y) k) eqn:Ey; [|reflexivity].
  apply Qeq_bool_iff in Ex, Ey. apply Qgtb_true in E.
  rewrite Ex, Ey in E. now apply Qlt_irrefl in E.
Qed.

(** The sort is stable: entries of equal key keep their order. *)
Lemma sort_desc_stable (A : Type) (key : A -> Q) (k : Q) (l : list A) :
  filter (fun c => Qeq_bool (key c) k) (sort_desc key l)
  = filter (fun c => Qeq_bool (key c) k) l.
Proof.
  induction l as [|x l IH]; [reflexivity|].
  cbn [sort_desc]. rewrite filter_insert_desc. cbn [filter]. now rewrite IH.
Qed.

Section CorrelationSpec.

Context {P : Pandas}.

Lemma clears_thresholdb_spec (N : DataFrame) (ij : nat * nat) :
  clears_thresholdb N ij = true <-> clears_threshold N ij.
Proof.
  unfold clears_thresholdb, clears_threshold.
  destruct (corr N (fst ij) (snd ij)) as [r|].
  - rewrite Qgtb_true. split.
    + intros H. now exists r.
    + intros [r' [E H]]. now injection E as ->.
  - split; [discriminate | intros [r [E _]]; discriminate].
Qed.

Lemma correlation_entries_filter (N : DataFrame) (names : list string)
  (pairs : list (nat * nat)) :
  flat_map (correlation_entry N names) pairs
  = map (fun ij => reported_pair names (fst ij) (snd ij) (coefficient N ij))
        (filter (clears_thresholdb N) pairs).
Proof.
  induction pairs as [|[i j] pairs IH]; [reflexivity|].
  cbn [flat_map filter]. rewrite IH.
  unfold correlation_entry at 1, clears_thresholdb at 2, coefficient at 2.
  cbn [fst snd]. destruct (corr N i j) as [r|] eqn:E; [|reflexivity].
  destruct (Qgtb (Qabs r) (1 # 2)); [|reflexivity].
  cbn [map app]. unfold coefficient at 1. cbn [fst snd]. now rewrite E.
Qed.

(** C8, as amended. The correlation handler considers every pair of
    positions [i < j] of numeric columns once; it keeps exactly the pairs
    whose coefficient exists and exceeds 0.5 in magnitude, reports for each
    the two labels, the coefficient rounded to three decimals, and Strong
    when the magnitude of the unrounded coefficient exceeds 0.7, Moderate
    otherwise; it orders the entries by decreasing magnitude of the rounded
    coefficient, entries that agree after rounding staying in loop order,
    and returns the first ten. Without a numeric column, without a row, or
    without a pair above the threshold it returns a message and no table,
    and a returned table is never empty. A pair whose coefficient is -1 is
    entered with Correlation -1 and Strength Strong, and is the whole table
    when the frame has just these two numeric columns. *)
Theorem find_correlations_spec (df : DataFrame) :
  let N := numeric_frame df in
  let names := labels N in
  let report := fun ij => reported_pair names (fst ij) (snd ij) (coefficient N ij) in
  let magnitude := fun c => Qabs (correlation c) in
  let found := strong_correlations df in
  (NoDup (index_pairs (List.length names))
   /\ forall i j, In (i, j) (index_pairs (List.length names))
                  <-> i < j < List.length names)
  /\ (exists kept,
        Selected (clears_threshold N) (index_pairs (List.length names)) kept
        /\ Permutation found (map report kept)
        /\ forall k, filter (fun c => Qeq_bool (magnitude c) k) found
                     = filter (fun c => Qeq_bool (magnitude c) k) (map report kept))
  /\ StronglySorted (key_ge magnitude) found
  /\ _find_correlations df
     = Ok (if empty N
           then say "No numeric columns found for correlation analysis."
           else match found with
                | [] => say "No strong correlations found between numeric columns (threshold: |r| > 0.5)."
                | _ => mkResponse "ai"
                         ("Found " ++ Py.str_of_nat (List.length found)
                            ++ " significant correlations:")%string
                         (Some (map correlation_record (firstn 10 found))) None
                end)
  /\ (forall r table, _find_correlations df = Ok r -> data r = Some table ->
        table <> [] /\ List.length table <= 10)
  /\ (forall i j r, i < j < List.length names -> corr N i j = Some r ->
        (r == -1)%Q ->
        In (reported_pair names i j r) found
        /\ (correlation (reported_pair names i j r) == -1)%Q
        /\ strength (reported_pair names i j r) = "Strong")
  /\ (forall r, List.length names = 2 -> 0 < nrows df ->
        corr N 0 1 = Some r -> (r == -1)%Q ->
        _find_correlations df
        = Ok (mkResponse "ai" "Found 1 significant correlations:"
                (Some [correlation_record (reported_pair names 0 1 r)]) None)).
Proof.
  cbv zeta.
  assert (F : strong_correlations df
              = sort_desc (fun c => Qabs (correlation c))
                  (map (fun ij => reported_pair (labels (numeric_frame df))
                                    (fst ij) (snd ij)
                                    (coefficient (numeric_frame df) ij))
                       (filter (clears_thresholdb (numeric_frame df))
                          (index_pairs (List.length (labels (numeric_frame df))))))).
  { unfold strong_correlations. fold (numeric_frame df).
    now rewrite correlation_entries_filter. }
  assert (R : _find_correlations df
     = Ok (if empty (numeric_frame df)
           then say "No numeric columns found for correlation analysis."
           else match strong_correlations df with
                | [] => say "No strong correlations found between numeric columns (threshold: |r| > 0.5)."
                | _ => mkResponse "ai"
                         ("Found " ++ Py.str_of_nat (List.length (strong_correlations df))
                            ++ " significant correlations:")%string
                         (Some (map correlation_record
                                  (firstn 10 (strong_correlations df)))) None
                end)).
  { unfold _find_correlations. fold (numeric_frame df).
    destruct (empty (numeric_frame df)); [reflexivity|].
    destruct (strong_correlations df); reflexivity. }
  split; [split; [apply NoDup_index_pairs | intros; apply in_index_pairs]|].
  split.
  { eexists. split; [apply filter_Selected, clears_thresholdb_spec|].
    rewrite F. split; [apply sort_desc_perm | intros k; apply sort_desc_stable]. }
  split; [rewrite F; apply sort_desc_sorted|].
  split; [exact R|].
  split.
  { intros r table H D. rewrite R in H. injection H as <-.
    destruct (empty (numeric_frame df)); [discriminate|].
    destruct (strong_correlations df) as [|c l]; [discriminate|].
    assert (T : Some (map correlation_record (firstn 10 (c :: l))) = Some table)
      by exact D.
    replace table with (map correlation_record (firstn 10 (c :: l)))
      by congruence.
    split; [discriminate|].
    rewrite length_map, length_firstn. lia. }
  split.
  { intros i j r Hij C H. destruct (round3_minus_one H) as [H3 HS].
    split; [|split].
    - apply in_strong_correlations. exists i, j, r.
      unfold labels in Hij. rewrite length_map in Hij.
      repeat split; try tauto. rewrite H. reflexivity.
    - exact H3.
    - unfold reported_pair. cbn [strength]. now rewrite HS. }
  intros r L Hrows C H. rewrite R.
  assert (E : empty (numeric_frame df) = false).
  { unfold empty. apply orb_false_iff. split; apply Nat.eqb_neq.
    - unfold numeric_frame. cbn [nrows]. lia.
    - unfold labels in L. rewrite length_map in L. rewrite L. discriminate. }
  rewrite E, F, L. cbn [index_pairs seq flat_map map app Nat.sub filter].
  unfold clears_thresholdb. cbn [fst snd]. rewrite C.
  assert (T : Qgtb (Qabs r) (1 # 2) = true).
  { apply Qgtb_true. rewrite H. reflexivity. }
  rewrite T. cbn [map sort_desc insert_desc firstn List.length].
  unfold coefficient. cbn [fst snd]. rewrite C. reflexivity.
Qed.

End CorrelationSpec.

Lemma find_correlations_witness :
  _find_correlations (P := ref_pandas) anticorrelated_df
  = Ok (mkResponse "ai" "Found 1 significant correlations:"
          (Some [[("Column 1", VStr "x"); ("Column 2", VStr "y");
                  ("Correlation", VFloat (-1000 # 1000));
                  ("Strength", VStr "Strong")]]) None).
Proof.
  refine (proj2 (proj2 (proj2 (proj2 (proj2 (proj2
            (@find_correlations_spec ref_pandas anticorrelated_df))))))
            (-1)%Q _ _ _ _).
  - reflexivity.
  - simpl. lia.
  - vm_compute. reflexivity.
  - reflexivity.
Defined.

(** C8, as stated, fails where two coefficients agree to three decimals:
    the handler lists x-b, whose coefficient is 0.8, before x-c, whose
    coefficient is 0.80012. *)
Lemma correlations_not_sorted_by_coefficient :
  let N := numeric_frame near_tie_df in
  @corr ref_pandas N 0 1 = Some (4 # 5)
  /\ @corr ref_pandas N 0 2 = Some (20002999 # 25000000)
  /\ (Qabs (4 # 5) < Qabs (20002999 # 25000000))%Q
  /\ _find_correlations (P := ref_pandas) near_tie_df
     = Ok (mkResponse "ai" "Found 3 significant correlations:"
             (Some (map correlation_record
                      [mkCorrelation "b" "c" (1000 # 1000) "Strong";
                       mkCorrelation "x" "b" (800 # 1000) "Strong";
                       mkCorrelation "x" "c" (800 # 1000) "Strong"])) None).
Proof.
  cbv zeta. repeat split; vm_compute; reflexivity.
Qed.

(** ** The comparison handler *)

Lemma map_nth_seq (A B : Type) (f : A -> B) (d : A) (l : list A) :
  map (fun k => f (nth k l d)) (seq 0 (List.length l)) = map f l.
Proof.
  induction l as [|x l IH]; [reflexivity|].
  cbn [List.length seq map nth]. f_equal.
  rewrite <- seq_shift, map_map. exact IH.
Qed.

Lemma NoDup_firstn (A : Type) (n : nat) (l : list A) :
  NoDup l -> NoDup (firstn n l).
Proof.
  intros H. rewrite <- (firstn_skipn n l) in H.
  now apply NoDup_app_remove_r in H.
Qed.

Lemma in_firstn (A : Type) (n : nat) (l : list A) (x : A) :
  In x (firstn n l) -> In x l.
Proof.
  intros H. rewrite <- (firstn_skipn n l). apply in_or_app. now left.
Qed.

Lemma mem_In (x : string) (l : list string) : Py.mem x l = true <-> In x l.
Proof.
  unfold Py.mem. rewrite existsb_exists. split.
  - intros [y [H E]]. apply String.eqb_eq in E. now subst.
  - intros H. exists x. split; [exact H | apply String.eqb_refl].
Qed.

Lemma mem_not_In (x : string) (l : list string) :
  Py.mem x l = false <-> ~ In x l.
Proof.
  rewrite <- mem_In. destruct (Py.mem x l); split; intuition congruence.
Qed.

Lemma getitem_has_label (df : DataFrame) (c : string) :
  has_label df c = true -> exists s, getitem df c = Some s.
Proof.
  intros H. unfold has_label in H. apply mem_In in H. unfold labels in H.
  apply in_map_iff in H. destruct H as [s [E Hs]].
  destruct (getitem df c) as [t|] eqn:G; [now exists t|].
  unfold getitem in G. apply (find_none _ _ G) in Hs.
  rewrite E, String.eqb_refl in Hs. discriminate.
Qed.

(** The frame keeps a column for each label that names one. *)
Lemma project_columns (df : DataFrame) (x : string) (rest : list string)
  (s : Series) :
  getitem df x = Some s -> columns (dropna_any (project df (x :: rest))) <> [].
Proof.
  intros G. unfold dropna_any, filter_rows, project. cbn [columns flat_map].
  rewrite G. discriminate.
Qed.

Section CompareFacts.

Context {P : Pandas}.

Lemma sample_order_length (n : nat) : List.length (sample_order n) = n.
Proof.
  rewrite (Permutation_length (sample_order_perm n)). apply length_seq.
Qed.

Lemma sample_records (n : nat) (pool : DataFrame) :
  columns pool <> [] -> n <= nrows pool ->
  exists sample_df,
    sample n pool = Ok sample_df
    /\ to_records sample_df
       = map (record_at pool) (firstn n (sample_order (nrows pool))).
Proof.
  intros C H. unfold sample.
  destruct (Nat.ltb_spec (nrows pool) n) as [L|_]; [lia|].
  eexists. split; [reflexivity|].
  set (picked := firstn n (sample_order (nrows pool))).
  rewrite <- (map_nth_seq (record_at pool) 0 picked).
  rewrite to_records_rows
    by (cbn [columns]; destruct (columns pool); [congruence | discriminate]).
  unfold record_at. cbn [nrows columns].
  apply map_ext_in. intros k Hk. apply in_seq in Hk.
  rewrite map_map. apply map_ext. intros s. cbn [name values]. f_equal.
  rewrite (nth_indep _ NaN (nth 0 (values s) NaN))
    by (rewrite length_map; lia).
  now rewrite (map_nth (fun i => nth i (values s) NaN)).
Qed.

Lemma compare_shape (df : DataFrame) (cols : list string) :
  2 <= List.length cols ->
  _compare_columns df cols
  = (let compared := firstn 3 (filter (has_label df) cols) in
     let numeric_cols := filter (is_numeric_label df) compared in
     let cat_cols := filter (fun c => negb (Py.mem c numeric_cols)) compared in
     chart <-
       match numeric_cols with
       | x :: y :: _ =>
           sample_df <-
             sample (Nat.min 100 (Nat.max 1 (nrows df)))
                    (dropna_any (project df [x; y])) ;;
           Ok (Some (mkChart "line" (to_records sample_df) x y
                       (Some ("Comparison: " ++ x ++ " vs " ++ y)%string)))
       | _ => Ok None
       end ;;
     Ok (mkResponse "ai"
           ("Comparison of " ++ Py.join ", " compared ++ ":")%string
           (Some (flat_map (numeric_stats df) numeric_cols
                    ++ flat_map (categorical_stats df) cat_cols))
           chart)).
Proof.
  intros H. unfold _compare_columns.
  destruct (Nat.ltb_spec (List.length cols) 2) as [L|_]; [lia | reflexivity].
Qed.

Lemma Ok_inj (A : Type) (a b : A) : Ok a = Ok b -> a = b.
Proof. congruence. Qed.

Lemma numeric_stats_records (df : DataFrame) (cs : list string) :
  (forall c, In c cs -> exists s, getitem df c = Some s) ->
  Forall2
    (fun c rec =>
       exists s, getitem df c = Some s
         /\ rec = [("Column", VStr c);
                   ("Mean", float_or_none (series_agg "mean" s));
                   ("Median", float_or_none (series_agg "median" s));
                   ("Std Dev", float_or_none (series_agg "std" s));
                   ("Min", float_or_none (series_agg "min" s));
                   ("Max", float_or_none (series_agg "max" s))])
    cs (flat_map (numeric_stats df) cs).
Proof.
  induction cs as [|c cs IH]; intros V; [constructor|].
  destruct (V c (or_introl eq_refl)) as [s G].
  cbn [flat_map]. unfold numeric_stats at 1. rewrite G. cbn [app].
  constructor; [now exists s|].
  apply IH. intros c' Hc'. apply V. now right.
Qed.

Lemma categorical_stats_records (df : DataFrame) (cs : list string) :
  (forall c, In c cs -> exists s, getitem df c = Some s) ->
  Forall2
    (fun c rec =>
       exists s, getitem df c = Some s
         /\ rec = [("Column", VStr c);
                   ("Unique Values", VInt (Z.of_nat (nunique s)));
                   ("Most Common", VStr (most_common s));
                   ("Missing Values", VInt (Z.of_nat (null_count s)))])
    cs (flat_map (categorical_stats df) cs).
Proof.
  induction cs as [|c cs IH]; intros V; [constructor|].
  destruct (V c (or_introl eq_refl)) as [s G].
  cbn [flat_map]. unfold categorical_stats at 1. rewrite G. cbn [app].
  constructor; [now exists s|].
  apply IH. intros c' Hc'. apply V. now right.
Qed.

(** [c not in numeric_cols], for [c] among the compared columns, says that
    the column of [c] is not numeric. *)
Lemma compare_others (df : DataFrame) (compared : list string) :
  filter (fun c => negb (Py.mem c (filter (is_numeric_label df) compared)))
         compared
  = filter (fun c => negb (is_numeric_label df c)) compared.
Proof.
  apply filter_ext_in. intros c Hc. f_equal.
  destruct (is_numeric_label df c) eqn:N.
  - apply mem_In, filter_In. now split.
  - apply mem_not_In. intros H. apply filter_In in H. destruct H as [_ H].
    congruence.
Qed.

(** C9, as amended. The comparison handler refuses exactly when fewer than
    two columns are requested. Otherwise it compares the requested columns
    that are labels of the frame, the first three of them at most, however
    few these are: its table, on a frame with distinct labels, holds one
    record for each of them, first the numeric ones with their mean,
    median, standard deviation, minimum and maximum, then the others with
    their number of distinct values, their most common value and their
    number of missing values, each group in the order of the request. With
    fewer than two numeric columns among the compared ones it returns no
    chart. With two or more, and provided the rows free of missing values
    in the first two numeric columns number at least
    min(100, max(1, len(df))), it returns a chart of type line over these
    two columns, built from that many (hence at most 100) distinct rows of
    them. *)
Theorem compare_columns_spec (df : DataFrame) (cols : list string) :
  let compared := firstn 3 (filter (has_label df) cols) in
  let numeric := filter (is_numeric_label df) compared in
  let others := filter (fun c => negb (is_numeric_label df c)) compared in
  let size := Nat.min 100 (Nat.max 1 (nrows df)) in
  (List.length cols < 2
   <-> _compare_columns df cols
       = Ok (say "Please specify at least two columns to compare."))
  /\ (List.length compared <= 3
      /\ forall c, In c compared -> In c cols /\ In c (labels df))
  /\ (2 <= List.length cols ->
      forall r, _compare_columns df cols = Ok r ->
        text r = ("Comparison of " ++ Py.join ", " compared ++ ":")%string
        /\ exists numeric_part other_part,
             data r = Some (numeric_part ++ other_part)
             /\ (NoDup (labels df) ->
                 Forall2
                   (fun c rec =>
                      exists s, getitem df c = Some s
                        /\ rec = [("Column", VStr c);
                                  ("Mean", float_or_none (series_agg "mean" s));
                                  ("Median", float_or_none (series_agg "median" s));
                                  ("Std Dev", float_or_none (series_agg "std" s));
                                  ("Min", float_or_none (series_agg "min" s));
                                  ("Max", float_or_none (series_agg "max" s))])
                   numeric numeric_part
                 /\ Forall2
                      (fun c rec =>
                         exists s, getitem df c = Some s
                           /\ rec = [("Column", VStr c);
                                     ("Unique Values",
                                      VInt (Z.of_nat (nunique s)));
                                     ("Most Common", VStr (most_common s));
                                     ("Missing Values",
                                      VInt (Z.of_nat (null_count s)))])
                      others other_part))
  /\ (2 <= List.length cols -> List.length numeric < 2 ->
      exists r, _compare_columns df cols = Ok r /\ chart r = None)
  /\ (2 <= List.length cols ->
      forall x y rest, numeric = x :: y :: rest ->
        let pool := dropna_any (project df [x; y]) in
        size <= nrows pool ->
        exists r c picked,
          _compare_columns df cols = Ok r /\ chart r = Some c
          /\ chart_kind c = "line" /\ x_axis c = x /\ y_axis c = y
          /\ chart_data c = map (record_at pool) picked
          /\ List.length picked = size /\ size <= 100
          /\ NoDup picked /\ Forall (fun i => i < nrows pool) picked).
Proof.
  cbv zeta. split; [|split; [|split; [|split]]].
  - split.
    + intros H. unfold _compare_columns.
      destruct (Nat.ltb_spec (List.length cols) 2) as [_|L]; [reflexivity | lia].
    + intros H. destruct (Nat.lt_ge_cases (List.length cols) 2) as [L|L];
        [exact L|].
      rewrite (compare_shape df cols L) in H. cbv zeta in H.
      apply bind_Ok in H. destruct H as [c [_ H]]. discriminate.
  - split.
    + rewrite length_firstn. lia.
    + intros c H. apply in_firstn, filter_In in H. destruct H as [H1 H2].
      split; [exact H1|]. unfold has_label, Py.mem in H2.
      apply existsb_exists in H2. destruct H2 as [l [Hl E]].
      apply String.eqb_eq in E. now subst.
  - intros L r H. rewrite (compare_shape df cols L) in H. cbv zeta in H.
    apply bind_Ok in H. destruct H as [ch [_ H]]. apply Ok_inj in H.
    subst r. cbn [text data]. split; [reflexivity|].
    set (compared := firstn 3 (filter (has_label df) cols)).
    assert (V : forall c, In c compared -> exists s, getitem df c = Some s).
    { intros c Hc. apply in_firstn, filter_In in Hc.
      now apply getitem_has_label. }
    do 2 eexists. split; [reflexivity|]. intros _. split.
    + apply numeric_stats_records.
      intros c Hc. apply filter_In in Hc. now apply V.
    + rewrite (compare_others df compared). apply categorical_stats_records.
      intros c Hc. apply filter_In in Hc. now apply V.
  - intros L N. rewrite (compare_shape df cols L). cbv zeta.
    destruct (filter (is_numeric_label df) (firstn 3 (filter (has_label df) cols)))
      as [|x [|y rest]].
    + eexists. split; reflexivity.
    + eexists. split; reflexivity.
    + cbn [List.length] in N. lia.
  - intros L x y rest E S. rewrite (compare_shape df cols L). cbv zeta.
    rewrite E.
    assert (Gx : exists s, getitem df x = Some s).
    { assert (Hx : In x (filter (is_numeric_label df)
                           (firstn 3 (filter (has_label df) cols))))
        by (rewrite E; now left).
      apply filter_In in Hx. destruct Hx as [_ Hx].
      unfold is_numeric_label in Hx.
      destruct (getitem df x) as [s|]; [now exists s | discriminate]. }
    destruct Gx as [sx Gx].
    destruct (@sample_records _ _ (@project_columns df x [y] sx Gx) S)
      as [sample_df [Hs Hr]].
    rewrite Hs. cbn [bind].
    eexists. eexists.
    exists (firstn (Nat.min 100 (Nat.max 1 (nrows df)))
                   (sample_order (nrows (dropna_any (project df [x; y]))))).
    split; [reflexivity|]. cbn [chart chart_kind x_axis y_axis chart_data].
    split; [reflexivity|]. split; [reflexivity|]. split; [reflexivity|].
    split; [reflexivity|]. split; [exact Hr|].
    split; [rewrite length_firstn, sample_order_length; lia|].
    split; [lia|].
    assert (Q := sample_order_perm (nrows (dropna_any (project df [x; y])))).
    split.
    + apply NoDup_firstn.
      apply (Permutation_NoDup (Permutation_sym Q)), seq_NoDup.
    + apply Forall_forall. intros i Hi. apply in_firstn in Hi.
      apply (Permutation_in _ Q), in_seq in Hi. lia.
Qed.

End CompareFacts.

Lemma compare_columns_witness :
  exists r c table,
    _compare_columns (P := ref_pandas) near_tie_df ["x"; "b"; "c"; "d"] = Ok r
    /\ chart r = Some c /\ chart_kind c = "line"
    /\ x_axis c = "x" /\ y_axis c = "b" /\ List.length (chart_data c) = 5
    /\ text r = "Comparison of x, b, c:"
    /\ data r = Some table /\ List.length table = 3.
Proof.
  pose proof (@compare_columns_spec ref_pandas near_tie_df ["x"; "b"; "c"; "d"])
    as [_ [_ [T [_ C]]]].
  destruct (C ltac:(simpl; lia) "x" "b" ["c"] eq_refl ltac:(vm_compute; lia))
    as [r [c [picked [H1 [H2 [H3 [H4 [H5 [H6 [H7 _]]]]]]]]]].
  destruct (T ltac:(simpl; lia) r H1) as [Ht [np [op [Hd F]]]].
  destruct F as [Fn Fo]; [repeat constructor; cbn; intuition discriminate|].
  exists r, c, (np ++ op). repeat split; try assumption.
  - rewrite H6, length_map. exact H7.
  - assert (Ln : List.length np = 3)
      by exact (eq_trans (eq_sym (Forall2_length Fn)) eq_refl).
    assert (Lo : List.length op = 0)
      by exact (eq_trans (eq_sym (Forall2_length Fo)) eq_refl).
    now rewrite length_app, Ln, Lo.
Defined.

(** C9, as stated, fails when a requested column is no label of the frame:
    of the two requested columns one is valid, and the comparison runs. *)
Lemma compare_runs_on_one_valid_column :
  filter (has_label sales_df) ["sales"; "zzz"] = ["sales"]
  /\ _compare_columns (P := ref_pandas) sales_df ["sales"; "zzz"]
     = Ok (mkResponse "ai" "Comparison of sales:"
             (Some [[("Column", VStr "sales"); ("Mean", VFloat 15);
                     ("Median", VFloat 15);
                     ("Std Dev", VFloat (7071067811 # 1000000000));
                     ("Min", VFloat 10); ("Max", VFloat 20)]])
             None).
Proof. split; vm_compute; reflexivity. Qed.

(** The sample size is taken from the whole frame and the sample from its
    rows without missing values: when these are fewer, [sample] raises and
    the router apologises; no chart is returned. *)
Lemma compare_sample_raises :
  _compare_columns (P := ref_pandas) half_missing_df ["a"; "b"]
  = Raise "ValueError: Cannot take a larger sample than population when 'replace=False'"
  /\ chart (_execute_intent (P := ref_pandas) half_missing_df
              (mkIntent (Some "compare") (Some ["a"; "b"]) None None None None)
              "compare a and b") = None.
Proof. split; vm_compute; reflexivity. Qed.

(** ** Frames *)

Lemma series_eta (s : Series) : mkSeries (name s) (dtype s) (values s) = s.
Proof. now destruct s. Qed.

Lemma flat_map_ext_in (A B : Type) (f g : A -> list B) (l : list A) :
  (forall a, In a l -> f a = g a) -> flat_map f l = flat_map g l.
Proof.
  intros H. induction l as [|a l IH]; [reflexivity|].
  cbn [flat_map]. rewrite (H a (or_introl eq_refl)), IH; [reflexivity|].
  intros b Hb. apply H. now right.
Qed.

Lemma flat_map_singleton (A B : Type) (f : A -> B) (l : list A) :
  flat_map (fun a => [f a]) l = map f l.
Proof. induction l as [|a l IH]; [reflexivity|]. cbn. now rewrite IH. Qed.

(** The labels are distinct exactly when each selects one column. *)
Lemma NoDup_labels_iff (cs : list Series) :
  NoDup (map name cs)
  <-> forall c, In c (map name cs) ->
        List.length (filter (fun s => String.eqb (name s) c) cs) = 1.
Proof.
  induction cs as [|s cs IH].
  - split; [intros _ c [] | intros _; constructor].
  - cbn [map]. split.
    + intros H c Hc. apply NoDup_cons_iff in H. destruct H as [Hs Hcs].
      cbn [filter]. destruct (String.eqb_spec (name s) c) as [E|E].
      * subst c. cbn [List.length]. f_equal.
        destruct (filter _ cs) as [|t l] eqn:F; [reflexivity|].
        exfalso. apply Hs.
        assert (T : In t (filter (fun s0 => String.eqb (name s0) (name s)) cs))
          by (rewrite F; now left).
        apply filter_In in T. destruct T as [T1 T2].
        apply String.eqb_eq in T2. rewrite <- T2. now apply in_map.
      * apply (proj1 IH Hcs). destruct Hc as [Hc|Hc]; [contradiction | exact Hc].
    + intros H.
      assert (Hs : ~ In (name s) (map name cs)).
      { intros Hin. specialize (H (name s) (or_introl eq_refl)).
        cbn [filter] in H. rewrite String.eqb_refl in H. cbn [List.length] in H.
        apply in_map_iff in Hin. destruct Hin as [t [E Ht]].
        assert (T : In t (filter (fun s0 => String.eqb (name s0) (name s)) cs)).
        { apply filter_In. split; [exact Ht | now apply String.eqb_eq]. }
        destruct (filter _ cs); [contradiction | discriminate]. }
      constructor; [exact Hs|].
      apply IH. intros c Hc. specialize (H c (or_intror Hc)).
      cbn [filter] in H. destruct (String.eqb_spec (name s) c) as [E|E];
        [subst c; contradiction | exact H].
Qed.

Lemma series_of_Some_iff (df : DataFrame) (c : string) :
  (exists s, series_of df c = Some s)
  <-> List.length (filter (fun s => String.eqb (name s) c) (columns df)) = 1.
Proof.
  unfold series_of. destruct (filter _ (columns df)) as [|s [|t l]]; cbn.
  - split; [intros [s H]; discriminate | discriminate].
  - split; [reflexivity | intros _; now exists s].
  - split; [intros [u H]; discriminate | discriminate].
Qed.

Lemma fold_at_label (g : nat -> Series -> option Series) (ls : list string)
  (n : nat) (cs : list Series) :
  (forall s s', g n s = Some s' -> name s' = name s) ->
  NoDup ls ->
  fold_left (fun d col => at_label (g (nrows d)) d col) ls (mkDF n cs)
  = mkDF n (flat_map (fun s => if Py.mem (name s) ls
                               then opt_list (g n s) else [s]) cs).
Proof.
  intros Hname. revert cs. induction ls as [|col ls IH]; intros cs Hnd.
  - cbn [fold_left Py.mem existsb]. f_equal.
    induction cs as [|s cs IHc]; [reflexivity|]. cbn. now rewrite <- IHc.
  - apply NoDup_cons_iff in Hnd. destruct Hnd as [Hcol Hnd].
    cbn [fold_left]. unfold at_label at 2. cbn [nrows columns].
    rewrite IH by assumption. f_equal.
    induction cs as [|s cs IHc]; [reflexivity|].
    cbn [flat_map]. rewrite flat_map_app, IHc. f_equal.
    unfold Py.mem at 2. cbn [existsb]. fold (Py.mem (name s) ls).
    destruct (String.eqb_spec (name s) col) as [E|E]; cbn [orb].
    + destruct (g n s) as [s'|] eqn:G; [|reflexivity].
      cbn [opt_list flat_map]. rewrite (Hname s s' G), E.
      apply mem_not_In in Hcol. rewrite Hcol. reflexivity.
    + cbn [flat_map]. now rewrite app_nil_r.
Qed.

Lemma for_each_column_columns (g : nat -> Series -> option Series)
  (df : DataFrame) :
  (forall s s', g (nrows df) s = Some s' -> name s' = name s) ->
  NoDup (labels df) ->
  for_each_column g df
  = mkDF (nrows df) (flat_map (fun s => opt_list (g (nrows df) s)) (columns df)).
Proof.
  intros Hname Hnd. unfold for_each_column. destruct df as [n cs].
  cbn [nrows columns] in *. rewrite fold_at_label by assumption. f_equal.
  apply flat_map_ext_in. intros s Hs.
  assert (M : Py.mem (name s) (labels (mkDF n cs)) = true).
  { apply mem_In. unfold labels. cbn. now apply in_map. }
  now rewrite M.
Qed.

Lemma length_filter_map (A B : Type) (f : A -> B) (p : B -> bool) (l : list A) :
  List.length (filter (fun a => p (f a)) l) = List.length (filter p (map f l)).
Proof.
  induction l as [|a l IH]; [reflexivity|].
  cbn [map filter]. destruct (p (f a)); cbn [List.length]; now rewrite IH.
Qed.

Lemma series_of_unique (df : DataFrame) (c : string) :
  is_some (series_of df c) = unique_in (labels df) c.
Proof.
  unfold unique_in, labels.
  rewrite <- (length_filter_map name (fun l => String.eqb l c)).
  unfold series_of, is_some. now destruct (filter _ (columns df)) as [|s [|t l]].
Qed.

Lemma NoDup_unique_in (cs : list Series) :
  NoDup (map name cs) <-> forallb (unique_in (map name cs)) (map name cs) = true.
Proof.
  rewrite NoDup_labels_iff, forallb_forall. unfold unique_in.
  split; intros H c Hc; specialize (H c Hc);
    rewrite <- (length_filter_map name (fun l => String.eqb l c)) in *;
    [now apply Nat.eqb_eq | now apply Nat.eqb_eq in H].
Qed.

Lemma select_length (A : Type) (mask : list bool) (l : list A) :
  List.length mask = List.length l ->
  List.length (select mask l) = count_true mask.
Proof.
  revert l. induction mask as [|b mask IH]; intros [|x l] H;
    try discriminate; [reflexivity|].
  injection H as H. unfold count_true in *. cbn [select filter].
  destruct b; cbn [List.length]; now rewrite IH.
Qed.

Lemma select_all (A : Type) (mask : list bool) (l : list A) :
  List.length mask = List.length l -> forallb (fun b => b) mask = true ->
  select mask l = l.
Proof.
  revert l. induction mask as [|b mask IH]; intros [|x l] H T;
    try discriminate; [reflexivity|].
  injection H as H. cbn [forallb] in T. apply andb_true_iff in T.
  destruct T as [-> T]. cbn [select]. now rewrite IH.
Qed.

Lemma count_true_all (mask : list bool) :
  forallb (fun b => b) mask = true -> count_true mask = List.length mask.
Proof.
  unfold count_true. induction mask as [|b mask IH]; [reflexivity|].
  cbn [forallb]. intros T. apply andb_true_iff in T. destruct T as [-> T].
  cbn [filter List.length]. now rewrite IH.
Qed.

(** A selected cell was in the column. *)
Lemma in_select (A : Type) (mask : list bool) (l : list A) (x : A) :
  In x (select mask l) -> In x l.
Proof.
  revert l. induction mask as [|b mask IH]; intros [|y l] H;
    try contradiction.
  cbn [select] in H. destruct b.
  - destruct H as [H|H]; [now left | right; now apply IH].
  - right. now apply IH.
Qed.

(** The cell at a position the mask keeps is selected. *)
Lemma select_nth (A : Type) (mask : list bool) (l : list A) (i : nat) (d : A) :
  i < List.length l -> nth i mask false = true ->
  In (nth i l d) (select mask l).
Proof.
  revert l i. induction mask as [|b mask IH]; intros [|y l] i Hi Hm;
    cbn [List.length] in Hi; try lia.
  - destruct i; discriminate.
  - destruct i as [|i]; cbn [nth] in *.
    + subst b. now left.
    + cbn [select]. destruct b; [right|]; apply IH; try assumption; lia.
Qed.

Lemma wf_filter_rows (mask : list bool) (df : DataFrame) :
  wf df -> List.length mask = nrows df -> wf (filter_rows mask df).
Proof.
  unfold wf, filter_rows. cbn [nrows columns]. intros W L.
  apply Forall_map. apply Forall_forall. intros s Hs. cbn [values].
  rewrite Forall_forall in W. apply select_length. now rewrite (W s Hs).
Qed.

Lemma labels_filter_rows (mask : list bool) (df : DataFrame) :
  labels (filter_rows mask df) = labels df.
Proof.
  unfold labels, filter_rows. cbn [columns]. rewrite map_map. reflexivity.
Qed.

Lemma labels_drop_duplicates (df : DataFrame) :
  labels (drop_duplicates df) = labels df.
Proof.
  unfold drop_duplicates. destruct (empty df); [reflexivity|].
  apply labels_filter_rows.
Qed.

Lemma filter_rows_all (mask : list bool) (df : DataFrame) :
  wf df -> List.length mask = nrows df -> forallb (fun b => b) mask = true ->
  filter_rows mask df = df.
Proof.
  intros W L T. destruct df as [n cs]. unfold filter_rows, wf in *.
  cbn [nrows columns] in *. rewrite (count_true_all mask T), L. f_equal.
  rewrite <- (map_id cs) at 2. apply map_ext_in. intros s Hs.
  rewrite Forall_forall in W. rewrite select_all; try assumption.
  - apply series_eta.
  - rewrite (W s Hs). exact L.
Qed.

Lemma rows_length (df : DataFrame) : List.length (rows df) = nrows df.
Proof. unfold rows. now rewrite length_map, length_seq. Qed.

Lemma first_occurrences_length (seen rs : list (list value)) :
  List.length (first_occurrences seen rs) = List.length rs.
Proof.
  revert seen. induction rs as [|r rs IH]; intros seen; [reflexivity|].
  cbn [first_occurrences]. destruct (existsb (row_eqb r) seen);
    cbn [List.length]; now rewrite IH.
Qed.

Lemma wf_set_labels (df : DataFrame) (new : list string) :
  wf df -> wf (set_labels df new).
Proof.
  unfold wf, set_labels. cbn [nrows columns]. intros W.
  apply Forall_map, Forall_forall. intros [s n] H. cbn [rename values fst].
  apply in_combine_l in H. rewrite Forall_forall in W. now apply W.
Qed.

Lemma wf_drop_columns (col : string) (df : DataFrame) :
  wf df -> wf (drop_columns col df).
Proof.
  unfold wf, drop_columns. cbn [nrows columns]. intros W.
  rewrite Forall_forall in *. intros s H. apply filter_In in H. now apply W.
Qed.

(** ** The cleaning pipeline, stage by stage *)

Section CleanerFacts.

Context {P : Pandas}.

(** *** Names *)

Lemma clean_column_name_nonempty (n : string) : _clean_column_name n <> "".
Proof.
  unfold _clean_column_name.
  destruct (Py.strip_by _ _) as [|c l]; [discriminate|].
  cbn. discriminate.
Qed.

(** *** Type inference *)

Lemma convert_column_name (n : nat) (s : Series) :
  name (convert_column n s) = name s.
Proof.
  unfold convert_column. destruct (dtype s); try reflexivity.
  destruct (numeric_adopted n s).
  - unfold numeric_col. now destruct (forallb _ _).
  - unfold datetime_adopted. destruct (looks_like_dates s).
    + destruct (to_datetime (values s)) as [f|].
      * destruct (ratio_gt _ _ _ _); [reflexivity|].
        now destruct (looks_boolean s).
      * now destruct (looks_boolean s).
    + now destruct (looks_boolean s).
Qed.

Lemma numeric_col_length (s : Series) :
  List.length (values (numeric_col s)) = List.length (values s).
Proof.
  unfold numeric_col. destruct (forallb _ _); cbn [values];
    now rewrite !length_map.
Qed.

Lemma convert_column_length (n : nat) (s : Series) :
  List.length (values (convert_column n s)) = List.length (values s).
Proof.
  unfold convert_column. destruct (dtype s); try reflexivity.
  destruct (numeric_adopted n s); [apply numeric_col_length|].
  assert (B : List.length (values (if looks_boolean s then boolean_col s else s))
              = List.length (values s)).
  { destruct (looks_boolean s); [|reflexivity].
    unfold boolean_col. cbn [values]. now rewrite length_map. }
  unfold datetime_adopted. destruct (looks_like_dates s); [|exact B].
  destruct (to_datetime (values s)) as [f|]; [|exact B].
  destruct (ratio_gt _ _ _ _); [|exact B].
  unfold datetime_col. cbn [values]. now rewrite length_map, length_seq.
Qed.

Lemma labels_at_label_Some (f : Series -> Series) (df : DataFrame) (col : string) :
  (forall s, name (f s) = name s) ->
  labels (at_label (fun s => Some (f s)) df col) = labels df.
Proof.
  intros H. unfold labels, at_label. cbn [columns].
  induction (columns df) as [|s cs IH]; [reflexivity|].
  cbn [flat_map map]. destruct (String.eqb (name s) col); cbn [app map];
    now rewrite IH, ?H.
Qed.

Lemma convert_fold_Raise (ls : list string) (e : string) :
  fold_left convert_step ls (Raise e) = Raise e.
Proof. induction ls as [|c ls IH]; [reflexivity | exact IH]. Qed.

Lemma convert_fold (ls : list string) (d : DataFrame) :
  fold_left convert_step ls (Ok d)
  = if forallb (unique_in (labels d)) ls
    then Ok (fold_left
               (fun d col =>
                  at_label ((fun n s => Some (convert_column n s)) (nrows d)) d col)
               ls d)
    else Raise "AttributeError: 'DataFrame' object has no attribute 'dtype'".
Proof.
  revert d. induction ls as [|c ls IH]; intros d; [reflexivity|].
  cbn [fold_left forallb]. rewrite <- series_of_unique.
  unfold convert_step at 2. cbn [bind].
  destruct (series_of d c) as [s|]; cbn [is_some andb].
  - rewrite IH. rewrite labels_at_label_Some; [reflexivity|].
    intros t. apply convert_column_name.
  - apply convert_fold_Raise.
Qed.

Lemma detect_types_Ok (df : DataFrame) :
  NoDup (labels df) ->
  _detect_and_convert_types df
  = Ok (mkDF (nrows df) (map (convert_column (nrows df)) (columns df))).
Proof.
  intros H. unfold _detect_and_convert_types. rewrite convert_fold.
  pose proof (proj1 (NoDup_unique_in (columns df)) H) as U.
  fold (labels df) in U. rewrite U.
  fold (for_each_column (fun n s => Some (convert_column n s)) df).
  rewrite for_each_column_columns; [|intros s s' E; injection E as <-;
                                       apply convert_column_name | exact H].
  cbn [opt_list]. now rewrite flat_map_singleton.
Qed.

Lemma detect_types_NoDup (df d : DataFrame) :
  _detect_and_convert_types df = Ok d -> NoDup (labels df).
Proof.
  unfold _detect_and_convert_types. rewrite convert_fold.
  destruct (forallb _ _) eqn:E; [|discriminate].
  intros _. now apply NoDup_unique_in.
Qed.

Lemma detect_types_inv (df d : DataFrame) :
  _detect_and_convert_types df = Ok d ->
  NoDup (labels df)
  /\ d = mkDF (nrows df) (map (convert_column (nrows df)) (columns df)).
Proof.
  intros H. assert (N := detect_types_NoDup df H). split; [exact N|].
  rewrite (detect_types_Ok df N) in H. now injection H.
Qed.

End CleanerFacts.

(** *** Missing values and duplicate rows *)

Lemma value_eqb_refl (v : value) : value_eqb v v = true.
Proof.
  destruct v; cbn; try reflexivity.
  - apply Qeq_bool_iff. reflexivity.
  - apply Z.eqb_refl.
  - apply String.eqb_refl.
  - now destruct b.
  - apply Z.eqb_refl.
Qed.

Lemma value_eqb_notna (a b : value) :
  value_eqb a b = true -> a <> NaN -> b <> NaN.
Proof. destruct a, b; cbn; congruence. Qed.

Lemma row_eqb_refl (r : list value) : row_eqb r r = true.
Proof.
  unfold row_eqb. rewrite Nat.eqb_refl. cbn [andb].
  induction r as [|v r IH]; [reflexivity|].
  cbn [combine forallb fst snd]. now rewrite value_eqb_refl, IH.
Qed.

Lemma row_eqb_cells (A : Type) (f g : A -> value) (l : list A) (a : A) :
  row_eqb (map f l) (map g l) = true -> In a l -> value_eqb (f a) (g a) = true.
Proof.
  unfold row_eqb. intros H. apply andb_true_iff in H. destruct H as [_ H].
  induction l as [|b l IH]; intros Ha; [contradiction|].
  cbn [map combine forallb fst snd] in H. apply andb_true_iff in H.
  destruct H as [H1 H2]. destruct Ha as [->|Ha]; [exact H1 | now apply IH].
Qed.

(** Every row equals a row that [drop_duplicates] keeps, at its position
    or before it, unless it equals a row seen earlier. *)
Lemma first_occurrences_spec (seen rs : list (list value)) (i : nat)
  (r : list value) :
  nth_error rs i = Some r ->
  (exists r', In r' seen /\ row_eqb r r' = true)
  \/ (exists j r', j <= i /\ nth_error rs j = Some r'
                   /\ nth j (first_occurrences seen rs) false = true
                   /\ row_eqb r r' = true).
Proof.
  revert seen i. induction rs as [|r0 rs IH]; intros seen i H.
  - destruct i; discriminate.
  - cbn [first_occurrences]. destruct (existsb (row_eqb r0) seen) eqn:E.
    + destruct i as [|i]; cbn [nth_error] in H.
      * injection H as <-. left. apply existsb_exists in E.
        destruct E as [r' [H1 H2]]. now exists r'.
      * destruct (IH seen i H) as [L|[j [r' [H1 [H2 [H3 H4]]]]]];
          [now left|].
        right. exists (S j), r'. repeat split; try assumption. lia.
    + destruct i as [|i]; cbn [nth_error] in H.
      * injection H as <-. right. exists 0, r0.
        repeat split; try reflexivity. apply row_eqb_refl.
      * destruct (IH (r0 :: seen) i H) as [[r' [[<-|H1] H2]]|[j [r' [H1 [H2 [H3 H4]]]]]].
        -- right. exists 0, r0. repeat split; try assumption. lia.
        -- left. now exists r'.
        -- right. exists (S j), r'. repeat split; try assumption. lia.
Qed.

Lemma nth_error_rows (df : DataFrame) (i : nat) :
  i < nrows df -> nth_error (rows df) i = Some (row df i).
Proof.
  intros H. unfold rows.
  rewrite nth_error_map, nth_error_nth' with (d := 0) by (rewrite length_seq; lia).
  rewrite seq_nth by assumption. reflexivity.
Qed.

Lemma nth_error_rows_inv (df : DataFrame) (i : nat) (r : list value) :
  nth_error (rows df) i = Some r -> i < nrows df /\ r = row df i.
Proof.
  intros H.
  assert (L : i < nrows df).
  { rewrite <- rows_length. apply nth_error_Some. congruence. }
  split; [exact L|]. rewrite nth_error_rows in H by assumption. congruence.
Qed.

(** A value that is not missing sits at some position of the column. *)
Lemma has_value_nth (s : Series) :
  has_value s <-> exists i, i < List.length (values s) /\ nth i (values s) NaN <> NaN.
Proof.
  unfold has_value. split.
  - intros [v [H N]]. apply In_nth with (d := NaN) in H.
    destruct H as [i [L E]]. exists i. split; [exact L | congruence].
  - intros [i [L N]]. exists (nth i (values s) NaN). split; [|exact N].
    now apply nth_In.
Qed.

Lemma has_value_select (mask : list bool) (s : Series) (i : nat) :
  i < List.length (values s) -> nth i (values s) NaN <> NaN ->
  nth i mask false = true ->
  has_value (mkSeries (name s) (dtype s) (select mask (values s))).
Proof.
  intros L N M. exists (nth i (values s) NaN). cbn [values].
  split; [now apply select_nth | exact N].
Qed.

Lemma dropna_all_has_value (df : DataFrame) :
  wf df -> Forall has_value (columns df) ->
  Forall has_value (columns (dropna_all df)).
Proof.
  intros W H. unfold dropna_all, filter_rows. cbn [columns].
  apply Forall_map, Forall_forall. intros s Hs.
  unfold wf in W. rewrite Forall_forall in H, W. specialize (W s Hs).
  destruct (proj1 (has_value_nth s) (H s Hs)) as [i [L N]].
  assert (Li : i < nrows df) by lia.
  apply has_value_select with (i := i); try assumption.
  rewrite (nth_indep _ false (existsb notna (row df 0)))
    by (rewrite length_map, rows_length; lia).
  rewrite (map_nth (fun r => existsb notna r)).
  rewrite (nth_error_nth (rows df) i (row df 0) (nth_error_rows df Li)).
  apply existsb_exists. exists (nth i (values s) NaN). split.
  - unfold row. apply in_map_iff. now exists s.
  - unfold notna. destruct (nth i (values s) NaN); [contradiction | reflexivity ..].
Qed.

Lemma drop_duplicates_has_value (df : DataFrame) :
  wf df -> Forall has_value (columns df) ->
  Forall has_value (columns (drop_duplicates df)).
Proof.
  intros W H. unfold drop_duplicates. destruct (empty df); [exact H|].
  unfold filter_rows. cbn [columns].
  apply Forall_map, Forall_forall. intros s Hs.
  unfold wf in W. rewrite Forall_forall in H, W. specialize (W s Hs).
  destruct (proj1 (has_value_nth s) (H s Hs)) as [i [L N]].
  assert (Li : i < nrows df) by lia.
  destruct (first_occurrences_spec [] (rows df) i (nth_error_rows df Li))
    as [[r' [[] _]]|[j [r' [H1 [H2 [H3 H4]]]]]].
  apply nth_error_rows_inv in H2. destruct H2 as [Lj ->].
  apply has_value_select with (i := j); try assumption; [lia|].
  unfold row in H4.
  apply (value_eqb_notna (row_eqb_cells _ _ _ s H4 Hs) N).
Qed.

Section PipelineFacts.

Context {P : Pandas}.

Lemma unnamed_fold_Raise (ls : list string) (e : string) :
  fold_left unnamed_step ls (Raise e) = Raise e.
Proof. induction ls as [|c ls IH]; [reflexivity | exact IH]. Qed.

Lemma unnamed_step_cases (df : DataFrame) (c : nat) (nc : list string)
  (col : string) :
  (exists e, unnamed_step (Ok (df, c, nc)) col = Raise e)
  \/ (exists c' nc', unnamed_step (Ok (df, c, nc)) col = Ok (df, c', nc'))
  \/ unnamed_step (Ok (df, c, nc)) col = Ok (drop_columns col df, c, nc).
Proof.
  unfold unnamed_step. cbn [bind].
  destruct (Py.contains "Unnamed" col); [|right; left; now eexists; eexists].
  destruct (series_of df col) as [s|]; [|left; now eexists].
  destruct (existsb notna (values s)); [|now right; right].
  right. left.
  destruct (dropna (values s)) as [|[| | |t| |] l]; try (now eexists; eexists).
  destruct (Py.nonempty t && (String.length t <? 50)); now eexists; eexists.
Qed.

Lemma unnamed_fold_wf (ls : list string) (df df' : DataFrame) (c c' : nat)
  (nc nc' : list string) :
  fold_left unnamed_step ls (Ok (df, c, nc)) = Ok (df', c', nc') ->
  wf df -> wf df'.
Proof.
  revert df c nc. induction ls as [|col ls IH]; intros df c nc H W.
  - cbn in H. now injection H as <- _ _.
  - cbn [fold_left] in H.
    destruct (unnamed_step_cases df c nc col) as [[e E]|[[c1 [nc1 E]]|E]];
      rewrite E in H.
    + rewrite unnamed_fold_Raise in H. discriminate.
    + now apply (IH _ _ _ H).
    + apply (IH _ _ _ H). now apply wf_drop_columns.
Qed.

Lemma handle_unnamed_wf (raw d : DataFrame) :
  _handle_unnamed_columns raw = Ok d -> wf raw -> wf d.
Proof.
  unfold _handle_unnamed_columns. intros H W.
  apply bind_Ok in H. destruct H as [[[df c] nc] [F H]].
  apply unnamed_fold_wf in F; [|exact W].
  destruct (_ =? _); injection H as <-; [now apply wf_set_labels | exact F].
Qed.

Lemma clean_column_names_wf (df : DataFrame) :
  wf df -> wf (_clean_column_names df).
Proof. intros W. unfold _clean_column_names. now apply wf_set_labels, wf_set_labels. Qed.

Lemma detect_types_wf (df d : DataFrame) :
  _detect_and_convert_types df = Ok d -> wf df -> wf d.
Proof.
  intros H W. apply detect_types_inv in H. destruct H as [_ ->].
  unfold wf in *. cbn [nrows columns]. apply Forall_map.
  rewrite Forall_forall in *. intros s Hs.
  rewrite convert_column_length. now apply W.
Qed.

Lemma labels_detect_types (df d : DataFrame) :
  _detect_and_convert_types df = Ok d -> labels d = labels df.
Proof.
  intros H. apply detect_types_inv in H. destruct H as [_ ->].
  unfold labels. cbn [columns]. rewrite map_map. apply map_ext.
  intros s. apply convert_column_name.
Qed.

Lemma resolve_missing_inv (n : nat) (s s' : Series) :
  resolve_missing n s = Some s' ->
  null_count s <> n
  /\ (s' = s \/ exists v, v <> NaN /\ s' = fillna v s).
Proof.
  unfold resolve_missing.
  destruct (Nat.eqb_spec (null_count s) n) as [E|E]; [discriminate|].
  intros H. split; [exact E|].
  destruct (0 <? null_count s); [|injection H as <-; now left].
  destruct (ratio_gt _ _ _ _); [discriminate|].
  destruct (is_numeric_dtype s).
  - destruct (ratio_lt _ _ _ _); injection H as <-; [|now left].
    right. eexists. split; [|reflexivity]. discriminate.
  - destruct (is_string_dtype s); injection H as <-; [|now left].
    right. eexists. split; [|reflexivity]. discriminate.
Qed.

Lemma resolve_missing_name (n : nat) (s s' : Series) :
  resolve_missing n s = Some s' -> name s' = name s.
Proof.
  intros H. apply resolve_missing_inv in H.
  destruct H as [_ [->|[v [_ ->]]]]; reflexivity.
Qed.

Lemma resolve_missing_dtype (n : nat) (s s' : Series) :
  resolve_missing n s = Some s' -> dtype s' = dtype s.
Proof.
  intros H. apply resolve_missing_inv in H.
  destruct H as [_ [->|[v [_ ->]]]]; reflexivity.
Qed.

Lemma resolve_missing_length (n : nat) (s s' : Series) :
  resolve_missing n s = Some s' ->
  List.length (values s') = List.length (values s).
Proof.
  intros H. apply resolve_missing_inv in H.
  destruct H as [_ [->|[v [_ ->]]]]; [reflexivity|].
  unfold fillna. cbn [values]. apply length_map.
Qed.

Lemma filter_isnull_all (vs : list value) :
  List.length (filter isnull vs) = List.length vs ->
  Forall (fun v => v = NaN) vs.
Proof.
  induction vs as [|v vs IH]; intros H; [constructor|].
  cbn [filter] in H. destruct v; cbn [isnull List.length] in H;
    try (pose proof (filter_length_le isnull vs); lia).
  constructor; [reflexivity | apply IH; lia].
Qed.

Lemma resolve_missing_has_value (n : nat) (s s' : Series) :
  List.length (values s) = n -> resolve_missing n s = Some s' -> has_value s'.
Proof.
  intros L H. apply resolve_missing_inv in H. destruct H as [N H].
  assert (V : has_value s).
  { unfold null_count in N. rewrite <- L in N.
    assert (X : ~ Forall (fun v => v = NaN) (values s)).
    { intros F. apply N. clear N L. induction F as [|v vs E F IH]; [reflexivity|].
      subst v. cbn [filter isnull List.length]. now rewrite IH. }
    apply neg_Forall_Exists_neg in X;
      [|intros v; destruct v; (now left) || (right; discriminate)].
    apply Exists_exists in X. destruct X as [v [Hv Nv]]. now exists v. }
  destruct H as [->|[v [Nv ->]]]; [exact V|].
  destruct V as [x [Hx Nx]]. exists x. split; [|exact Nx].
  unfold fillna. cbn [values]. apply in_map_iff. exists x.
  split; [|exact Hx]. destruct x; try reflexivity. contradiction.
Qed.

Lemma handle_missing_columns (df : DataFrame) :
  NoDup (labels df) ->
  _handle_missing_values df
  = dropna_all (mkDF (nrows df)
                  (flat_map (fun s => opt_list (resolve_missing (nrows df) s))
                            (columns df))).
Proof.
  intros H. unfold _handle_missing_values.
  rewrite for_each_column_columns; [reflexivity | | exact H].
  intros s s'. apply resolve_missing_name.
Qed.

Lemma resolved_wf (df : DataFrame) :
  wf df ->
  wf (mkDF (nrows df)
        (flat_map (fun s => opt_list (resolve_missing (nrows df) s)) (columns df))).
Proof.
  unfold wf. cbn [nrows columns]. intros W. rewrite Forall_forall in *.
  intros s' H. apply in_flat_map in H. destruct H as [s [Hs H]].
  destruct (resolve_missing (nrows df) s) as [t|] eqn:E; [|contradiction].
  destruct H as [<-|[]]. rewrite (resolve_missing_length _ _ E). now apply W.
Qed.

Lemma resolved_has_value (df : DataFrame) :
  wf df ->
  Forall has_value
    (flat_map (fun s => opt_list (resolve_missing (nrows df) s)) (columns df)).
Proof.
  unfold wf. intros W. rewrite Forall_forall in *.
  intros s' H. apply in_flat_map in H. destruct H as [s [Hs H]].
  destruct (resolve_missing (nrows df) s) as [t|] eqn:E; [|contradiction].
  destruct H as [<-|[]].
  eapply resolve_missing_has_value; [apply (W s Hs) | exact E].
Qed.

Lemma wf_dropna_all (df : DataFrame) : wf df -> wf (dropna_all df).
Proof.
  intros W. apply wf_filter_rows; [exact W|].
  now rewrite length_map, rows_length.
Qed.

Lemma wf_drop_duplicates (df : DataFrame) : wf df -> wf (drop_duplicates df).
Proof.
  intros W. unfold drop_duplicates. destruct (empty df); [exact W|].
  apply wf_filter_rows; [exact W|].
  now rewrite first_occurrences_length, rows_length.
Qed.

(** After the missing-value stage and the deduplication every column has a
    value. *)
Lemma deduplicated_has_value (df : DataFrame) :
  wf df -> NoDup (labels df) ->
  wf (_remove_duplicate_rows (_handle_missing_values df))
  /\ Forall has_value (columns (_remove_duplicate_rows (_handle_missing_values df))).
Proof.
  intros W N. unfold _remove_duplicate_rows.
  rewrite (handle_missing_columns df N).
  assert (W1 := resolved_wf W). assert (V1 := resolved_has_value W).
  assert (W2 := wf_dropna_all W1).
  assert (V2 := dropna_all_has_value W1 V1).
  split; [now apply wf_drop_duplicates | now apply drop_duplicates_has_value].
Qed.

Lemma clean_dataframe_split (raw : DataFrame) :
  clean_dataframe raw
  = (d <- before_standardization raw ;; Ok (_standardize_text_columns d)).
Proof.
  unfold clean_dataframe, before_standardization.
  destruct (_handle_unnamed_columns raw) as [d1|e]; [|reflexivity].
  cbn [bind]. destruct (_detect_and_convert_types _) as [d3|e]; reflexivity.
Qed.

Lemma before_standardization_inv (raw d : DataFrame) :
  before_standardization raw = Ok d ->
  exists named typed,
    after_names raw = Ok named
    /\ _detect_and_convert_types named = Ok typed
    /\ d = _remove_duplicate_rows (_handle_missing_values typed).
Proof.
  unfold before_standardization, after_names. intros H.
  apply bind_Ok in H. destruct H as [d1 [H1 H]].
  apply bind_Ok in H. destruct H as [d3 [H3 H]]. injection H as <-.
  exists (_clean_column_names d1), d3. rewrite H1. now cbn [bind].
Qed.

Lemma after_names_wf (raw named : DataFrame) :
  after_names raw = Ok named -> wf raw -> wf named.
Proof.
  unfold after_names. intros H W. apply bind_Ok in H.
  destruct H as [d1 [H1 H]]. injection H as <-.
  apply clean_column_names_wf. now apply (handle_unnamed_wf H1).
Qed.

End PipelineFacts.

(** *** Text standardisation *)

Section StandardizeFacts.

Context {P : Pandas}.

Lemma Forall2_map_right (A B : Type) (R : A -> B -> Prop) (f : A -> B)
  (l : list A) :
  Forall (fun a => R a (f a)) l -> Forall2 R l (map f l).
Proof. induction 1; cbn [map]; constructor; assumption. Qed.

Lemma standardize_column_name (s : Series) :
  name (standardize_column s) = name s.
Proof. unfold standardize_column. now destruct (dtype s). Qed.

Lemma standardize_column_length (s : Series) :
  List.length (values (standardize_column s)) = List.length (values s).
Proof.
  unfold standardize_column. destruct (dtype s); try reflexivity.
  cbn [values]. apply length_map.
Qed.

(** A column keeps a value through the standardisation unless it is a text
    column whose every cell reads as a null literal. *)
Lemma standardize_column_has_value (s : Series) :
  has_value s ->
  has_value (standardize_column s)
  \/ (dtype s = object /\ Forall reads_as_null (values s)).
Proof.
  intros V. unfold standardize_column.
  destruct (dtype s) eqn:D; try (now left).
  destruct (forallb (fun v => Py.mem (standard_text v) null_literals) (values s))
    eqn:A.
  - right. split; [reflexivity|]. rewrite forallb_forall in A.
    apply Forall_forall. intros v Hv. apply mem_In. now apply A.
  - left.
    assert (X : exists v, In v (values s)
                          /\ Py.mem (standard_text v) null_literals = false).
    { clear V D. induction (values s) as [|v vs IH]; [discriminate|].
      cbn [forallb] in A. apply andb_false_iff in A. destruct A as [A|A].
      - exists v. split; [now left | exact A].
      - destruct (IH A) as [w [Hw Nw]]. exists w. split; [now right | exact Nw]. }
    destruct X as [v [Hv Nv]]. exists (VStr (standard_text v)). cbn [values].
    split; [|discriminate]. apply in_map_iff. exists v. split; [|exact Hv].
    unfold standardize_cell. now rewrite Nv.
Qed.

(** C3, as amended. Whenever [clean] returns on a well-formed table, every
    column has a value that is not missing at the end of the missing-value
    resolution and deduplication; the text standardisation that follows
    keeps the columns, and a column of the returned table is entirely
    missing only if before that last stage it was a text column all of
    whose cells read as one of nan, NaN, NULL, null, None. *)
Theorem clean_null_columns (raw d : DataFrame) :
  wf raw -> clean_dataframe raw = Ok d ->
  exists d5,
    before_standardization raw = Ok d5
    /\ d = _standardize_text_columns d5
    /\ Forall has_value (columns d5)
    /\ Forall2 (fun s5 s =>
                  name s = name s5
                  /\ (has_value s
                      \/ (dtype s5 = object /\ Forall reads_as_null (values s5))))
               (columns d5) (columns d).
Proof.
  intros W H. rewrite clean_dataframe_split in H.
  apply bind_Ok in H. destruct H as [d5 [H5 H]]. injection H as <-.
  exists d5. split; [exact H5|]. split; [reflexivity|].
  destruct (before_standardization_inv _ H5) as [named [typed [H1 [H3 ->]]]].
  assert (Wn : wf named) by (eapply after_names_wf; eassumption).
  assert (Wt : wf typed) by (eapply detect_types_wf; eassumption).
  assert (Nt : NoDup (labels typed)).
  { erewrite labels_detect_types by eassumption.
    eapply detect_types_NoDup; eassumption. }
  destruct (deduplicated_has_value Wt Nt) as [_ V].
  split; [exact V|].
  unfold _standardize_text_columns. cbn [columns].
  apply Forall2_map_right. rewrite Forall_forall in *. intros s Hs.
  split; [apply standardize_column_name|].
  now apply standardize_column_has_value, V.
Qed.

End StandardizeFacts.

Lemma clean_null_columns_witness :
  exists d5,
    before_standardization (P := ref_pandas) null_text_df = Ok d5
    /\ mkDF 2 [mkSeries "a" float64 [NaN; NaN]; text_column "b" ["x"; "y"]]
       = _standardize_text_columns d5
    /\ Forall has_value (columns d5)
    /\ Forall2 (fun s5 s =>
                  name s = name s5
                  /\ (has_value s
                      \/ (dtype s5 = object /\ Forall reads_as_null (values s5))))
               (columns d5)
               [mkSeries "a" float64 [NaN; NaN]; text_column "b" ["x"; "y"]].
Proof.
  apply (@clean_null_columns ref_pandas null_text_df).
  - repeat constructor.
  - vm_compute. reflexivity.
Defined.

(** C3, as stated, fails: the column a holds null literals only, survives
    the missing-value stage as text, and comes out entirely missing. *)
Lemma clean_returns_null_column :
  clean_dataframe (P := ref_pandas) null_text_df
  = Ok (mkDF 2 [mkSeries "a" float64 [NaN; NaN]; text_column "b" ["x"; "y"]]).
Proof. vm_compute. reflexivity. Qed.

(** *** Numeric inference *)

Section NumericFacts.

Context {P : Pandas}.

Lemma null_notna_count (vs : list value) :
  List.length (filter isnull vs) + notna_count vs = List.length vs.
Proof.
  unfold notna_count, notna. induction vs as [|v vs IH]; [reflexivity|].
  cbn [filter]. destruct (isnull v); cbn [negb List.length]; lia.
Qed.

Lemma numeric_col_dtype (s : Series) : is_np_number (numeric_col s) = true.
Proof. unfold numeric_col. now destruct (forallb _ _). Qed.

Lemma numeric_col_name (s : Series) : name (numeric_col s) = name s.
Proof. unfold numeric_col. now destruct (forallb _ _). Qed.

Lemma is_np_number_numeric (s : Series) :
  is_np_number s = true -> is_numeric_dtype s = true /\ dtype s <> object.
Proof.
  unfold is_np_number, is_numeric_dtype.
  destruct (dtype s); try discriminate; split; (reflexivity || discriminate).
Qed.

(** A numeric column of which more than half is present is kept by the
    missing-value stage, with its name and its type. *)
Lemma resolve_numeric_kept (n : nat) (s : Series) :
  is_np_number s = true -> List.length (values s) = n ->
  n < 2 * notna_count (values s) ->
  exists s', resolve_missing n s = Some s'
             /\ name s' = name s /\ dtype s' = dtype s.
Proof.
  intros T L H. pose proof (null_notna_count (values s)) as C.
  destruct (is_np_number_numeric s T) as [Tn _].
  unfold resolve_missing, null_count. rewrite Tn.
  destruct (Nat.eqb_spec (List.length (filter isnull (values s))) n) as [E|_];
    [lia|].
  destruct (0 <? _); [|now exists s].
  assert (R1 : ratio_gt (List.length (filter isnull (values s))) n 9 10 = false).
  { unfold ratio_gt. apply andb_false_iff. right. apply Nat.ltb_ge. lia. }
  assert (R2 : ratio_lt (List.length (filter isnull (values s))) n 1 2 = true).
  { unfold ratio_lt. apply andb_true_iff. split; apply Nat.ltb_lt; lia. }
  rewrite R1, R2. eexists. split; [reflexivity|]. now split.
Qed.

Lemma in_filter_rows (mask : list bool) (df : DataFrame) (s : Series) :
  In s (columns df) ->
  exists s', In s' (columns (filter_rows mask df))
             /\ name s' = name s /\ dtype s' = dtype s.
Proof.
  intros H. eexists. split.
  - unfold filter_rows. cbn [columns]. apply in_map_iff. exists s.
    split; [reflexivity | exact H].
  - now split.
Qed.

Lemma in_drop_duplicates (df : DataFrame) (s : Series) :
  In s (columns df) ->
  exists s', In s' (columns (drop_duplicates df))
             /\ name s' = name s /\ dtype s' = dtype s.
Proof.
  intros H. unfold drop_duplicates. destruct (empty df).
  - exists s. now split.
  - now apply in_filter_rows.
Qed.

(** From the end of type inference to the end of the pipeline a numeric
    column of which more than half is present stays, name and type. *)
Lemma numeric_column_survives (typed : DataFrame) (s : Series) :
  wf typed -> NoDup (labels typed) -> In s (columns typed) ->
  is_np_number s = true -> nrows typed < 2 * notna_count (values s) ->
  exists s',
    In s' (columns (_standardize_text_columns
                      (_remove_duplicate_rows (_handle_missing_values typed))))
    /\ name s' = name s /\ dtype s' = dtype s.
Proof.
  intros W N Hs T H. unfold wf in W. rewrite Forall_forall in W.
  destruct (resolve_numeric_kept s T (W s Hs) H) as [s4 [R [N4 D4]]].
  rewrite (handle_missing_columns typed N).
  set (d4 := mkDF (nrows typed)
               (flat_map (fun s => opt_list (resolve_missing (nrows typed) s))
                         (columns typed))).
  assert (I4 : In s4 (columns d4)).
  { cbn [columns d4]. apply in_flat_map. exists s. split; [exact Hs|].
    rewrite R. now left. }
  unfold dropna_all, _remove_duplicate_rows.
  set (m5 := map (fun r => existsb notna r) (rows d4)).
  destruct (in_filter_rows m5 d4 s4 I4) as [s5 [I5 [N5 D5]]].
  destruct (in_drop_duplicates (filter_rows m5 d4) s5 I5) as [s6 [I6 [N6 D6]]].
  exists s6. split; [|split; congruence].
  unfold _standardize_text_columns. cbn [columns]. apply in_map_iff.
  exists s6. split; [|exact I6].
  unfold standardize_column.
  assert (D : dtype s6 = dtype s) by congruence.
  destruct (is_np_number_numeric s T) as [_ O]. rewrite D.
  now destruct (dtype s).
Qed.

(** C6, as amended. Take a text column of the table as it stands after the
    normalisation of the names. If strictly more than half of the rows of
    the table parse as numbers in that column (separators and currency sign
    stripped), the cleaned table has a column of that name whose type is
    numeric. If at most half do, type inference does not read the column as
    numbers: it becomes the datetime reading when that is adopted, else the
    boolean reading when the column looks boolean, and is left as it is
    otherwise. *)
Theorem numeric_inference (raw named d : DataFrame) (s : Series) :
  wf raw -> after_names raw = Ok named -> clean_dataframe raw = Ok d ->
  In s (columns named) -> dtype s = object ->
  (nrows named < 2 * parsed_count s ->
   exists s', In s' (columns d) /\ name s' = name s
              /\ (dtype s' = float64 \/ dtype s' = int64))
  /\ (2 * parsed_count s <= nrows named ->
      exists typed,
        _detect_and_convert_types named = Ok typed
        /\ In (convert_column (nrows named) s) (columns typed)
        /\ convert_column (nrows named) s
           = match datetime_adopted (nrows named) s with
             | Some as_dates => as_dates
             | None => if looks_boolean s then boolean_col s else s
             end).
Proof.
  intros W H1 H Hs D.
  rewrite clean_dataframe_split in H. apply bind_Ok in H.
  destruct H as [d5 [H5 H]]. injection H as <-.
  destruct (before_standardization_inv _ H5) as [named' [typed [H1' [H3 ->]]]].
  rewrite H1 in H1'. injection H1' as <-.
  assert (Wn : wf named) by (eapply after_names_wf; eassumption).
  assert (Wt : wf typed) by (eapply detect_types_wf; eassumption).
  assert (Nn : NoDup (labels named)) by (eapply detect_types_NoDup; eassumption).
  assert (Nt : NoDup (labels typed))
    by (erewrite labels_detect_types by eassumption; exact Nn).
  destruct (detect_types_inv _ H3) as [_ E].
  assert (It : In (convert_column (nrows named) s) (columns typed)).
  { rewrite E. cbn [columns]. now apply in_map. }
  assert (L : List.length (values s) = nrows named).
  { unfold wf in Wn. rewrite Forall_forall in Wn. now apply Wn. }
  split.
  - intros G.
    assert (A : numeric_adopted (nrows named) s = true).
    { unfold numeric_adopted, ratio_gt. fold (parsed_count s).
      apply andb_true_iff. split; apply Nat.ltb_lt; [|lia].
      unfold parsed_count in G.
      pose proof (null_notna_count (values (numeric_col s))) as C.
      rewrite numeric_col_length in C. lia. }
    assert (C : convert_column (nrows named) s = numeric_col s).
    { unfold convert_column. now rewrite D, A. }
    rewrite C in It.
    assert (G' : nrows typed < 2 * notna_count (values (numeric_col s)))
      by (rewrite E; cbn [nrows]; exact G).
    destruct (@numeric_column_survives typed (numeric_col s) Wt Nt It
                (numeric_col_dtype s) G') as [s' [I' [N' D']]].
    exists s'. split; [exact I'|]. split; [now rewrite N', numeric_col_name|].
    rewrite D'. unfold numeric_col.
    destruct (forallb _ _); [now right | now left].
  - intros G. exists typed. split; [exact H3|]. split; [exact It|].
    unfold convert_column. rewrite D.
    assert (A : numeric_adopted (nrows named) s = false).
    { unfold numeric_adopted, ratio_gt. fold (parsed_count s).
      apply andb_false_iff. right. apply Nat.ltb_ge. lia. }
    now rewrite A.
Qed.

End NumericFacts.

Lemma numeric_inference_witness :
  (3 < 2 * parsed_count (P := ref_pandas) (text_column "price" ["$5"; "1,007"; "x"]) ->
   exists s', In s' [mkSeries "price" float64 [VFloat 5; VFloat 1007; VFloat 506]]
              /\ name s' = "price"
              /\ (dtype s' = float64 \/ dtype s' = int64))
  /\ (2 * parsed_count (P := ref_pandas) (text_column "price" ["$5"; "1,007"; "x"]) <= 3 ->
      exists typed,
        _detect_and_convert_types (P := ref_pandas) mostly_numeric_df = Ok typed
        /\ In (convert_column 3 (text_column "price" ["$5"; "1,007"; "x"]))
              (columns typed)
        /\ convert_column 3 (text_column "price" ["$5"; "1,007"; "x"])
           = match datetime_adopted 3 (text_column "price" ["$5"; "1,007"; "x"]) with
             | Some as_dates => as_dates
             | None => if looks_boolean (text_column "price" ["$5"; "1,007"; "x"])
                       then boolean_col (text_column "price" ["$5"; "1,007"; "x"])
                       else text_column "price" ["$5"; "1,007"; "x"]
             end).
Proof.
  apply (@numeric_inference ref_pandas mostly_numeric_df mostly_numeric_df
           (mkDF 3 [mkSeries "price" float64 [VFloat 5; VFloat 1007; VFloat 506]])
           (text_column "price" ["$5"; "1,007"; "x"])).
  - repeat constructor.
  - vm_compute. reflexivity.
  - vm_compute. reflexivity.
  - now left.
  - reflexivity.
Defined.

(** C6, as stated, fails at the boundary: one of the two cells parses,
    which is 50%, and the cleaned column is still text. *)
Lemma half_parsed_stays_text :
  parsed_count (P := ref_pandas) (text_column "a" ["5"; "x"]) = 1
  /\ nrows half_numeric_df = 2
  /\ clean_dataframe (P := ref_pandas) half_numeric_df
     = Ok (mkDF 2 [mkSeries "a" object [VStr "5"; VStr "x"]]).
Proof. repeat split; vm_compute; reflexivity. Qed.

(** *** Stages that leave a table as it is *)

Section FixedPoint.

Context {P : Pandas}.







Lemma first_occurrences_distinct (seen rs : list (list value)) :
  ForallOrdPairs (fun earlier later => row_eqb later earlier = false) rs ->
  Forall (fun r => Forall (fun r' => row_eqb r r' = false) seen) rs ->
  forallb (fun b => b) (first_occurrences seen rs) = true.
Proof.
  intros H. revert seen. induction H as [|r rs Hr _ IH]; intros seen S;
    [reflexivity|].
  apply Forall_cons_iff in S. destruct S as [S1 S2].
  cbn [first_occurrences].
  assert (E : existsb (row_eqb r) seen = false).
  { apply not_true_is_false. intros X. apply existsb_exists in X.
    destruct X as [r' [H1 H2]]. rewrite Forall_forall in S1.
    rewrite (S1 r' H1) in H2. discriminate. }
  rewrite E. cbn [forallb andb]. apply IH.
  rewrite Forall_forall in *. intros x Hx. constructor; [now apply Hr | now apply S2].
Qed.

End FixedPoint.

(** *** Repeated names *)

(** C2. The disambiguation of repeated names can produce a name that is
    already there: the raw labels "a b", "a_b" and "a_b_1" are distinct, the
    first two normalise to a_b, the repeat is renamed a_b_1, and the table
    leaves [_clean_column_names] with a_b_1 twice. Type inference then
    fails on the repeated label, whatever the library does, and [clean]
    raises instead of returning a table. *)
Theorem clean_column_names_collide :
  NoDup (labels colliding_df)
  /\ _handle_unnamed_columns colliding_df = Ok colliding_df
  /\ map _clean_column_name (labels colliding_df) = ["a_b"; "a_b"; "a_b_1"]
  /\ labels (_clean_column_names colliding_df) = ["a_b"; "a_b_1"; "a_b_1"]
  /\ forall P : Pandas,
       clean_dataframe colliding_df
       = Raise "AttributeError: 'DataFrame' object has no attribute 'dtype'".
Proof.
  split; [repeat constructor; cbn; intuition discriminate|].
  split; [reflexivity|]. split; [reflexivity|]. split; [reflexivity|].
  intros P. unfold clean_dataframe.
  replace (_handle_unnamed_columns colliding_df) with (Ok colliding_df)
    by reflexivity.
  cbn [bind]. unfold _detect_and_convert_types. rewrite convert_fold.
  reflexivity.
Qed.

(** *** Names and shape of a cleaned table *)

Lemma in_dropwhile (p : ascii -> bool) (l : list ascii) (x : ascii) :
  In x (Py.dropwhile p l) -> In x l.
Proof.
  induction l as [|c l IH]; [intros []|].
  cbn [Py.dropwhile]. destruct (p c); [right; now apply IH | trivial].
Qed.

Lemma in_strip_by (p : ascii -> bool) (l : list ascii) (x : ascii) :
  In x (Py.strip_by p l) -> In x l.
Proof.
  unfold Py.strip_by, Py.rstrip_by, Py.lstrip_by. intros H.
  apply in_rev, in_dropwhile, in_rev, in_dropwhile in H. exact H.
Qed.

Lemma in_collapse (p : ascii -> bool) (r : ascii) (l : list ascii) (x : ascii) :
  In x (Py.collapse p r l) -> x = r \/ (In x l /\ p x = false).
Proof.
  induction l as [|c l IH]; [intros []|].
  cbn [Py.collapse]. destruct (p c) eqn:E.
  - destruct l as [|c' l'].
    + intros [<-|[]]. now left.
    + destruct (p c').
      * intros H. destruct (IH H) as [->|[H1 H2]]; [now left|].
        right. split; [now right | exact H2].
      * intros [<-|H]; [now left|].
        destruct (IH H) as [->|[H1 H2]]; [now left|].
        right. split; [now right | exact H2].
  - intros [<-|H]; [right; split; [now left | exact E]|].
    destruct (IH H) as [->|[H1 H2]]; [now left|].
    right. split; [now right | exact H2].
Qed.

Lemma clean_column_name_word (n : string) : well_named (_clean_column_name n).
Proof.
  split; [apply clean_column_name_nonempty|].
  unfold _clean_column_name.
  destruct (Py.strip_by _ _) as [|c l] eqn:E; [repeat constructor|].
  rewrite chars_str, <- E. apply Forall_forall. intros x Hx.
  apply in_strip_by, in_collapse in Hx. destruct Hx as [->|[Hx _]]; [reflexivity|].
  apply in_collapse in Hx. destruct Hx as [->|[Hx Sx]]; [reflexivity|].
  apply filter_In in Hx. destruct Hx as [_ Hx].
  rewrite Sx, orb_false_r in Hx. exact Hx.
Qed.

Lemma string_of_uint_word (d : Decimal.uint) :
  Forall (fun c => Py.isword c = true) (Py.chars (NilEmpty.string_of_uint d)).
Proof.
  induction d; cbn [NilEmpty.string_of_uint]; [constructor|..];
    (constructor; [reflexivity | exact IHd]).
Qed.

Lemma well_named_suffix (dup : string) (k : nat) :
  well_named dup -> well_named (dup ++ "_" ++ Py.str_of_nat k)%string.
Proof.
  intros [N W]. split.
  - destruct dup; [contradiction | discriminate].
  - rewrite !chars_app. apply Forall_app. split; [exact W|].
    apply Forall_app. split; [repeat constructor | apply string_of_uint_word].
Qed.

Lemma rename_occurrences_well_named (dup : string) (k : nat) (cols : list string) :
  well_named dup -> Forall well_named cols ->
  Forall well_named (rename_occurrences dup k cols).
Proof.
  intros D H. revert k. induction H as [|c cols Hc _ IH]; intros k;
    [constructor|].
  cbn [rename_occurrences]. destruct (String.eqb c dup).
  - constructor; [|apply IH]. destruct k; [exact Hc | now apply well_named_suffix].
  - constructor; [exact Hc | apply IH].
Qed.

Lemma rename_occurrences_length (dup : string) (k : nat) (cols : list string) :
  List.length (rename_occurrences dup k cols) = List.length cols.
Proof.
  revert k. induction cols as [|c cols IH]; intros k; [reflexivity|].
  cbn [rename_occurrences]. destruct (String.eqb c dup); cbn [List.length];
    now rewrite IH.
Qed.

Lemma in_duplicated (seen cols : list string) (x : string) :
  In x (duplicated seen cols) -> In x cols.
Proof.
  revert seen. induction cols as [|c cols IH]; intros seen; [intros []|].
  cbn [duplicated]. destruct (Py.mem c seen).
  - intros [<-|H]; [now left | right; now apply (IH seen)].
  - intros H. right. now apply (IH (c :: seen)).
Qed.

Lemma in_unique (seen l : list string) (x : string) :
  In x (unique seen l) -> In x l.
Proof.
  revert seen. induction l as [|c l IH]; intros seen; [intros []|].
  cbn [unique]. destruct (Py.mem c seen).
  - intros H. right. now apply (IH seen).
  - intros [<-|H]; [now left | right; now apply (IH (c :: seen))].
Qed.

Lemma dedupe_labels_well_named (cols : list string) :
  Forall well_named cols ->
  Forall well_named (dedupe_labels cols)
  /\ List.length (dedupe_labels cols) = List.length cols.
Proof.
  intros H. unfold dedupe_labels.
  assert (D : Forall well_named (unique [] (duplicated [] cols))).
  { apply Forall_forall. intros x Hx. apply in_unique, in_duplicated in Hx.
    rewrite Forall_forall in H. now apply H. }
  revert D. generalize (unique [] (duplicated [] cols)). intros dups D.
  assert (G : forall cur, Forall well_named cur ->
            Forall well_named
              (fold_left (fun cs dup => rename_occurrences dup 0 cs) dups cur)
            /\ List.length
                 (fold_left (fun cs dup => rename_occurrences dup 0 cs) dups cur)
               = List.length cur).
  { induction D as [|dup dups Hd _ IH]; intros cur Hc; [now split|].
    cbn [fold_left].
    destruct (IH (rename_occurrences dup 0 cur)
                 (rename_occurrences_well_named 0 Hd Hc)) as [A B].
    split; [exact A|]. now rewrite B, rename_occurrences_length. }
  now apply G.
Qed.

Lemma labels_set_labels (df : DataFrame) (new : list string) :
  List.length new = List.length (columns df) ->
  labels (set_labels df new) = new.
Proof.
  unfold labels, set_labels. cbn [columns]. rewrite map_map.
  generalize (columns df). intros cs. revert cs.
  induction new as [|n new IH]; intros [|s cs] H; try discriminate;
    [reflexivity|].
  injection H as H. cbn [combine map rename name snd fst]. now rewrite IH.
Qed.

Lemma clean_column_names_labels (df : DataFrame) :
  labels (_clean_column_names df)
  = dedupe_labels (map _clean_column_name (labels df)).
Proof.
  unfold _clean_column_names.
  assert (L : List.length (map _clean_column_name (labels df))
              = List.length (columns df))
    by (unfold labels; now rewrite !length_map).
  assert (W : Forall well_named (map _clean_column_name (labels df))).
  { apply Forall_map, Forall_forall. intros l _. apply clean_column_name_word. }
  destruct (dedupe_labels_well_named W) as [_ E].
  rewrite (labels_set_labels df _ L).
  apply labels_set_labels. rewrite E, L. unfold set_labels. cbn [columns].
  rewrite length_map, length_combine, L. lia.
Qed.

Section ShapeFacts.

Context {P : Pandas}.

Lemma resolved_labels (n : nat) (cs : list Series) :
  NoDup (map name cs) ->
  NoDup (map name (flat_map (fun s => opt_list (resolve_missing n s)) cs))
  /\ forall l, In l (map name (flat_map (fun s => opt_list (resolve_missing n s)) cs))
               -> In l (map name cs).
Proof.
  induction cs as [|s cs IH]; intros N; [split; [constructor | intros l []]|].
  cbn [map] in N. apply NoDup_cons_iff in N. destruct N as [Ns N].
  destruct (IH N) as [A B]. cbn [flat_map].
  destruct (resolve_missing n s) as [s'|] eqn:E; cbn [opt_list app map].
  - rewrite (resolve_missing_name _ _ E). split.
    + constructor; [|exact A]. intros H. apply Ns. now apply B.
    + intros l [<-|H]; [now left | right; now apply B].
  - split; [exact A | intros l H; right; now apply B].
Qed.

Lemma labels_standardize (df : DataFrame) :
  labels (_standardize_text_columns df) = labels df.
Proof.
  unfold labels, _standardize_text_columns. cbn [columns]. rewrite map_map.
  apply map_ext. intros s. apply standardize_column_name.
Qed.

Lemma wf_standardize (df : DataFrame) :
  wf df -> wf (_standardize_text_columns df).
Proof.
  unfold wf, _standardize_text_columns. cbn [nrows columns]. intros W.
  apply Forall_map. rewrite Forall_forall in *. intros s Hs.
  rewrite standardize_column_length. now apply W.
Qed.

(** Whenever [clean] returns on a well-formed table, the names of the
    returned table are pairwise distinct, none is empty, all are made of
    word characters, and every column is as long as the index. *)
Theorem clean_names_and_shape (raw d : DataFrame) :
  wf raw -> clean_dataframe raw = Ok d ->
  NoDup (labels d) /\ Forall well_named (labels d) /\ wf d.
Proof.
  intros W H. rewrite clean_dataframe_split in H.
  apply bind_Ok in H. destruct H as [d5 [H5 H]]. injection H as <-.
  destruct (before_standardization_inv _ H5) as [named [typed [H1 [H3 ->]]]].
  assert (Wn : wf named) by (eapply after_names_wf; eassumption).
  assert (Wt : wf typed) by (eapply detect_types_wf; eassumption).
  assert (Nn : NoDup (labels named)) by (eapply detect_types_NoDup; eassumption).
  assert (Lt : labels typed = labels named)
    by (eapply labels_detect_types; eassumption).
  assert (Nt : NoDup (labels typed)) by (rewrite Lt; exact Nn).
  assert (Gn : Forall well_named (labels named)).
  { unfold after_names in H1. apply bind_Ok in H1.
    destruct H1 as [d1 [_ H1]]. injection H1 as <-.
    rewrite clean_column_names_labels. apply dedupe_labels_well_named.
    apply Forall_map, Forall_forall. intros l _. apply clean_column_name_word. }
  destruct (deduplicated_has_value Wt Nt) as [W5 _].
  assert (E : labels (_standardize_text_columns
                        (_remove_duplicate_rows (_handle_missing_values typed)))
              = map name (flat_map
                            (fun s => opt_list (resolve_missing (nrows typed) s))
                            (columns typed))).
  { rewrite labels_standardize. unfold _remove_duplicate_rows.
    rewrite labels_drop_duplicates, (handle_missing_columns typed Nt).
    unfold dropna_all. rewrite labels_filter_rows. reflexivity. }
  destruct (resolved_labels (nrows typed) (columns typed) Nt) as [A B].
  split; [rewrite E; exact A|]. split.
  - rewrite E. apply Forall_forall. intros l Hl.
    apply B in Hl. fold (labels typed) in Hl. rewrite Lt in Hl.
    rewrite Forall_forall in Gn. now apply Gn.
  - apply wf_standardize. exact W5.
Qed.

End ShapeFacts.

Lemma clean_names_and_shape_witness :
  NoDup ["price"] /\ Forall well_named ["price"]
  /\ wf (mkDF 3 [mkSeries "price" float64 [VFloat 5; VFloat 1007; VFloat 506]]).
Proof.
  apply (@clean_names_and_shape ref_pandas mostly_numeric_df
           (mkDF 3 [mkSeries "price" float64 [VFloat 5; VFloat 1007; VFloat 506]])).
  - repeat constructor.
  - vm_compute. reflexivity.
Defined.

(** ** Rows of a frame *)

Lemma map_nth_seq_id (A : Type) (d : A) (l : list A) :
  map (fun k => nth k l d) (seq 0 (List.length l)) = l.
Proof.
  rewrite (map_nth_seq (fun x => x) d l). apply map_id.
Qed.

Lemma take_rows_all (df : DataFrame) :
  wf df -> take_rows (seq 0 (nrows df)) df = df.
Proof.
  intros W. destruct df as [n cs]. unfold take_rows, wf in *.
  cbn [nrows columns] in *. rewrite length_seq. f_equal.
  rewrite <- (map_id cs) at 2. apply map_ext_in. intros s Hs.
  rewrite Forall_forall in W. rewrite <- (W s Hs), map_nth_seq_id.
  apply series_eta.
Qed.

Lemma select_map (A B : Type) (f : A -> B) (mask : list bool) (l : list A) :
  select mask (map f l) = map f (select mask l).
Proof.
  revert l. induction mask as [|b mask IH]; intros [|x l]; try reflexivity.
  cbn [map select]. destruct b; cbn [map]; now rewrite IH.
Qed.

Lemma select_filter (A : Type) (p : A -> bool) (l : list A) :
  select (map p l) l = filter p l.
Proof.
  induction l as [|x l IH]; [reflexivity|].
  cbn [map select filter]. destruct (p x); now rewrite IH.
Qed.

Lemma filter_rows_take_rows (mask : list bool) (idx : list nat) (df : DataFrame) :
  List.length mask = List.length idx ->
  filter_rows mask (take_rows idx df) = take_rows (select mask idx) df.
Proof.
  intros L. unfold filter_rows, take_rows. cbn [nrows columns].
  rewrite (select_length mask idx L). f_equal.
  rewrite map_map. apply map_ext. intros s. cbn [name dtype values].
  now rewrite select_map.
Qed.

Lemma filter_rows_positions (mask : list bool) (df : DataFrame) :
  wf df -> List.length mask = nrows df ->
  filter_rows mask df = take_rows (select mask (seq 0 (nrows df))) df.
Proof.
  intros W L. rewrite <- (take_rows_all W) at 1.
  apply filter_rows_take_rows. now rewrite length_seq.
Qed.

Lemma rows_take_rows (idx : list nat) (df : DataFrame) :
  rows (take_rows idx df) = map (row df) idx.
Proof.
  rewrite <- (map_nth_seq (row df) 0 idx).
  unfold rows, take_rows, row. cbn [nrows columns].
  apply map_ext_in. intros k Hk. apply in_seq in Hk.
  rewrite map_map. apply map_ext. intros s. cbn [values].
  rewrite (nth_indep _ NaN (nth 0 (values s) NaN)) by (rewrite length_map; lia).
  now rewrite (map_nth (fun i => nth i (values s) NaN)).
Qed.

Lemma rows_as_map (df : DataFrame) : rows df = map (row df) (seq 0 (nrows df)).
Proof. reflexivity. Qed.

(** The rows of [df[mask]] are the rows of [df] that the mask keeps. *)
Lemma rows_filter_rows (mask : list bool) (df : DataFrame) :
  wf df -> List.length mask = nrows df ->
  rows (filter_rows mask df) = select mask (rows df).
Proof.
  intros W L. rewrite (filter_rows_positions mask W L), rows_take_rows.
  now rewrite rows_as_map, select_map.
Qed.

Lemma to_records_take_rows (idx : list nat) (df : DataFrame) :
  columns df <> [] ->
  to_records (take_rows idx df) = map (record_at df) idx.
Proof.
  intros C. rewrite <- (map_nth_seq (record_at df) 0 idx).
  rewrite to_records_rows
    by (cbn [take_rows columns]; destruct (columns df); [congruence | discriminate]).
  unfold take_rows, record_at. cbn [nrows columns].
  apply map_ext_in. intros k Hk. apply in_seq in Hk.
  rewrite map_map. apply map_ext. intros s. cbn [name values]. f_equal.
  rewrite (nth_indep _ NaN (nth 0 (values s) NaN)) by (rewrite length_map; lia).
  now rewrite (map_nth (fun i => nth i (values s) NaN)).
Qed.

Lemma getitem_take_rows (idx : list nat) (df : DataFrame) (col : string) :
  getitem (take_rows idx df) col
  = option_map (fun s => mkSeries (name s) (dtype s)
                           (map (fun i => nth i (values s) NaN) idx))
               (getitem df col).
Proof.
  unfold getitem, take_rows. cbn [columns].
  induction (columns df) as [|s cs IH]; [reflexivity|].
  cbn [map find name]. destruct (String.eqb (name s) col); [reflexivity | exact IH].
Qed.

(** ** The filter handler *)

Lemma filter_step_positions (df : DataFrame) (idx : list nat) (f : string * value) :
  filter_step df (take_rows idx df) f
  = take_rows (filter (fun i => passes df i f) idx) df.
Proof.
  destruct f as [col v]. unfold filter_step, passes. cbn [fst snd].
  destruct (has_label df col) eqn:H.
  - rewrite getitem_take_rows. unfold cell.
    destruct (getitem df col) as [s|] eqn:G; cbn [option_map].
    + cbn [values]. rewrite map_map, filter_rows_take_rows
        by (now rewrite length_map).
      now rewrite select_filter.
    + exfalso. unfold has_label in H. apply mem_In in H. unfold labels in H.
      apply in_map_iff in H. destruct H as [s [E Hs]].
      unfold getitem in G. apply (find_none _ _ G) in Hs.
      rewrite E, String.eqb_refl in Hs. discriminate.
  - f_equal. symmetry. rewrite <- (filter_true idx) at 2. reflexivity.
Qed.

Lemma filter_fold_positions (df : DataFrame) (fs : list (string * value))
  (idx : list nat) :
  fold_left (filter_step df) fs (take_rows idx df)
  = take_rows (filter (matches df fs) idx) df.
Proof.
  revert idx. induction fs as [|f fs IH]; intros idx.
  - cbn [fold_left]. f_equal. unfold matches. cbn [forallb].
    induction idx as [|i idx IHi]; [reflexivity|]. cbn. now rewrite <- IHi.
  - cbn [fold_left]. rewrite filter_step_positions, IH. f_equal.
    unfold matches. cbn [forallb].
    induction idx as [|i idx IHi]; [reflexivity|].
    cbn [filter]. destruct (passes df i f); cbn [filter andb];
      [destruct (forallb (passes df i) fs)|]; now rewrite IHi.
Qed.

(** The filter handler, on a well-formed frame with distinct labels, keeps
    the rows on which every filter whose column is a label of the frame
    holds as an equality, and ignores the filters on other columns; it
    reports how many rows these are and returns the first 20 of them in the
    order of the frame; it answers "no match" exactly when there is no such
    row or the frame has no column. *)
Theorem filter_data_spec (df : DataFrame) (fs : list (string * value)) :
  wf df -> NoDup (labels df) ->
  let kept := filter (matches df fs) (seq 0 (nrows df)) in
  _filter_data df fs
  = Ok (if (List.length kept =? 0) || (List.length (columns df) =? 0)
        then say "No data matches the specified filters. Try adjusting your criteria."
        else mkResponse "ai"
               ("Found " ++ Py.str_of_nat (List.length kept)
                  ++ " matching records. Showing the first 20:")%string
               (Some (map (record_at df) (firstn 20 kept))) None).
Proof.
  intros W _. cbv zeta. unfold _filter_data.
  pose proof (filter_fold_positions df fs (seq 0 (nrows df))) as F.
  rewrite (take_rows_all W) in F. rewrite F.
  set (kept := filter (matches df fs) (seq 0 (nrows df))).
  assert (Em : empty (take_rows kept df)
               = (List.length kept =? 0) || (List.length (columns df) =? 0)).
  { unfold empty, take_rows. cbn [nrows columns]. now rewrite length_map. }
  rewrite Em. destruct (List.length kept =? 0); [reflexivity|]. cbn [orb].
  destruct (columns df) as [|c cs] eqn:C; [reflexivity|]. cbn [List.length Nat.eqb].
  rewrite to_records_head, to_records_take_rows, firstn_map
    by (rewrite C; discriminate).
  reflexivity.
Qed.

(** On the two sales records, the filter region = east leaves exactly the
    record with sales 10. *)
Lemma filter_data_spec_witness :
  wf sales_df
  /\ _filter_data sales_df [("region", VStr "east")]
     = Ok (mkResponse "ai" "Found 1 matching records. Showing the first 20:"
             (Some [[("region", VStr "east"); ("sales", VInt 10)]]) None).
Proof.
  assert (W : wf sales_df) by (repeat constructor).
  assert (N : NoDup (labels sales_df))
    by (repeat constructor; cbn; intuition discriminate).
  split; [exact W|].
  exact (@filter_data_spec sales_df [("region", VStr "east")] W N).
Defined.

(** ** Duplicate rows *)

(** The rows that the mask of first occurrences keeps repeat neither one
    another nor a row seen before. *)
Lemma first_occurrences_kept (seen rs : list (list value)) :
  ForallOrdPairs (fun earlier later => row_eqb later earlier = false)
                 (select (first_occurrences seen rs) rs)
  /\ Forall (fun r => existsb (row_eqb r) seen = false)
            (select (first_occurrences seen rs) rs).
Proof.
  revert seen. induction rs as [|r rs IH]; intros seen.
  - split; constructor.
  - cbn [first_occurrences]. destruct (existsb (row_eqb r) seen) eqn:E;
      cbn [select]; [apply IH|].
    destruct (IH (r :: seen)) as [A B]. rewrite Forall_forall in B.
    split; constructor; try assumption; apply Forall_forall; intros x Hx;
      specialize (B x Hx); cbn [existsb] in B; apply orb_false_iff in B; tauto.
Qed.

(** Outside the frames that have rows and no column, [drop_duplicates] is
    the selection of the first occurrences. *)
Lemma drop_duplicates_mask (df : DataFrame) :
  wf df -> columns df <> [] \/ nrows df = 0 ->
  drop_duplicates df = filter_rows (first_occurrences [] (rows df)) df.
Proof.
  intros W H. unfold drop_duplicates, empty.
  destruct (Nat.eqb_spec (nrows df) 0) as [Z|Z]; cbn [orb].
  - symmetry. unfold rows. rewrite Z. cbn [seq map first_occurrences].
    apply filter_rows_all; [exact W | now rewrite Z | reflexivity].
  - destruct H as [H|H]; [|contradiction].
    destruct (columns df); [contradiction | reflexivity].
Qed.

Lemma rows_drop_duplicates (df : DataFrame) :
  wf df -> columns df <> [] \/ nrows df = 0 ->
  rows (drop_duplicates df) = select (first_occurrences [] (rows df)) (rows df).
Proof.
  intros W C. rewrite (drop_duplicates_mask W C).
  apply rows_filter_rows; [exact W|].
  now rewrite first_occurrences_length, rows_length.
Qed.

Lemma drop_duplicates_distinct (df : DataFrame) :
  wf df -> columns df <> [] \/ nrows df = 0 ->
  distinct_rows (drop_duplicates df).
Proof.
  intros W C. unfold distinct_rows. rewrite (rows_drop_duplicates W C).
  apply first_occurrences_kept.
Qed.

(** [_remove_duplicate_rows] on a frame with a column: no row of the result
    repeats an earlier one, every row of the result is a row of the frame,
    and every row of the frame equals a row of the result (missing cells
    being equal to each other). A frame without columns is returned as it
    is by pandas and is not covered. *)
Theorem remove_duplicate_rows_spec (df : DataFrame) :
  wf df -> columns df <> [] ->
  distinct_rows (_remove_duplicate_rows df)
  /\ (forall r, In r (rows (_remove_duplicate_rows df)) -> In r (rows df))
  /\ (forall r, In r (rows df) ->
        exists r', In r' (rows (_remove_duplicate_rows df))
                   /\ row_eqb r r' = true).
Proof.
  intros W C. apply (or_introl (B := nrows df = 0)) in C.
  unfold _remove_duplicate_rows. split; [|split].
  - now apply drop_duplicates_distinct.
  - intros r. rewrite (rows_drop_duplicates W C). apply in_select.
  - intros r Hr. rewrite (rows_drop_duplicates W C).
    apply In_nth_error in Hr. destruct Hr as [i Hi].
    destruct (first_occurrences_spec [] (rows df) i Hi)
      as [[r' [[] _]]|[j [r' [H1 [H2 [H3 H4]]]]]].
    exists r'. split; [|exact H4].
    rewrite <- (nth_error_nth (rows df) j r H2).
    apply select_nth; [|exact H3].
    apply nth_error_Some. congruence.
Qed.

(** Removing the duplicate rows a second time changes nothing. *)
Theorem remove_duplicate_rows_idempotent (df : DataFrame) :
  wf df -> columns df <> [] ->
  _remove_duplicate_rows (_remove_duplicate_rows df) = _remove_duplicate_rows df.
Proof.
  intros W C. apply (or_introl (B := nrows df = 0)) in C.
  unfold _remove_duplicate_rows.
  pose proof (wf_drop_duplicates W) as W'.
  pose proof (drop_duplicates_distinct W C) as D.
  unfold drop_duplicates at 1. destruct (empty (drop_duplicates df));
    [reflexivity|].
  apply filter_rows_all; [exact W'| |].
  - now rewrite first_occurrences_length, rows_length.
  - apply first_occurrences_distinct; [exact D|].
    apply Forall_forall. intros r _. constructor.
Qed.

Lemma remove_duplicate_rows_spec_witness :
  distinct_rows (_remove_duplicate_rows repeated_df)
  /\ (forall r, In r (rows (_remove_duplicate_rows repeated_df)) ->
        In r (rows repeated_df))
  /\ (forall r, In r (rows repeated_df) ->
        exists r', In r' (rows (_remove_duplicate_rows repeated_df))
                   /\ row_eqb r r' = true).
Proof.
  apply (@remove_duplicate_rows_spec repeated_df).
  - repeat constructor.
  - discriminate.
Defined.

Lemma remove_duplicate_rows_idempotent_witness :
  _remove_duplicate_rows (_remove_duplicate_rows repeated_df)
  = mkDF 2 [int_column "id" [1; 2]%Z; text_column "tag" ["a"; "b"]].
Proof.
  rewrite (@remove_duplicate_rows_idempotent repeated_df).
  - reflexivity.
  - repeat constructor.
  - discriminate.
Defined.

(** ** Missing values *)

Lemma NoDup_name_inj (cs : list Series) (a b : Series) :
  NoDup (map name cs) -> In a cs -> In b cs -> name a = name b -> a = b.
Proof.
  induction cs as [|s cs IH]; intros N Ha Hb E; [contradiction|].
  cbn [map] in N. apply NoDup_cons_iff in N. destruct N as [Ns N].
  destruct Ha as [->|Ha], Hb as [->|Hb]; try reflexivity.
  - exfalso. apply Ns. rewrite E. now apply in_map.
  - exfalso. apply Ns. rewrite <- E. now apply in_map.
  - now apply IH.
Qed.

Lemma rows_dropna_all (df : DataFrame) :
  wf df -> rows (dropna_all df) = filter (existsb notna) (rows df).
Proof.
  intros W. unfold dropna_all.
  rewrite rows_filter_rows by (exact W || now rewrite length_map, rows_length).
  apply select_filter.
Qed.

Lemma notna_spec (v : value) : notna v = true <-> v <> NaN.
Proof. destruct v; cbn; split; congruence. Qed.

Lemma fillna_complete (v : value) (s : Series) :
  v <> NaN -> Forall (fun x => x <> NaN) (values (fillna v s)).
Proof.
  intros N. unfold fillna. cbn [values]. apply Forall_map, Forall_forall.
  intros x _. destruct x; cbn [isnull]; congruence.
Qed.

Lemma null_count_complete (s : Series) :
  null_count s = 0 -> Forall (fun x => x <> NaN) (values s).
Proof.
  unfold null_count. induction (values s) as [|v vs IH]; intros H; [constructor|].
  cbn [filter] in H. destruct v; cbn [isnull] in H; try discriminate;
    (constructor; [discriminate | now apply IH]).
Qed.

Section MissingFacts.

Context {P : Pandas}.

(** A numeric column that misses fewer than half of its cells comes out of
    the loop complete. *)
Lemma resolve_numeric_complete (n : nat) (s : Series) :
  is_numeric_dtype s = true -> 2 * null_count s < n ->
  exists s', resolve_missing n s = Some s'
             /\ Forall (fun x => x <> NaN) (values s').
Proof.
  intros T H. unfold resolve_missing. rewrite T.
  destruct (Nat.eqb_spec (null_count s) n) as [E|_]; [lia|].
  destruct (Nat.ltb_spec 0 (null_count s)) as [L|L].
  - assert (R1 : ratio_gt (null_count s) n 9 10 = false).
    { unfold ratio_gt. apply andb_false_iff. right. apply Nat.ltb_ge. lia. }
    assert (R2 : ratio_lt (null_count s) n 1 2 = true).
    { unfold ratio_lt. apply andb_true_iff. split; apply Nat.ltb_lt; lia. }
    rewrite R1, R2. eexists. split; [reflexivity|].
    apply fillna_complete. discriminate.
  - exists s. split; [reflexivity|]. apply null_count_complete. lia.
Qed.

(** A text column is dropped or kept as it is: it is never filled. *)
Lemma resolve_text_kept (n : nat) (s s' : Series) :
  dtype s = object -> resolve_missing n s = Some s' -> s' = s.
Proof.
  intros D. unfold resolve_missing, is_numeric_dtype, is_string_dtype.
  rewrite D. cbn [np_dtype_eqb andb].
  destruct (_ =? _); [discriminate|].
  destruct (Nat.ltb_spec 0 (null_count s)) as [L|L]; [|congruence].
  destruct (ratio_gt _ _ _ _); [discriminate|].
  assert (F : forallb is_str (values s) = false).
  { unfold null_count in L. induction (values s) as [|v vs IH];
      cbn [filter List.length] in L; [lia|].
    cbn [forallb]. destruct v; cbn [isnull is_str andb] in *;
      try reflexivity. now apply IH. }
  rewrite F. congruence.
Qed.

Lemma in_handle_missing (df : DataFrame) (s' : Series) :
  NoDup (labels df) -> In s' (columns (_handle_missing_values df)) ->
  exists s r mask,
    In s (columns df) /\ resolve_missing (nrows df) s = Some r
    /\ s' = mkSeries (name r) (dtype r) (select mask (values r)).
Proof.
  intros N H. rewrite (handle_missing_columns df N) in H.
  unfold dropna_all, filter_rows in H. cbn [columns] in H.
  apply in_map_iff in H. destruct H as [r [<- H]].
  apply in_flat_map in H. destruct H as [s [Hs H]].
  destruct (resolve_missing (nrows df) s) as [t|] eqn:E; [|contradiction].
  destruct H as [<-|[]]. exists s, t. eexists. split; [exact Hs|].
  split; [exact E | reflexivity].
Qed.

(** [_handle_missing_values] on a well-formed frame with distinct labels.
    No row of the result is entirely missing. A numeric column that misses
    fewer than half of its cells is kept, and no cell of it is missing
    afterwards. *)
Theorem handle_missing_values_spec (df : DataFrame) :
  wf df -> NoDup (labels df) ->
  (forall r, In r (rows (_handle_missing_values df)) ->
     exists v, In v r /\ v <> NaN)
  /\ (forall s, In s (columns df) -> is_numeric_dtype s = true ->
        2 * null_count s < nrows df ->
        exists s', In s' (columns (_handle_missing_values df))
                   /\ name s' = name s /\ dtype s' = dtype s
                   /\ Forall (fun x => x <> NaN) (values s')).
Proof.
  intros W N. split.
  - intros r Hr. rewrite (handle_missing_columns df N) in Hr.
    rewrite (rows_dropna_all (resolved_wf W)) in Hr.
    apply filter_In in Hr. destruct Hr as [_ Hr].
    apply existsb_exists in Hr. destruct Hr as [v [Hv Nv]].
    exists v. split; [exact Hv | now apply notna_spec].
  - intros s Hs T H.
    destruct (@resolve_numeric_complete (nrows df) s T H) as [r [R C]].
    rewrite (handle_missing_columns df N).
    unfold dropna_all, filter_rows. cbn [columns].
    eexists. split.
    + apply in_map_iff. exists r. split; [reflexivity|].
      apply in_flat_map. exists s. split; [exact Hs|]. rewrite R. now left.
    + cbn [name dtype values].
      split; [eapply resolve_missing_name; eassumption|].
      split; [eapply resolve_missing_dtype; eassumption|].
      apply Forall_forall. intros x Hx. apply in_select in Hx.
      rewrite Forall_forall in C. now apply C.
Qed.

(** [_handle_missing_values] never fills a text column: every text column
    of the result is a text column of the frame, with the same name, from
    which rows have been removed. In particular the replacement of missing
    text by the empty string never takes place. *)
Theorem handle_missing_values_text (df : DataFrame) (s' : Series) :
  NoDup (labels df) ->
  In s' (columns (_handle_missing_values df)) -> dtype s' = object ->
  exists s mask, In s (columns df)
                 /\ s' = mkSeries (name s) object (select mask (values s)).
Proof.
  intros N H D. destruct (@in_handle_missing df s' N H) as [s [r [mask [Hs [R E]]]]].
  assert (Dr : dtype r = object) by (subst s'; exact D).
  assert (Ds : dtype s = object)
    by (rewrite <- (resolve_missing_dtype _ _ R); exact Dr).
  rewrite (@resolve_text_kept _ s r Ds R) in E. rewrite Ds in E.
  now exists s, mask.
Qed.

End MissingFacts.

Lemma handle_missing_values_spec_witness :
  (forall r, In r (rows (_handle_missing_values (P := ref_pandas) gap_df)) ->
     exists v, In v r /\ v <> NaN)
  /\ (forall s, In s (columns gap_df) -> is_numeric_dtype s = true ->
        2 * null_count s < nrows gap_df ->
        exists s', In s' (columns (_handle_missing_values (P := ref_pandas) gap_df))
                   /\ name s' = name s /\ dtype s' = dtype s
                   /\ Forall (fun x => x <> NaN) (values s')).
Proof.
  apply (@handle_missing_values_spec ref_pandas gap_df).
  - repeat constructor.
  - repeat constructor; cbn; intuition discriminate.
Defined.

Lemma handle_missing_values_text_witness :
  exists s mask,
    In s (columns gap_df)
    /\ mkSeries "t" object [VStr "u"; NaN; VStr "w"]
       = mkSeries (name s) object (select mask (values s)).
Proof.
  apply (@handle_missing_values_text ref_pandas gap_df
           (mkSeries "t" object [VStr "u"; NaN; VStr "w"])).
  - repeat constructor; cbn; intuition discriminate.
  - vm_compute. right. left. reflexivity.
  - reflexivity.
Defined.

(** ** The shape of a cleaned table *)

Section CleanShape.

Context {P : Pandas}.

Lemma count_true_none (mask : list bool) :
  forallb negb mask = true -> count_true mask = 0.
Proof.
  unfold count_true. induction mask as [|b mask IH]; [reflexivity|].
  cbn [forallb]. intros H. apply andb_true_iff in H. destruct H as [H1 H2].
  destruct b; [discriminate|]. cbn [filter]. now apply IH.
Qed.

(** Without a column every row is entirely missing, and is dropped. *)
Lemma dropna_all_no_columns (df : DataFrame) :
  columns df = [] -> nrows (dropna_all df) = 0.
Proof.
  intros E. unfold dropna_all, filter_rows. cbn [nrows].
  apply count_true_none. rewrite forallb_forall. intros b Hb.
  apply in_map_iff in Hb. destruct Hb as [r [<- Hr]].
  unfold rows in Hr. apply in_map_iff in Hr. destruct Hr as [i [<- _]].
  unfold row. now rewrite E.
Qed.

Lemma drop_duplicates_no_rows (df : DataFrame) :
  nrows df = 0 -> nrows (drop_duplicates df) = 0.
Proof.
  intros E. unfold drop_duplicates, empty.
  destruct (Nat.eqb_spec (nrows df) 0) as [_|Z]; [exact E | contradiction].
Qed.

Lemma has_value_no_rows (df : DataFrame) :
  wf df -> Forall has_value (columns df) -> nrows df = 0 -> columns df = [].
Proof.
  unfold wf. intros W V Z. destruct (columns df) as [|s cs]; [reflexivity|].
  exfalso. apply Forall_inv in W, V. destruct V as [v [Hv _]].
  rewrite Z in W. destruct (values s); [contradiction | discriminate].
Qed.

(** Whenever [clean] returns on a well-formed table, the returned table
    has no row exactly when it has no column: a cleaned table with a
    column is never empty. *)
Theorem clean_rows_iff_columns (raw d : DataFrame) :
  wf raw -> clean_dataframe raw = Ok d ->
  (nrows d = 0 <-> columns d = []).
Proof.
  intros W H. rewrite clean_dataframe_split in H.
  apply bind_Ok in H. destruct H as [d5 [H5 H]]. injection H as <-.
  destruct (before_standardization_inv _ H5) as [named [typed [H1 [H3 ->]]]].
  assert (Wn : wf named) by (eapply after_names_wf; eassumption).
  assert (Wt : wf typed) by (eapply detect_types_wf; eassumption).
  assert (Nn : NoDup (labels named)) by (eapply detect_types_NoDup; eassumption).
  assert (Nt : NoDup (labels typed))
    by (rewrite (labels_detect_types _ H3); exact Nn).
  destruct (deduplicated_has_value Wt Nt) as [W5 V5].
  unfold _standardize_text_columns. cbn [nrows columns].
  split.
  - intros Z. now rewrite (has_value_no_rows W5 V5 Z).
  - intros Z. apply map_eq_nil in Z.
    unfold _remove_duplicate_rows in *. apply drop_duplicates_no_rows.
    rewrite (handle_missing_columns typed Nt) in *.
    apply dropna_all_no_columns.
    match type of Z with
    | columns (drop_duplicates ?d) = [] =>
        pose proof (labels_drop_duplicates d) as Lz
    end.
    unfold labels at 1 in Lz. rewrite Z in Lz. symmetry in Lz.
    unfold dropna_all in Lz. rewrite labels_filter_rows in Lz.
    now apply map_eq_nil in Lz.
Qed.

End CleanShape.

Lemma clean_rows_iff_columns_witness :
  nrows (mkDF 3 [mkSeries "price" float64 [VFloat 5; VFloat 1007; VFloat 506]]) = 0
  <-> columns (mkDF 3 [mkSeries "price" float64 [VFloat 5; VFloat 1007; VFloat 506]])
      = [].
Proof.
  apply (@clean_rows_iff_columns ref_pandas mostly_numeric_df).
  - repeat constructor.
  - vm_compute. reflexivity.
Defined.

(** ** Columns by label *)

Lemma getitem_Some (df : DataFrame) (c : string) (s : Series) :
  getitem df c = Some s -> In s (columns df) /\ name s = c.
Proof.
  unfold getitem. intros H. apply find_some in H.
  destruct H as [H E]. split; [exact H | now apply String.eqb_eq].
Qed.

Lemma getitem_In (df : DataFrame) (s : Series) :
  NoDup (labels df) -> In s (columns df) -> getitem df (name s) = Some s.
Proof.
  intros N Hs.
  assert (L : has_label df (name s) = true).
  { apply mem_In. unfold labels. now apply in_map. }
  destruct (getitem_has_label df (name s) L) as [t G]. rewrite G. f_equal.
  destruct (getitem_Some df (name s) G) as [Ht E].
  exact (NoDup_name_inj (columns df) t s N Ht Hs E).
Qed.

Lemma to_records_length (df : DataFrame) :
  columns df <> [] -> List.length (to_records df) = nrows df.
Proof.
  intros C. rewrite (@to_records_rows df C). now rewrite length_map, length_seq.
Qed.

(** The records of [df[cols]] hold, for each row, the cells of the
    requested columns in the order of the request. *)
Lemma to_records_project (df : DataFrame) (cols : list string) :
  cols <> [] -> forallb (has_label df) cols = true ->
  to_records (project df cols)
  = map (fun i => map (fun c => (c, cell df i c)) cols) (seq 0 (nrows df)).
Proof.
  intros N H. rewrite to_records_rows.
  2:{ destruct cols as [|c cols]; [congruence|].
      cbn [forallb] in H. apply andb_true_iff in H. destruct H as [Hc _].
      destruct (getitem_has_label df c Hc) as [s G].
      unfold project. cbn [columns flat_map]. rewrite G. discriminate. }
  clear N. unfold record_at, project. cbn [nrows columns].
  apply map_ext. intros i.
  induction cols as [|c cols IH]; [reflexivity|].
  cbn [forallb] in H. apply andb_true_iff in H. destruct H as [Hc H].
  cbn [flat_map map]. unfold cell at 1.
  destruct (getitem_has_label df c Hc) as [s G]. rewrite G.
  destruct (getitem_Some df c G) as [_ E].
  cbn [app map]. rewrite E. f_equal. now apply IH.
Qed.

Lemma forallb_filter (A : Type) (p : A -> bool) (l : list A) :
  forallb p (filter p l) = true.
Proof.
  apply forallb_forall. intros x Hx. now apply filter_In in Hx.
Qed.

Lemma forallb_firstn (A : Type) (p : A -> bool) (n : nat) (l : list A) :
  forallb p l = true -> forallb p (firstn n l) = true.
Proof.
  rewrite !forallb_forall. intros H x Hx. apply H.
  rewrite <- (firstn_skipn n l). apply in_or_app. now left.
Qed.

(** ** The summary handler *)

Section SummaryFacts.

Context {P : Pandas}.

(** The summary handler on a frame with distinct labels, for a request
    that names no column twice: it shows the requested labels that are
    columns of the frame (all the labels when none is requested), the first
    five of them at most, and returns the first ten rows restricted to
    these columns, in the order of the request; when it has no column to
    show, the table it returns is empty. The per-column statistics it
    computes are not part of the response. *)
Theorem summarize_data_spec (df : DataFrame) (cols : list string) :
  NoDup (labels df) -> NoDup cols ->
  let asked := match cols with [] => labels df | _ => cols end in
  let shown := firstn 5 (filter (has_label df) asked) in
  _summarize_data df cols
  = Ok (mkResponse "ai" ("Summary of " ++ Py.join ", " shown ++ ":")%string
          (Some (match shown with
                 | [] => []
                 | _ :: _ =>
                     map (fun i => map (fun c => (c, cell df i c)) shown)
                         (seq 0 (Nat.min 10 (nrows df)))
                 end))
          None).
Proof.
  intros _ _. cbv zeta. unfold _summarize_data.
  set (shown := firstn 5 (filter (has_label df) _)).
  rewrite to_records_head.
  destruct shown as [|c shown'] eqn:E.
  - rewrite to_records_no_columns by reflexivity. now rewrite firstn_nil.
  - rewrite <- E. rewrite to_records_project.
    + now rewrite firstn_map, firstn_seq_min.
    + rewrite E. discriminate.
    + subst shown. apply forallb_firstn, forallb_filter.
Qed.

End SummaryFacts.

Lemma summarize_data_spec_witness :
  _summarize_data (P := ref_pandas) sales_df ["sales"; "profit"]
  = Ok (mkResponse "ai" "Summary of sales:"
          (Some [[("sales", VInt 10)]; [("sales", VInt 20)]]) None)
  /\ _summarize_data (P := ref_pandas) sales_df ["profit"]
     = Ok (mkResponse "ai" "Summary of :" (Some []) None).
Proof.
  split.
  - apply (@summarize_data_spec ref_pandas sales_df ["sales"; "profit"]);
      repeat constructor; cbn; intuition discriminate.
  - apply (@summarize_data_spec ref_pandas sales_df ["profit"]);
      repeat constructor; cbn; intuition discriminate.
Defined.

(** ** The aggregation handler *)

Section AggregationFacts.

Context {P : Pandas}.

(** With distinct labels, a label is one of the numeric columns exactly
    when the column it names is numeric. *)
Lemma mem_numeric_labels (df : DataFrame) (c : string) :
  NoDup (labels df) ->
  Py.mem c (map name (filter is_np_number (columns df))) = is_np_label df c.
Proof.
  intros N. unfold is_np_label.
  destruct (getitem df c) as [s|] eqn:G.
  - destruct (getitem_Some df c G) as [Hs E].
    destruct (is_np_number s) eqn:T.
    + apply mem_In, in_map_iff. exists s. split; [exact E|].
      apply filter_In. now split.
    + apply mem_not_In. intros H. apply in_map_iff in H.
      destruct H as [t [Et Ht]]. apply filter_In in Ht. destruct Ht as [Ht Tt].
      assert (X : t = s) by (apply (NoDup_name_inj (columns df) t s N Ht Hs);
                             congruence).
      congruence.
  - apply mem_not_In. intros H. apply in_map_iff in H.
    destruct H as [t [Et Ht]]. apply filter_In in Ht. destruct Ht as [Ht _].
    unfold getitem in G. apply (find_none _ _ G) in Ht.
    rewrite Et, String.eqb_refl in Ht. discriminate.
Qed.

Lemma numeric_labels_filter (df : DataFrame) :
  NoDup (labels df) ->
  map name (filter is_np_number (columns df))
  = filter (is_np_label df) (labels df).
Proof.
  intros N. unfold labels.
  assert (H : forall s, In s (columns df) -> is_np_label df (name s) = is_np_number s).
  { intros s Hs. unfold is_np_label. now rewrite (getitem_In df s N Hs). }
  induction (columns df) as [|s cs IH]; [reflexivity|].
  cbn [filter map]. rewrite (H s (or_introl eq_refl)).
  destruct (is_np_number s); cbn [map]; rewrite IH; try reflexivity;
    intros t Ht; apply H; now right.
Qed.

Lemma aggregated_rows (df : DataFrame) (op : string) (chosen : list string) :
  forallb (is_np_label df) chosen = true ->
  Forall2 (aggregated df op) chosen
    (flat_map (fun c => match getitem df c with
                        | Some s => [[("Column", VStr c);
                                      ("Value", float_or_none (series_agg op s))]]
                        | None => []
                        end) chosen).
Proof.
  induction chosen as [|c chosen IH]; intros H; [constructor|].
  cbn [forallb] in H. apply andb_true_iff in H. destruct H as [Hc H].
  cbn [flat_map]. unfold is_np_label in Hc.
  destruct (getitem df c) as [s|] eqn:G; [|discriminate].
  destruct (getitem_Some df c G) as [Hs E].
  cbn [app]. constructor; [|now apply IH].
  exists s. repeat split; assumption.
Qed.

(** The aggregation handler for one of the five named reductions, on a
    frame with distinct labels. The columns it reduces are the requested
    labels that name a numeric column, in the order of the request, or all
    the numeric columns when the request is empty or is the star. When
    there is none it answers with the guidance message; otherwise it
    returns one record per such column, in that order, holding the label
    and the reduction of the column. *)
Theorem perform_aggregation_spec (df : DataFrame) (cols : list string)
  (op : string) :
  NoDup (labels df) -> In op ["sum"; "mean"; "count"; "max"; "min"] ->
  let chosen := filter (is_np_label df)
                       (if requests_all cols then labels df else cols) in
  (chosen = [] ->
   _perform_aggregation df cols op
   = Ok (say "No numeric columns found for aggregation. Please specify numeric columns."))
  /\ (chosen <> [] ->
      exists table,
        _perform_aggregation df cols op
        = Ok (mkResponse "ai"
                ("Here are the " ++ op ++ " values for the requested columns:")%string
                (Some table) None)
        /\ Forall2 (aggregated df op) chosen table).
Proof.
  intros N Hop. cbv zeta.
  assert (E : _perform_aggregation df cols op
              = match filter (is_np_label df)
                        (if requests_all cols then labels df else cols) with
                | [] => Ok (say "No numeric columns found for aggregation. Please specify numeric columns.")
                | chosen =>
                    Ok (mkResponse "ai"
                          ("Here are the " ++ op
                             ++ " values for the requested columns:")%string
                          (Some (flat_map
                                   (fun c => match getitem df c with
                                             | Some s =>
                                                 [[("Column", VStr c);
                                                   ("Value", float_or_none (series_agg op s))]]
                                             | None => []
                                             end) chosen)) None)
                end).
  { unfold _perform_aggregation.
    assert (M : Py.mem op ["sum"; "mean"; "count"; "max"; "min"] = true)
      by now apply mem_In.
    rewrite M.
    assert (X : match cols with
                | [] => map name (filter is_np_number (columns df))
                | ["*"] => map name (filter is_np_number (columns df))
                | _ => filter (fun c => Py.mem c (map name (filter is_np_number
                                                              (columns df)))) cols
                end
                = filter (is_np_label df)
                         (if requests_all cols then labels df else cols)).
    { assert (F : filter (fun c => Py.mem c (map name (filter is_np_number
                                                         (columns df)))) cols
                  = filter (is_np_label df) cols).
      { apply filter_ext. intros c. now apply mem_numeric_labels. }
      rewrite F, (numeric_labels_filter df N). unfold requests_all.
      clear F. destruct cols as [|c [|c' cols]]; try reflexivity;
        destruct c as [|[[] [] [] [] [] [] [] []] [|a c]]; reflexivity. }
    rewrite X. clear X.
    now destruct (filter (is_np_label df) _). }
  rewrite E. split.
  - intros ->. reflexivity.
  - intros Hne.
    destruct (filter (is_np_label df) _) as [|c chosen] eqn:F; [congruence|].
    eexists. split; [reflexivity|].
    apply aggregated_rows. rewrite <- F. apply forallb_filter.
Qed.

End AggregationFacts.

Lemma perform_aggregation_spec_witness :
  exists table,
    _perform_aggregation (P := ref_pandas) sales_df ["sales"; "region"] "sum"
    = Ok (mkResponse "ai" "Here are the sum values for the requested columns:"
            (Some table) None)
    /\ Forall2 (aggregated (P := ref_pandas) sales_df "sum") ["sales"] table.
Proof.
  assert (N : NoDup (labels sales_df))
    by (repeat constructor; cbn; intuition discriminate).
  assert (I : In "sum" ["sum"; "mean"; "count"; "max"; "min"]) by now left.
  destruct (@perform_aggregation_spec ref_pandas sales_df ["sales"; "region"]
              "sum" N I) as [_ H].
  apply H. intros E. vm_compute in E. discriminate E.
Defined.

(** ** The visualization handler *)

Section VisualizationFacts.

Context {P : Pandas}.

(** A frame without columns leaves the handler nothing to plot: the
    unpacking of the first two columns fails. *)
Lemma visualization_no_columns (df : DataFrame) (cols : list string)
  (hint : option string) (op : string) :
  columns df = [] ->
  _create_visualization df cols hint op
  = Raise "ValueError: not enough values to unpack (expected 2, got 0)".
Proof.
  intros E. unfold _create_visualization.
  assert (L : labels df = []) by (unfold labels; now rewrite E).
  assert (F : forall l, filter (has_label df) l = []).
  { induction l as [|c l IH]; [reflexivity|]. cbn [filter].
    unfold has_label at 1. rewrite L. exact IH. }
  rewrite L, F. cbn [firstn]. now destruct cols.
Qed.

Lemma plot_points (a b : list record) (x1 y1 x y : string) :
  Ok (a, x1, y1) = Ok (b, x, y) -> b = a.
Proof. congruence. Qed.

(** Whenever the visualization handler returns on a frame with distinct
    labels, the response carries a chart and no table; the chart has at
    most 200 data points, and its title and the text of the response name
    the two axes and the number of points. A non-empty chart type given
    with the request is the type of the chart, whatever it is. Without one,
    the type is pie exactly when there are at most 5 points, and line or
    bar otherwise. *)
Theorem create_visualization_spec (df : DataFrame) (cols : list string)
  (hint : option string) (op : string) (r : QueryResponse) :
  NoDup (labels df) ->
  _create_visualization df cols hint op = Ok r ->
  exists c,
    chart r = Some c /\ data r = None
    /\ List.length (chart_data c) <= 200
    /\ title c = Some (y_axis c ++ " by " ++ x_axis c)%string
    /\ text r = ("Here's a " ++ chart_kind c ++ " chart showing " ++ y_axis c
                   ++ " by " ++ x_axis c ++ ". Showing up to "
                   ++ Py.str_of_nat (List.length (chart_data c)) ++ " items.")%string
    /\ (forall h, hint = Some h -> h <> "" -> chart_kind c = h)
    /\ (truthy hint = false ->
        In (chart_kind c) supported_charts
        /\ (chart_kind c = "pie" <-> List.length (chart_data c) <= 5)).
Proof.
  unfold _create_visualization. intros _ H.
  apply bind_Ok in H. destruct H as [[[cd x] y] [Hp H]].
  injection H as <-. eexists. split; [reflexivity|].
  cbn [chart data title chart_data chart_kind x_axis y_axis text].
  split; [reflexivity|]. split; [|split; [reflexivity|split; [reflexivity|split]]].
  - revert Hp.
    match goal with
    | |- match ?l with _ => _ end = _ -> _ => destruct l as [|x0 [|y0 rest]]
    end; [discriminate| |].
    + destruct (getitem df x0) as [s|]; [|discriminate].
      destruct (is_numeric_dtype s).
      * intros Hp. apply bind_Ok in Hp. destruct Hp as [counts [_ Hp]].
        apply plot_points in Hp. subst cd. rewrite length_firstn. lia.
      * intros Hp. apply plot_points in Hp. subst cd. rewrite length_firstn. lia.
    + destruct (is_numeric_label df y0).
      * destruct (negb (is_numeric_label df x0)).
        -- intros Hp. apply bind_Ok in Hp. destruct Hp as [recs [_ Hp]].
           apply plot_points in Hp. subst cd. rewrite length_firstn. lia.
        -- intros Hp. apply plot_points in Hp. subst cd.
           rewrite to_records_head, length_firstn. lia.
      * intros Hp. apply bind_Ok in Hp. destruct Hp as [recs [_ Hp]].
        apply plot_points in Hp. subst cd. rewrite length_firstn. lia.
  - intros h -> Hne. cbn [truthy get_default]. unfold Py.nonempty.
    destruct (String.eqb_spec h ""); [contradiction | reflexivity].
  - intros T. rewrite T. unfold supported_charts.
    destruct (Nat.leb_spec (List.length cd) 5) as [L|L].
    + split; [right; right; now left|]. split; [intros _; exact L | reflexivity].
    + match goal with
      | |- context [if ?b then "line" else "bar"] => destruct b
      end.
      * split; [right; now left|]. split; [discriminate | lia].
      * split; [now left|]. split; [discriminate | lia].
Qed.

End VisualizationFacts.

Lemma create_visualization_spec_witness :
  exists c,
    chart (mkResponse "ai"
             "Here's a pie chart showing count by region. Showing up to 2 items."
             None
             (Some (mkChart "pie"
                      [[("region", VStr "east"); ("count", VInt 1)];
                       [("region", VStr "west"); ("count", VInt 1)]]
                      "region" "count" (Some "count by region")))) = Some c
    /\ List.length (chart_data c) <= 200
    /\ (chart_kind c = "pie" <-> List.length (chart_data c) <= 5).
Proof.
  assert (N : NoDup (labels sales_df))
    by (repeat constructor; cbn; intuition discriminate).
  destruct (@create_visualization_spec ref_pandas sales_df ["region"] None
              "count" _ N eq_refl) as [c [H1 [_ [H2 [_ [_ [_ H3]]]]]]].
  exists c. split; [exact H1|]. split; [exact H2|]. now apply H3.
Defined.

(** ** The fallback classifier in front of the router *)

Lemma detect_chart_type_supported (q h : string) :
  detect_chart_type q = Some h -> In h supported_charts /\ occurs_in h q.
Proof.
  unfold detect_chart_type, supported_charts.
  destruct (Py.contains "bar" q) eqn:B;
    [intros E; injection E as <-; split; [now left | now apply contains_spec]|].
  destruct (Py.contains "line" q) eqn:L;
    [intros E; injection E as <-;
     split; [right; now left | now apply contains_spec]|].
  destruct (Py.contains "pie" q) eqn:I; [|discriminate].
  intros E; injection E as <-.
  split; [right; right; now left | now apply contains_spec].
Qed.

Lemma detect_chart_type_some (q w : string) :
  In w supported_charts -> occurs_in w q ->
  exists h, detect_chart_type q = Some h.
Proof.
  unfold supported_charts, detect_chart_type. intros Hw O.
  apply contains_spec in O.
  destruct (Py.contains "bar" q) eqn:B; [now eexists|].
  destruct (Py.contains "line" q) eqn:L; [now eexists|].
  destruct (Py.contains "pie" q) eqn:I; [now eexists|].
  destruct Hw as [<-|[<-|[<-|[]]]]; congruence.
Qed.

Lemma detect_chart_type_first (q h : string) :
  detect_chart_type q = Some h -> first_chart_word q h.
Proof.
  unfold detect_chart_type, first_chart_word.
  destruct (Py.contains "bar" q) eqn:B.
  { intros E; injection E as <-. left. split; [now apply contains_spec | reflexivity]. }
  apply contains_false in B.
  destruct (Py.contains "line" q) eqn:L.
  { intros E; injection E as <-. right; left.
    split; [exact B|]. split; [now apply contains_spec | reflexivity]. }
  apply contains_false in L.
  destruct (Py.contains "pie" q) eqn:I; [|discriminate].
  intros E; injection E as <-. right; right.
  split; [exact B|]. split; [exact L|].
  split; [now apply contains_spec | reflexivity].
Qed.

Section FallbackRouting.

Context {P : Pandas}.

Lemma visualization_chart (df : DataFrame) (cols : list string)
  (hint : option string) (op : string) (r : QueryResponse) (c : ChartSpec) :
  _create_visualization df cols hint op = Ok r -> chart r = Some c ->
  (truthy hint = true /\ chart_kind c = get_default hint "")
  \/ (truthy hint = false /\ In (chart_kind c) supported_charts).
Proof.
  unfold _create_visualization. intros H.
  apply bind_Ok in H. destruct H as [[[cd x] y] [_ H]].
  injection H as <-. cbn [chart]. intros E. injection E as <-.
  cbn [chart_kind]. destruct (truthy hint); [left; now split|].
  right. split; [reflexivity|]. unfold supported_charts.
  destruct (_ <=? 5); [right; right; now left|].
  match goal with
  | |- context [if ?b then "line" else "bar"] => destruct b
  end; [right; now left | now left].
Qed.

(** The chart of a response of the router has the type given with the
    intent, or else one of bar, line and pie. *)
Lemma dispatch_chart (df : DataFrame) (i : Intent) (r : QueryResponse)
  (c : ChartSpec) :
  dispatch df i = Ok r -> chart r = Some c ->
  chart_type i = Some (chart_kind c) \/ In (chart_kind c) supported_charts.
Proof.
  unfold dispatch. intros H C.
  destruct (_ || _).
  { destruct (visualization_chart _ _ _ _ H C) as [[T E]|[_ E]]; [left | now right].
    destruct (chart_type i) as [h|]; [|discriminate]. now rewrite E. }
  destruct (String.eqb _ "aggregate").
  { unfold _perform_aggregation in H.
    match type of H with
    | match ?l with _ => _ end = _ => destruct l
    end.
    - injection H as <-. discriminate.
    - apply bind_Ok in H. destruct H as [d [_ H]]. injection H as <-.
      discriminate. }
  destruct (String.eqb _ "filter").
  { unfold _filter_data in H. destruct (empty _); injection H as <-; discriminate. }
  destruct (String.eqb _ "compare").
  { unfold _compare_columns in H. destruct (_ <? 2).
    - injection H as <-. discriminate.
    - apply bind_Ok in H. destruct H as [ch [Hc H]]. injection H as <-.
      cbn [chart] in C. subst ch. right.
      match type of Hc with
      | match ?scrutinee with _ => _ end = _ =>
          destruct scrutinee as [|x [|y rest]]
      end; try discriminate.
      apply bind_Ok in Hc. destruct Hc as [sd [_ Hc]].
      assert (E : chart_kind c = "line") by (injection Hc as <-; reflexivity).
      rewrite E. right. now left. }
  destruct (String.eqb _ "correlation").
  { unfold _find_correlations in H.
    destruct (empty _); [injection H as <-; discriminate|].
    destruct (strong_correlations df); injection H as <-; discriminate. }
  unfold _summarize_data in H. injection H as <-. discriminate.
Qed.

(** When the intent comes from the fallback classifier, every chart that
    the router returns, on a frame with distinct labels, has one of the
    types bar, line and pie. *)
Theorem fallback_charts_supported (df : DataFrame) (query : string)
  (ctx : DataContext) (c : ChartSpec) :
  NoDup (labels df) ->
  chart (_execute_intent df (_fallback_analysis query ctx) query) = Some c ->
  In (chart_kind c) supported_charts.
Proof.
  intros _. unfold _execute_intent, catch.
  destruct (dispatch df (_fallback_analysis query ctx)) as [r|e] eqn:D;
    [|discriminate].
  intros C. destruct (dispatch_chart _ _ D C) as [H|H]; [|exact H].
  unfold _fallback_analysis in H. cbn [chart_type] in H.
  now apply detect_chart_type_supported in H.
Qed.

(** A query that contains bar, line or pie anywhere, inside a longer word
    too, is sent to the visualization handler by the fallback classifier
    and the router, whatever intent its other words express; the chart type
    asked for is the first of bar, line, pie, tried in this order, that the
    query contains: bar whenever bar occurs, line when line occurs and bar
    does not, pie when pie alone occurs. *)
Theorem fallback_chart_word_routes (df : DataFrame) (query : string)
  (ctx : DataContext) (w : string) :
  In w supported_charts -> occurs_in w (Py.lower query) ->
  exists h,
    first_chart_word (Py.lower query) h
    /\ chart_type (_fallback_analysis query ctx) = Some h
    /\ dispatch df (_fallback_analysis query ctx)
       = _create_visualization df
           (get_default (intent_columns (_fallback_analysis query ctx)) [])
           (Some h) (_detect_operation (Py.lower query)).
Proof.
  intros Hw O. destruct (@detect_chart_type_some (Py.lower query) w Hw O) as [h E].
  destruct (@detect_chart_type_supported (Py.lower query) h E) as [Hh Oh].
  exists h. split; [now apply detect_chart_type_first|].
  split; [unfold _fallback_analysis; cbn [chart_type]; exact E|].
  unfold dispatch, _fallback_analysis.
  cbn [intent intent_columns operation filters chart_type get_default].
  rewrite E.
  assert (T : truthy (Some h) = true).
  { unfold supported_charts in Hh. destruct Hh as [<-|[<-|[<-|[]]]]; reflexivity. }
  rewrite T, orb_true_r. reflexivity.
Qed.

End FallbackRouting.

Lemma fallback_charts_supported_witness :
  chart (_execute_intent (P := ref_pandas) sales_df
           (_fallback_analysis "plot the region" sales_context)
           "plot the region")
  = Some (mkChart "pie"
            [[("region", VStr "east"); ("count", VInt 1)];
             [("region", VStr "west"); ("count", VInt 1)]]
            "region" "count" (Some "count by region"))
  /\ In "pie" supported_charts.
Proof.
  split; [reflexivity|].
  apply (@fallback_charts_supported ref_pandas sales_df "plot the region"
           sales_context
           (mkChart "pie"
              [[("region", VStr "east"); ("count", VInt 1)];
               [("region", VStr "west"); ("count", VInt 1)]]
              "region" "count" (Some "count by region"))).
  - repeat constructor; cbn; intuition discriminate.
  - reflexivity.
Defined.

Lemma fallback_chart_word_routes_witness :
  exists h,
    first_chart_word (Py.lower "Pie or LINE for the barcode 5") h
    /\ chart_type (_fallback_analysis "Pie or LINE for the barcode 5" sales_context)
       = Some h
    /\ dispatch (P := ref_pandas) sales_df
         (_fallback_analysis "Pie or LINE for the barcode 5" sales_context)
       = _create_visualization (P := ref_pandas) sales_df
           (get_default
              (intent_columns
                 (_fallback_analysis "Pie or LINE for the barcode 5" sales_context))
              [])
           (Some h) (_detect_operation (Py.lower "Pie or LINE for the barcode 5")).
Proof.
  apply (@fallback_chart_word_routes ref_pandas sales_df
           "Pie or LINE for the barcode 5" sales_context "pie").
  - right; right; now left.
  - now exists "", " or line for the barcode 5".
Defined.

(** ** JSON serialisation *)

Lemma pyobj_induction (Q : pyobj -> Prop) :
  (forall items, Forall (fun kv => Q (snd kv)) items -> Q (PyDict items)) ->
  (forall elements, Forall Q elements -> Q (PyList elements)) ->
  (forall elements, Forall Q elements -> Q (PyTuple elements)) ->
  (forall t, Q (PyTimestamp t)) ->
  (forall x, Q (PyNumpy x)) ->
  (forall x, Q (PyScalar x)) ->
  forall d, Q d.
Proof.
  intros HD HL HT Ht Hn Hs. fix IH 1. intros [items|l|l|t|x|x].
  - apply HD. revert items. fix IHl 1. intros [|[k v] items]; constructor.
    + apply IH.
    + apply IHl.
  - apply HL. revert l. fix IHl 1. intros [|v l]; constructor.
    + apply IH.
    + apply IHl.
  - apply HT. revert l. fix IHl 1. intros [|v l]; constructor.
    + apply IH.
    + apply IHl.
  - apply Ht.
  - apply Hn.
  - apply Hs.
Qed.

Lemma forallb_map (A B : Type) (f : A -> B) (p : B -> bool) (l : list A) :
  forallb p (map f l) = forallb (fun a => p (f a)) l.
Proof.
  induction l as [|a l IH]; [reflexivity|]. cbn [map forallb]. now rewrite IH.
Qed.

Lemma forallb_ext_in (A : Type) (p q : A -> bool) (l : list A) :
  (forall a, In a l -> p a = q a) -> forallb p l = forallb q l.
Proof.
  intros H. induction l as [|a l IH]; [reflexivity|].
  cbn [forallb]. rewrite (H a (or_introl eq_refl)), IH; [reflexivity|].
  intros b Hb. apply H. now right.
Qed.

Section SerializationFacts.

Variable isoformat : Z -> string.

Lemma json_safe_serialize (d : pyobj) :
  tuples_safe d = true ->
  json_safe (make_dict_json_serializable isoformat d) = numpy_finite d.
Proof.
  induction d as [items IH|l IH|l IH|t|x|x] using pyobj_induction; intros T.
  - cbn [make_dict_json_serializable json_safe numpy_finite tuples_safe] in *.
    rewrite forallb_map. rewrite forallb_forall in T.
    rewrite Forall_forall in IH. apply forallb_ext_in.
    intros [k v] Hkv. apply (IH (k, v) Hkv). apply (T (k, v) Hkv).
  - cbn [make_dict_json_serializable json_safe numpy_finite tuples_safe] in *.
    rewrite forallb_map. rewrite forallb_forall in T.
    rewrite Forall_forall in IH. apply forallb_ext_in.
    intros v Hv. apply (IH v Hv). apply (T v Hv).
  - exact T.
  - reflexivity.
  - now destruct x as [|b|z|f|s].
  - destruct x as [|b|z|f|s]; try reflexivity. now destruct f.
Qed.

Lemma serialize_numpy_finite (d : pyobj) :
  numpy_finite (make_dict_json_serializable isoformat d) = true.
Proof.
  induction d as [items IH|l IH|l IH|t|x|x] using pyobj_induction.
  - cbn [make_dict_json_serializable numpy_finite].
    rewrite forallb_map, forallb_forall. rewrite Forall_forall in IH.
    intros [k v] Hkv. apply (IH (k, v) Hkv).
  - cbn [make_dict_json_serializable numpy_finite].
    rewrite forallb_map, forallb_forall. rewrite Forall_forall in IH.
    intros v Hv. apply (IH v Hv).
  - reflexivity.
  - reflexivity.
  - reflexivity.
  - destruct x as [|b|z|f|s]; try reflexivity. now destruct f.
Qed.

Lemma serialize_tuples_safe (d : pyobj) :
  tuples_safe d = true ->
  tuples_safe (make_dict_json_serializable isoformat d) = true.
Proof.
  induction d as [items IH|l IH|l IH|t|x|x] using pyobj_induction; intros T.
  - cbn [make_dict_json_serializable tuples_safe] in *.
    rewrite forallb_map, forallb_forall. rewrite forallb_forall in T.
    rewrite Forall_forall in IH.
    intros [k v] Hkv. apply (IH (k, v) Hkv). apply (T (k, v) Hkv).
  - cbn [make_dict_json_serializable tuples_safe] in *.
    rewrite forallb_map, forallb_forall. rewrite forallb_forall in T.
    rewrite Forall_forall in IH.
    intros v Hv. apply (IH v Hv). apply (T v Hv).
  - exact T.
  - reflexivity.
  - reflexivity.
  - destruct x as [|b|z|f|s]; try reflexivity. now destruct f.
Qed.

(** [make_dict_json_serializable] on an object whose tuples can be written
    to JSON as they are. One pass leaves a JSON document exactly when no
    numpy float of the object is NaN or infinite: the numpy scalars are
    unwrapped before the test for finiteness, which only reaches the Python
    floats, so that a numpy NaN comes out as a Python NaN. A second pass
    always leaves a JSON document, and a third changes nothing any more. *)
Theorem make_dict_json_serializable_spec (d : pyobj) :
  tuples_safe d = true ->
  (json_safe (make_dict_json_serializable isoformat d) = true
   <-> numpy_finite d = true)
  /\ json_safe (make_dict_json_serializable isoformat
                  (make_dict_json_serializable isoformat d)) = true
  /\ make_dict_json_serializable isoformat
       (make_dict_json_serializable isoformat
          (make_dict_json_serializable isoformat d))
     = make_dict_json_serializable isoformat
         (make_dict_json_serializable isoformat d).
Proof.
  intros T. split; [|split].
  - now rewrite (json_safe_serialize d T).
  - rewrite json_safe_serialize by now apply serialize_tuples_safe.
    apply serialize_numpy_finite.
  - clear T. induction d as [items IH|l IH|l IH|t|x|x] using pyobj_induction.
    + cbn [make_dict_json_serializable]. f_equal. rewrite !map_map.
      rewrite Forall_forall in IH. apply map_ext_in. intros [k v] Hkv.
      f_equal. apply (IH (k, v) Hkv).
    + cbn [make_dict_json_serializable]. f_equal. rewrite !map_map.
      rewrite Forall_forall in IH. apply map_ext_in. intros v Hv.
      apply (IH v Hv).
    + reflexivity.
    + reflexivity.
    + destruct x as [|b|z|f|s]; try reflexivity. now destruct f.
    + destruct x as [|b|z|f|s]; try reflexivity. now destruct f.
Qed.

End SerializationFacts.

(** A dictionary that holds a tuple, a numpy NaN and a Python NaN: the
    first pass turns the Python NaN into [None] and the numpy NaN into a
    Python NaN, the second pass leaves a JSON document. *)
Lemma make_dict_json_serializable_spec_witness :
  make_dict_json_serializable (fun _ => "") mixed_nan_dict
  = PyDict [("shape", PyTuple [PyScalar (SInt 1); PyScalar (SInt 1)]);
            ("a", PyScalar (SFloat NotANumber));
            ("b", PyScalar SNone)]
  /\ json_safe (make_dict_json_serializable (fun _ => "")
                  (make_dict_json_serializable (fun _ => "") mixed_nan_dict))
     = true.
Proof.
  split; [reflexivity|].
  apply (@make_dict_json_serializable_spec (fun _ => "") mixed_nan_dict).
  reflexivity.
Defined.

(** ** Column information *)

Lemma series_of_In (df : DataFrame) (s : Series) :
  NoDup (labels df) -> In s (columns df) -> series_of df (name s) = Some s.
Proof.
  intros N Hs. unfold series_of.
  assert (L : List.length (filter (fun t => String.eqb (name t) (name s))
                                  (columns df)) = 1).
  { apply (proj1 (NoDup_labels_iff (columns df)) N). now apply in_map. }
  assert (I : In s (filter (fun t => String.eqb (name t) (name s)) (columns df))).
  { apply filter_In. split; [exact Hs | apply String.eqb_refl]. }
  destruct (filter _ (columns df)) as [|t [|u l]]; try discriminate.
  destruct I as [->|[]]. reflexivity.
Qed.

Lemma series_of_Some (df : DataFrame) (c : string) (s : Series) :
  series_of df c = Some s -> getitem df c = Some s /\ In s (columns df) /\ name s = c.
Proof.
  unfold series_of, getitem. intros H.
  destruct (filter _ (columns df)) as [|t [|u l]] eqn:F; try discriminate.
  injection H as ->.
  assert (I : In s (filter (fun s0 => String.eqb (name s0) c) (columns df)))
    by (rewrite F; now left).
  apply filter_In in I. destruct I as [I E]. apply String.eqb_eq in E.
  split; [|now split]. clear I E.
  induction (columns df) as [|a cs IH]; [discriminate|].
  cbn [filter find] in *. destruct (String.eqb (name a) c).
  - now injection F as ->.
  - now apply IH.
Qed.

Lemma dict_set_fresh (A : Type) (d : list (string * A)) (k : string) (v : A) :
  ~ In k (map fst d) -> dict_set d k v = d ++ [(k, v)].
Proof.
  induction d as [|[k' v'] d IH]; intros H; [reflexivity|].
  cbn [dict_set map fst] in *. destruct (String.eqb_spec k' k) as [E|E].
  - exfalso. apply H. now left.
  - cbn [app]. rewrite IH; [reflexivity|]. intros X. apply H. now right.
Qed.

Lemma info_fold (df : DataFrame) (cs : list Series)
  (acc : list (string * pyobj)) :
  (forall s, In s cs -> series_of df (name s) = Some s) ->
  NoDup (map fst acc ++ map name cs) ->
  fold_left (info_step df) (map name cs) (Ok acc)
  = Ok (acc ++ map (fun s => (name s, column_info s)) cs).
Proof.
  revert acc. induction cs as [|s cs IH]; intros acc H N.
  - cbn. now rewrite app_nil_r.
  - cbn [map fold_left]. unfold info_step at 2. cbn [bind].
    rewrite (H s (or_introl eq_refl)).
    assert (F : ~ In (name s) (map fst acc)).
    { intros X. apply NoDup_remove_2 in N. apply N.
      apply in_or_app. now left. }
    rewrite (@dict_set_fresh _ acc (name s) (column_info s) F), IH.
    + now rewrite <- app_assoc.
    + intros t Ht. apply H. now right.
    + rewrite map_app. cbn [map fst]. rewrite <- app_assoc. exact N.
Qed.

Lemma info_fold_Raise (df : DataFrame) (ls : list string) (e : string) :
  fold_left (info_step df) ls (Raise e) = Raise e.
Proof. induction ls as [|c ls IH]; [reflexivity | exact IH]. Qed.

Lemma info_fold_labels (df : DataFrame) (ls : list string)
  (acc info : list (string * pyobj)) :
  fold_left (info_step df) ls (Ok acc) = Ok info ->
  forallb (unique_in (labels df)) ls = true.
Proof.
  revert acc. induction ls as [|c ls IH]; intros acc H; [reflexivity|].
  cbn [fold_left] in H. unfold info_step at 2 in H. cbn [bind] in H.
  cbn [forallb]. rewrite <- series_of_unique.
  destruct (series_of df c) as [s|]; [|now rewrite info_fold_Raise in H].
  cbn [is_some andb]. now apply (IH _ H).
Qed.

Lemma sample_safe (isoformat : Z -> string) (v : value) :
  notna v = true ->
  json_safe (make_dict_json_serializable isoformat (tolist_cell v)) = true.
Proof. now destruct v. Qed.

Section ColumnInfoFacts.

Variable isoformat : Z -> string.

(** [_get_columns_info] returns exactly when the labels of the frame are
    distinct. It then holds one entry per column, in the order of the
    columns, and its serialisation is a JSON document: the sample values
    are at most three, none is missing, and the timestamps among them are
    written as text. *)
Theorem get_columns_info_spec (df : DataFrame) :
  ((exists info, _get_columns_info df = Ok info) <-> NoDup (labels df))
  /\ (NoDup (labels df) ->
      _get_columns_info df
      = Ok (PyDict (map (fun s => (name s, column_info s)) (columns df)))
      /\ json_safe (make_dict_json_serializable isoformat
                      (PyDict (map (fun s => (name s, column_info s))
                                   (columns df)))) = true).
Proof.
  assert (A : NoDup (labels df) ->
              _get_columns_info df
              = Ok (PyDict (map (fun s => (name s, column_info s)) (columns df)))).
  { intros N. unfold _get_columns_info, labels.
    rewrite (info_fold df (columns df) []); [reflexivity| |exact N].
    intros s Hs. now apply series_of_In. }
  split; [split|].
  - intros [info H]. unfold _get_columns_info in H.
    apply bind_Ok in H. destruct H as [items [H _]].
    apply info_fold_labels in H. now apply NoDup_unique_in.
  - intros N. eexists. now apply A.
  - intros N. split; [now apply A|].
    cbn [make_dict_json_serializable json_safe].
    rewrite forallb_map, forallb_map, forallb_forall. intros s _.
    unfold column_info.
    cbn [make_dict_json_serializable json_safe map forallb isfinite andb].
    rewrite andb_true_r, !forallb_map, forallb_forall. intros v Hv.
    apply sample_safe.
    assert (I : In v (dropna (values s))).
    { rewrite <- (firstn_skipn 3 (dropna (values s))). apply in_or_app. now left. }
    unfold dropna in I. now apply filter_In in I.
Qed.

End ColumnInfoFacts.

Lemma get_columns_info_spec_witness :
  _get_columns_info sales_df
  = Ok (PyDict (map (fun s => (name s, column_info s)) (columns sales_df)))
  /\ json_safe (make_dict_json_serializable (fun _ => "")
                  (PyDict (map (fun s => (name s, column_info s))
                               (columns sales_df)))) = true.
Proof.
  apply (@get_columns_info_spec (fun _ => "") sales_df).
  repeat constructor; cbn; intuition discriminate.
Defined.

(** ** Pattern detection *)

Lemma comprehension_filter (A : Type) (test : A -> result bool)
  (p : A -> bool) (l : list A) :
  (forall x, In x l -> test x = Ok (p x)) ->
  comprehension test l = Ok (filter p l).
Proof.
  induction l as [|x l IH]; intros H; [reflexivity|].
  cbn [comprehension filter]. rewrite (H x (or_introl eq_refl)). cbn [bind].
  rewrite IH; [reflexivity|]. intros y Hy. apply H. now right.
Qed.

Lemma comprehension_In (A : Type) (test : A -> result bool) (l r : list A)
  (x : A) :
  comprehension test l = Ok r ->
  (In x r <-> In x l /\ test x = Ok true).
Proof.
  revert r. induction l as [|y l IH]; intros r H.
  - injection H as <-. split; [intros [] | intros [[] _]].
  - cbn [comprehension] in H. apply bind_Ok in H. destruct H as [b [Hy H]].
    apply bind_Ok in H. destruct H as [rest [Hr H]]. injection H as <-.
    specialize (IH rest Hr). destruct b.
    + split.
      * intros [<-|Hx]; [split; [now left | exact Hy]|].
        apply IH in Hx. split; [now right | tauto].
      * intros [[<-|Hx] T]; [now left | right; apply IH; now split].
    + split.
      * intros Hx. apply IH in Hx. split; [now right | tauto].
      * intros [[<-|Hx] T]; [congruence | apply IH; now split].
Qed.

Lemma comprehension_Ok (A : Type) (test : A -> result bool) (l r : list A)
  (x : A) :
  comprehension test l = Ok r -> In x l -> exists b, test x = Ok b.
Proof.
  revert r. induction l as [|y l IH]; intros r H Hx; [contradiction|].
  cbn [comprehension] in H. apply bind_Ok in H. destruct H as [b [Hy H]].
  apply bind_Ok in H. destruct H as [rest [Hr _]].
  destruct Hx as [<-|Hx]; [now exists b | now apply (IH rest)].
Qed.

Section PatternFacts.

Variable to_datetime_returns : list value -> bool.

Lemma date_fold_Raise (df : DataFrame) (ls : list string) (e : string) :
  fold_left (date_step to_datetime_returns df) ls (Raise e) = Raise e.
Proof. induction ls as [|c ls IH]; [reflexivity | exact IH]. Qed.

Lemma date_fold_Ok (df : DataFrame) (ls acc : list string) :
  (forall c, In c ls -> exists s, series_of df c = Some s) ->
  Forall (fun c => exists s, getitem df c = Some s /\ dtype s = object) acc ->
  exists dates,
    fold_left (date_step to_datetime_returns df) ls (Ok acc) = Ok dates
    /\ Forall (fun c => exists s, getitem df c = Some s /\ dtype s = object)
              dates.
Proof.
  revert acc. induction ls as [|c ls IH]; intros acc H F.
  - now exists acc.
  - cbn [fold_left]. unfold date_step at 2. cbn [bind].
    destruct (H c (or_introl eq_refl)) as [s S]. rewrite S.
    assert (H' : forall c', In c' ls -> exists s', series_of df c' = Some s')
      by (intros c' Hc'; apply H; now right).
    destruct (dtype s) eqn:D; try (now apply IH).
    destruct (to_datetime_returns _); [|now apply IH].
    apply IH; [exact H'|]. apply Forall_app. split; [exact F|].
    constructor; [|constructor]. exists s. split; [|exact D].
    now apply series_of_Some in S.
Qed.

Lemma id_test_spec (df : DataFrame) (c : string) :
  NoDup (labels df) -> In c (labels df) -> 0 < nrows df ->
  id_test df c = Ok (looks_like_id df c).
Proof.
  intros N Hc L. unfold labels in Hc. apply in_map_iff in Hc.
  destruct Hc as [s [<- Hs]]. unfold id_test, looks_like_id.
  rewrite (series_of_In df s N Hs), (getitem_In df s N Hs).
  destruct (Nat.eqb_spec (nrows df) 0); [lia | reflexivity].
Qed.

Lemma constant_test_spec (df : DataFrame) (c : string) :
  NoDup (labels df) -> In c (labels df) ->
  constant_test df c = Ok (is_constant df c).
Proof.
  intros N Hc. unfold labels in Hc. apply in_map_iff in Hc.
  destruct Hc as [s [<- Hs]]. unfold constant_test, is_constant.
  now rewrite (series_of_In df s N Hs), (getitem_In df s N Hs).
Qed.

Lemma detect_patterns_no_columns (df : DataFrame) :
  columns df = [] ->
  _detect_patterns to_datetime_returns df = Ok (mkPatterns [] [] []).
Proof.
  intros E. unfold _detect_patterns, labels. now rewrite E.
Qed.

Lemma detect_patterns_rows (df : DataFrame) :
  NoDup (labels df) -> 0 < nrows df ->
  exists dates,
    _detect_patterns to_datetime_returns df
    = Ok (mkPatterns dates (filter (looks_like_id df) (labels df))
                     (filter (is_constant df) (labels df)))
    /\ Forall (fun c => exists s, getitem df c = Some s /\ dtype s = object)
              dates.
Proof.
  intros N L. unfold _detect_patterns.
  destruct (@date_fold_Ok df (labels df) []) as [dates [D F]]; [|constructor|].
  { intros c Hc. unfold labels in Hc. apply in_map_iff in Hc.
    destruct Hc as [s [<- Hs]]. exists s. now apply series_of_In. }
  exists dates. split; [|exact F]. rewrite D. cbn [bind].
  rewrite (comprehension_filter (id_test df) (looks_like_id df))
    by (intros c Hc; now apply id_test_spec).
  cbn [bind].
  rewrite (comprehension_filter (constant_test df) (is_constant df))
    by (intros c Hc; now apply constant_test_spec).
  reflexivity.
Qed.

(** [_detect_patterns] on a frame with distinct labels. With at least one
    row it returns: the identifier columns are those with more than 95
    distinct values per 100 rows, the constant columns those with one
    distinct value, and every date column is a text column. Without a
    column it returns three empty lists. With columns and no row it fails
    on the division by the number of rows. *)
Theorem detect_patterns_spec (df : DataFrame) :
  NoDup (labels df) ->
  (0 < nrows df ->
   exists dates,
     _detect_patterns to_datetime_returns df
     = Ok (mkPatterns dates (filter (looks_like_id df) (labels df))
                      (filter (is_constant df) (labels df)))
     /\ Forall (fun c => exists s, getitem df c = Some s /\ dtype s = object)
               dates)
  /\ (columns df = [] ->
      _detect_patterns to_datetime_returns df = Ok (mkPatterns [] [] []))
  /\ (nrows df = 0 -> columns df <> [] ->
      _detect_patterns to_datetime_returns df
      = Raise "ZeroDivisionError: division by zero").
Proof.
  intros N. split; [now apply detect_patterns_rows|].
  split; [apply detect_patterns_no_columns|].
  intros Z C. unfold _detect_patterns.
  destruct (@date_fold_Ok df (labels df) []) as [dates [D _]]; [|constructor|].
  { intros c Hc. unfold labels in Hc. apply in_map_iff in Hc.
    destruct Hc as [s [<- Hs]]. exists s. now apply series_of_In. }
  rewrite D. cbn [bind]. unfold labels in *.
  destruct (columns df) as [|s cs] eqn:E; [congruence|].
  cbn [map comprehension]. unfold id_test at 1.
  assert (S : series_of df (name s) = Some s).
  { apply series_of_In; [unfold labels; now rewrite E | rewrite E; now left]. }
  rewrite S, Z. reflexivity.
Qed.

(** Whenever [_detect_patterns] returns on a frame of two rows or more, no
    column is both an identifier column and a constant column. On a frame
    of one row every constant column is an identifier column. *)
Theorem id_and_constant_columns (df : DataFrame) (p : Patterns) :
  _detect_patterns to_datetime_returns df = Ok p ->
  (2 <= nrows df ->
   forall c, In c (potential_id_columns p) -> ~ In c (constant_columns p))
  /\ (nrows df = 1 ->
      forall c, In c (constant_columns p) -> In c (potential_id_columns p)).
Proof.
  unfold _detect_patterns. intros H.
  apply bind_Ok in H. destruct H as [dates [_ H]].
  apply bind_Ok in H. destruct H as [ids [I H]].
  apply bind_Ok in H. destruct H as [consts [K H]]. injection H as <-.
  cbn [potential_id_columns constant_columns]. split.
  - intros L c Hi Hk.
    apply (comprehension_In _ _ c I) in Hi. destruct Hi as [_ Hi].
    apply (comprehension_In _ _ c K) in Hk. destruct Hk as [_ Hk].
    unfold id_test in Hi. unfold constant_test in Hk.
    destruct (series_of df c) as [s|]; [|discriminate].
    destruct (nrows df =? 0); [discriminate|].
    injection Hi as Hi. injection Hk as Hk. apply Nat.eqb_eq in Hk.
    rewrite Hk in Hi. unfold ratio_gt in Hi.
    apply andb_true_iff in Hi. destruct Hi as [_ Hi].
    apply Nat.ltb_lt in Hi. lia.
  - intros L c Hk.
    apply (comprehension_In _ _ c K) in Hk. destruct Hk as [Hc Hk].
    apply (comprehension_In _ _ c I). split; [exact Hc|].
    unfold id_test. unfold constant_test in Hk.
    destruct (series_of df c) as [s|]; [|discriminate].
    injection Hk as Hk. apply Nat.eqb_eq in Hk. now rewrite L, Hk.
Qed.

End PatternFacts.

Lemma detect_patterns_spec_witness :
  exists dates,
    _detect_patterns (fun _ => false) keyed_df
    = Ok (mkPatterns dates ["id"] ["kind"])
    /\ Forall (fun c => exists s, getitem keyed_df c = Some s
                                  /\ dtype s = object) dates.
Proof.
  assert (N : NoDup (labels keyed_df))
    by (repeat constructor; cbn; intuition discriminate).
  destruct (@detect_patterns_spec (fun _ => false) keyed_df N) as [H _].
  apply H. cbn. lia.
Defined.

Lemma id_and_constant_columns_witness :
  _detect_patterns (fun _ => false) one_row_df
  = Ok (mkPatterns [] ["region"; "sales"] ["region"; "sales"])
  /\ In "sales" (potential_id_columns
                   (mkPatterns [] ["region"; "sales"] ["region"; "sales"])).
Proof.
  split; [reflexivity|].
  destruct (@id_and_constant_columns (fun _ => false) one_row_df
              (mkPatterns [] ["region"; "sales"] ["region"; "sales"])
              eq_refl) as [_ H].
  apply H; [reflexivity | right; now left].
Defined.

(** ** Analysis of an uploaded table *)

Section UploadFacts.

Context {P : Pandas}.

Variable to_datetime_returns : list value -> bool.
Variable NumericStats : Type.
Variable describe_dict : DataFrame -> list string -> result NumericStats.
Variable isoformat : Z -> string.

(** The analysis of a frame that has a column and no row fails, whatever
    the library does: when nothing fails earlier, pattern detection divides
    by the number of rows. *)
Theorem analyze_empty_fails (df : DataFrame) :
  nrows df = 0 -> columns df <> [] ->
  exists e, analyze_dataframe to_datetime_returns describe_dict df = Failed e.
Proof.
  intros Z C. unfold analyze_dataframe.
  assert (R : exists e, _detect_patterns to_datetime_returns df = Raise e).
  { unfold _detect_patterns.
    destruct (fold_left _ (labels df) (Ok [])) as [dates|e];
      [|now exists e].
    cbn [bind]. unfold labels. destruct (columns df) as [|s cs]; [congruence|].
    cbn [map comprehension]. unfold id_test at 1.
    destruct (series_of _ (name s)); [|now eexists].
    rewrite Z. now eexists. }
  destruct R as [e R]. rewrite R.
  match goal with
  | |- context [match ?l with [] => Ok None | _ => _ end] =>
      destruct l; cbn [bind]
  end; [now exists e|].
  destruct (describe_dict _ _) as [stats|e']; cbn [bind]; now eexists.
Qed.

Lemma cleaned_shape (raw d : DataFrame) :
  wf raw -> clean_dataframe raw = Ok d ->
  NoDup (labels d) /\ (columns d <> [] -> 0 < nrows d).
Proof.
  intros W H. rewrite clean_dataframe_split in H.
  apply bind_Ok in H. destruct H as [d5 [H5 H]]. injection H as <-.
  destruct (before_standardization_inv _ H5) as [named [typed [H1 [H3 ->]]]].
  assert (Wn : wf named) by (eapply after_names_wf; eassumption).
  assert (Wt : wf typed) by (eapply detect_types_wf; eassumption).
  assert (Nn : NoDup (labels named)) by (eapply detect_types_NoDup; eassumption).
  assert (Nt : NoDup (labels typed))
    by (rewrite (labels_detect_types _ H3); exact Nn).
  destruct (deduplicated_has_value Wt Nt) as [W5 V5]. split.
  - rewrite labels_standardize. unfold _remove_duplicate_rows.
    rewrite labels_drop_duplicates, (handle_missing_columns typed Nt).
    unfold dropna_all. rewrite labels_filter_rows.
    apply (resolved_labels (nrows typed) (columns typed) Nt).
  - unfold _standardize_text_columns. cbn [nrows columns]. intros C.
    destruct (Nat.eq_dec (nrows (_remove_duplicate_rows
                                   (_handle_missing_values typed))) 0) as [Z|Z];
      [|lia].
    exfalso. apply C. now rewrite (has_value_no_rows W5 V5 Z).
Qed.

(** The table that [clean] returns can be analysed as the upload does:
    pattern detection returns on it, and so does the column information,
    whose serialisation is a JSON document. *)
Theorem cleaned_table_metadata (raw d : DataFrame) :
  wf raw -> clean_dataframe raw = Ok d ->
  (exists p, _detect_patterns to_datetime_returns d = Ok p)
  /\ (exists info,
        _get_columns_info d = Ok info
        /\ json_safe (make_dict_json_serializable isoformat info) = true).
Proof.
  intros W H. destruct (cleaned_shape W H) as [N R]. split.
  - destruct (columns d) as [|s cs] eqn:C.
    + eexists. now apply detect_patterns_no_columns.
    + destruct (@detect_patterns_rows to_datetime_returns d N) as [dates [E _]];
        [apply R; discriminate|].
      eexists. exact E.
  - unfold _get_columns_info, labels.
    rewrite (info_fold d (columns d) []);
      [|intros s Hs; now apply series_of_In | exact N].
    cbn [bind app]. eexists. split; [reflexivity|].
    cbn [make_dict_json_serializable json_safe].
    rewrite forallb_map, forallb_map, forallb_forall. intros s _.
    unfold column_info.
    cbn [make_dict_json_serializable json_safe map forallb isfinite andb].
    rewrite andb_true_r, !forallb_map, forallb_forall. intros v Hv.
    apply sample_safe.
    assert (I : In v (dropna (values s))).
    { rewrite <- (firstn_skipn 3 (dropna (values s))). apply in_or_app. now left. }
    unfold dropna in I. now apply filter_In in I.
Qed.

End UploadFacts.

Lemma analyze_empty_fails_witness :
  exists e,
    analyze_dataframe (P := ref_pandas) (fun _ => true)
                      (fun _ _ => Ok tt) no_rows_df
    = Failed e.
Proof.
  apply (@analyze_empty_fails ref_pandas (fun _ => true) unit
           (fun _ _ => Ok tt) no_rows_df).
  - reflexivity.
  - discriminate.
Defined.

Lemma cleaned_table_metadata_witness :
  (exists p,
     _detect_patterns (fun _ => false)
       (mkDF 3 [mkSeries "price" float64 [VFloat 5; VFloat 1007; VFloat 506]])
     = Ok p)
  /\ (exists info,
        _get_columns_info
          (mkDF 3 [mkSeries "price" float64 [VFloat 5; VFloat 1007; VFloat 506]])
        = Ok info
        /\ json_safe (make_dict_json_serializable (fun _ => "") info) = true).
Proof.
  apply (@cleaned_table_metadata ref_pandas (fun _ => false) (fun _ => "")
           mostly_numeric_df).
  - repeat constructor.
  - vm_compute. reflexivity.
Defined.

(** ** Type inference *)

Section InferenceFacts.

Context {P : Pandas}.

Lemma numeric_adopted_spec (n : nat) (s : Series) :
  numeric_adopted n s = true <-> reads_numbers n s.
Proof.
  unfold numeric_adopted, reads_numbers, parsed_count, ratio_gt.
  rewrite andb_true_iff, !Nat.ltb_lt. lia.
Qed.

Lemma datetime_adopted_spec (n : nat) (s d : Series) :
  datetime_adopted n s = Some d
  <-> exists f, reads_dates n s f /\ d = datetime_col s f.
Proof.
  assert (L : looks_like_dates s = true
              <-> mentions ["/"; "-"; "20"; "19"]
                    (ndarray_str (map py_str (firstn 10 (dropna (values s))))))
    by (unfold looks_like_dates;
        exact (any_word_spec ["/"; "-"; "20"; "19"]
                 (ndarray_str (map py_str (firstn 10 (dropna (values s))))))).
  unfold datetime_adopted, reads_dates.
  destruct (looks_like_dates s) eqn:K.
  - assert (M := proj1 L eq_refl).
    destruct (to_datetime (values s)) as [f|].
    + unfold ratio_gt.
      destruct ((0 <? n) && (1 * n <? notna_count (values (datetime_col s f)) * 2))
        eqn:R.
      * apply andb_true_iff in R. rewrite !Nat.ltb_lt in R. split.
        -- intros E. injection E as <-. exists f.
           repeat split; try assumption; lia.
        -- intros [g [[_ [E _]] ->]]. now injection E as <-.
      * split; [discriminate|]. intros [g [[_ [E [A B]]] _]].
        injection E as <-. apply andb_false_iff in R.
        rewrite !Nat.ltb_ge in R. lia.
    + split; [discriminate|]. intros [g [[_ [E _]] _]]. discriminate.
  - split; [discriminate|]. intros [g [[E _] _]].
    apply L in E. discriminate.
Qed.

Lemma datetime_adopted_none (n : nat) (s : Series) :
  datetime_adopted n s = None <-> forall f, ~ reads_dates n s f.
Proof.
  destruct (datetime_adopted n s) as [d|] eqn:E.
  - apply datetime_adopted_spec in E. destruct E as [f [R _]].
    split; [discriminate|]. intros H. now destruct (H f).
  - split; [|reflexivity]. intros _ f R.
    assert (X : datetime_adopted n s = Some (datetime_col s f))
      by (apply datetime_adopted_spec; now exists f).
    congruence.
Qed.

Lemma looks_boolean_spec (s : Series) :
  looks_boolean s = true <-> reads_booleans s.
Proof.
  unfold looks_boolean, reads_booleans, nunique, bool_lexicon.
  rewrite andb_true_iff, Nat.leb_le, existsb_exists.
  split; intros [L H]; (split; [exact L|]).
  - destruct H as [w [Hw M]]. apply mem_In, in_map_iff in M.
    destruct M as [v [<- Hv]]. now exists v.
  - destruct H as [v [Hv Hw]]. exists (Py.lower (py_str v)).
    split; [exact Hw|]. apply mem_In, in_map_iff. now exists v.
Qed.

Lemma looks_boolean_false (s : Series) :
  looks_boolean s = false <-> ~ reads_booleans s.
Proof.
  rewrite <- looks_boolean_spec. destruct (looks_boolean s); split;
    intuition congruence.
Qed.

Lemma numeric_adopted_false (n : nat) (s : Series) :
  numeric_adopted n s = false <-> ~ reads_numbers n s.
Proof.
  rewrite <- numeric_adopted_spec. destruct (numeric_adopted n s); split;
    intuition congruence.
Qed.

Lemma convert_column_cases (n : nat) (s : Series) :
  (dtype s <> object /\ convert_column n s = s)
  \/ (dtype s = object
      /\ ((reads_numbers n s /\ convert_column n s = numeric_col s)
          \/ (~ reads_numbers n s
              /\ exists f, reads_dates n s f
                           /\ convert_column n s = datetime_col s f)
          \/ (~ reads_numbers n s /\ (forall f, ~ reads_dates n s f)
              /\ reads_booleans s /\ convert_column n s = boolean_col s)
          \/ (~ reads_numbers n s /\ (forall f, ~ reads_dates n s f)
              /\ ~ reads_booleans s /\ convert_column n s = s))).
Proof.
  unfold convert_column. destruct (dtype s) eqn:D;
    try (left; split; [discriminate | reflexivity]).
  right. split; [reflexivity|].
  destruct (numeric_adopted n s) eqn:A.
  { left. split; [now apply numeric_adopted_spec | reflexivity]. }
  apply numeric_adopted_false in A. right.
  destruct (datetime_adopted n s) as [d|] eqn:B.
  { left. split; [exact A|]. apply datetime_adopted_spec in B.
    destruct B as [f [R ->]]. now exists f. }
  pose proof (proj1 (datetime_adopted_none n s) B) as B'. right.
  destruct (looks_boolean s) eqn:C.
  - left. apply looks_boolean_spec in C.
    split; [exact A|]. split; [exact B'|]. split; [exact C | reflexivity].
  - right. apply looks_boolean_false in C.
    split; [exact A|]. split; [exact B'|]. split; [exact C | reflexivity].
Qed.

(** [_detect_and_convert_types] returns exactly when the labels of the
    frame are distinct. It then keeps the number of rows and, column by
    column, the label and the number of cells. A column that is not text is
    returned as it is. A text column of which more than half of the rows
    parse as numbers becomes a numeric column, and this is its numeric
    reading when no integer in it exceeds 2^53 in magnitude. Otherwise, if
    its first ten values show a slash, a dash, 20 or 19, the datetime parse
    does not raise and gives a timestamp for more than half of the rows, it
    becomes its datetime reading. Otherwise, if it has at most three
    distinct values and one of them is a boolean word, it becomes its
    boolean reading, of dtype bool when every cell is mapped and object
    when one is not. Otherwise it is returned as it is. *)
Theorem detect_and_convert_types_spec (df : DataFrame) :
  ((exists d, _detect_and_convert_types df = Ok d) <-> NoDup (labels df))
  /\ (forall d, _detect_and_convert_types df = Ok d ->
        nrows d = nrows df
        /\ Forall2
             (fun s s' =>
                name s' = name s
                /\ List.length (values s') = List.length (values s)
                /\ (dtype s <> object -> s' = s)
                /\ (dtype s = object ->
                    (reads_numbers (nrows df) s
                     /\ is_np_number s' = true
                     /\ (exact_integers s -> s' = numeric_col s))
                    \/ (~ reads_numbers (nrows df) s
                        /\ exists f, reads_dates (nrows df) s f
                                     /\ s' = datetime_col s f)
                    \/ (~ reads_numbers (nrows df) s
                        /\ (forall f, ~ reads_dates (nrows df) s f)
                        /\ reads_booleans s
                        /\ s' = mkSeries (name s)
                                  (if forallb is_bool (map bool_map (values s))
                                   then bool_ else object)
                                  (map bool_map (values s)))
                    \/ (~ reads_numbers (nrows df) s
                        /\ (forall f, ~ reads_dates (nrows df) s f)
                        /\ ~ reads_booleans s
                        /\ s' = s)))
             (columns df) (columns d)).
Proof.
  split; [split|].
  - intros [d H]. now apply detect_types_NoDup in H.
  - intros N. eexists. now apply detect_types_Ok.
  - intros d H. apply detect_types_inv in H. destruct H as [_ ->].
    cbn [nrows columns]. split; [reflexivity|].
    induction (columns df) as [|s cs IH]; [constructor|].
    cbn [map]. constructor; [|exact IH].
    split; [apply convert_column_name|].
    split; [apply convert_column_length|].
    destruct (convert_column_cases (nrows df) s) as [[D E]|[D E]].
    + split; [intros _; exact E | intros D'; contradiction].
    + split; [intros D'; contradiction | intros _].
      destruct E as [[A E]|[[A [f [R E]]]|[[A [B [C E]]]|[A [B [C E]]]]]];
        rewrite E.
      * left. split; [exact A|]. split; [apply numeric_col_dtype | reflexivity].
      * right; left. split; [exact A|]. now exists f.
      * right; right; left.
        split; [exact A|]. split; [exact B|]. split; [exact C | reflexivity].
      * right; right; right.
        split; [exact A|]. split; [exact B|]. split; [exact C | reflexivity].
Qed.

End InferenceFacts.

Lemma detect_and_convert_types_spec_witness :
  _detect_and_convert_types (P := ref_pandas) mostly_numeric_df
  = Ok (mkDF 3 [mkSeries "price" float64 [VFloat 5; VFloat 1007; NaN]])
  /\ Forall2
       (fun s s' =>
          name s' = name s
          /\ List.length (values s') = List.length (values s)
          /\ (dtype s <> object -> s' = s)
          /\ (dtype s = object ->
              (reads_numbers (P := ref_pandas) 3 s
               /\ is_np_number s' = true
               /\ (exact_integers (P := ref_pandas) s -> s' = numeric_col s))
              \/ (~ reads_numbers (P := ref_pandas) 3 s
                  /\ exists f, reads_dates (P := ref_pandas) 3 s f
                               /\ s' = datetime_col s f)
              \/ (~ reads_numbers (P := ref_pandas) 3 s
                  /\ (forall f, ~ reads_dates (P := ref_pandas) 3 s f)
                  /\ reads_booleans (P := ref_pandas) s
                  /\ s' = mkSeries (name s)
                            (if forallb is_bool (map bool_map (values s))
                             then bool_ else object)
                            (map bool_map (values s)))
              \/ (~ reads_numbers (P := ref_pandas) 3 s
                  /\ (forall f, ~ reads_dates (P := ref_pandas) 3 s f)
                  /\ ~ reads_booleans (P := ref_pandas) s
                  /\ s' = s)))
       (columns mostly_numeric_df)
       (columns (mkDF 3 [mkSeries "price" float64 [VFloat 5; VFloat 1007; NaN]])).
Proof.
  assert (E : _detect_and_convert_types (P := ref_pandas) mostly_numeric_df
              = Ok (mkDF 3 [mkSeries "price" float64
                              [VFloat 5; VFloat 1007; NaN]]))
    by (vm_compute; reflexivity).
  split; [exact E|].
  destruct (@detect_and_convert_types_spec ref_pandas mostly_numeric_df) as [_ H].
  exact (proj2 (H _ E)).
Defined.

(** ** Unnamed columns *)

Lemma filter_keep_all (A : Type) (p : A -> bool) (l : list A) :
  (forall x, In x l -> p x = true) -> filter p l = l.
Proof.
  intros H. induction l as [|x l IH]; [reflexivity|].
  cbn [filter]. rewrite (H x (or_introl eq_refl)), IH; [reflexivity|].
  intros y Hy. apply H. now right.
Qed.

Lemma drop_unique_column (n : nat) (done rest : list Series) (s : Series) :
  NoDup (map name (done ++ s :: rest)) ->
  drop_columns (name s) (mkDF n (done ++ s :: rest)) = mkDF n (done ++ rest).
Proof.
  intros N. unfold drop_columns. cbn [nrows columns]. f_equal.
  rewrite map_app in N. cbn [map] in N. apply NoDup_remove_2 in N.
  rewrite filter_app. cbn [filter]. rewrite String.eqb_refl. cbn [negb].
  rewrite !filter_keep_all; [reflexivity| |];
    intros t Ht; apply negb_true_iff; apply String.eqb_neq; intros E;
    apply N; apply in_or_app; [right | left]; rewrite <- E; now apply in_map.
Qed.

Lemma relabelled_length (k : nat) (cs : list Series) (ns : list string) :
  relabelled k cs ns -> List.length ns = List.length cs.
Proof. induction 1; cbn [List.length]; congruence. Qed.

(** The relation leaves no choice: the kept columns have one relabelling. *)
Lemma relabelled_fun (k : nat) (cs : list Series) (ns ns' : list string) :
  relabelled k cs ns -> relabelled k cs ns' -> ns = ns'.
Proof.
  intros H. revert ns'. induction H as
    [k | k s cs ns U _ IH | k s cs ns v others U D V L _ IH | k s cs ns U Q _ IH];
    intros ns' H'; inversion H'; subst; try congruence.
  - f_equal. now apply IH.
  - f_equal; [congruence | now apply IH].
  - exfalso.
    match goal with
    | Q' : forall v others, dropna (values s) = _ -> _ |- _ =>
        destruct (Q' v others D) as [E|E]; [contradiction | lia]
    end.
  - exfalso.
    match goal with
    | D' : dropna (values s) = VStr ?w :: ?o |- _ =>
        destruct (Q w o D') as [E|E]; [contradiction | lia]
    end.
  - f_equal. now apply IH.
Qed.

Lemma unnamed_fold_spec (n : nat) (rest done : list Series) (c : nat)
  (nc : list string) :
  NoDup (map name (done ++ rest)) ->
  exists c' names,
    fold_left unnamed_step (map name rest) (Ok (mkDF n (done ++ rest), c, nc))
    = Ok (mkDF n (done ++ filter (fun s => negb (empty_unnamed s)) rest),
          c', nc ++ names)
    /\ relabelled c (filter (fun s => negb (empty_unnamed s)) rest) names.
Proof.
  revert done c nc. induction rest as [|s rest IH]; intros done c nc N.
  - exists c, []. cbn [map fold_left filter]. rewrite !app_nil_r.
    split; [reflexivity | constructor].
  - cbn [map fold_left filter]. unfold unnamed_step at 2. cbn [bind].
    assert (E : forall l, done ++ s :: l = (done ++ [s]) ++ l)
      by (intros l; now rewrite <- app_assoc).
    assert (Step : forall c1 n',
               exists c' names,
                 fold_left unnamed_step (map name rest)
                   (Ok (mkDF n (done ++ s :: rest), c1, nc ++ [n']))
                 = Ok (mkDF n (done ++ s :: filter (fun s => negb (empty_unnamed s)) rest),
                       c', nc ++ n' :: names)
                 /\ relabelled c1 (filter (fun s => negb (empty_unnamed s)) rest)
                      names).
    { intros c1 n'.
      rewrite (E rest), (E (filter (fun s => negb (empty_unnamed s)) rest)).
      destruct (IH (done ++ [s]) c1 (nc ++ [n'])) as [c' [names [F R]]];
        [now rewrite <- E|].
      exists c', names. rewrite F. split; [|exact R].
      now rewrite <- (app_assoc nc [n'] names). }
    assert (Numbered :
              Py.contains "Unnamed" (name s) = true ->
              (forall v others, dropna (values s) = VStr v :: others ->
                                v = "" \/ 50 <= String.length v) ->
              exists c' names,
                fold_left unnamed_step (map name rest)
                  (Ok (mkDF n (done ++ s :: rest), S c,
                       nc ++ [("Column_" ++ Py.str_of_nat (S c))%string]))
                = Ok (mkDF n (done ++ s :: filter (fun s => negb (empty_unnamed s)) rest),
                      c', nc ++ names)
                /\ relabelled c
                     (s :: filter (fun s => negb (empty_unnamed s)) rest) names).
    { intros U Q.
      destruct (Step (S c) ("Column_" ++ Py.str_of_nat (S c))%string)
        as [c' [names [F R]]].
      exists c', (("Column_" ++ Py.str_of_nat (S c))%string :: names).
      split; [exact F | now constructor]. }
    destruct (Py.contains "Unnamed" (name s)) eqn:U.
    + assert (Hs : series_of (mkDF n (done ++ s :: rest)) (name s) = Some s).
      { apply series_of_In; [exact N|]. cbn [columns].
        apply in_or_app. right. now left. }
      rewrite Hs. destruct (existsb notna (values s)) eqn:V.
      * assert (Ke : empty_unnamed s = false)
          by (unfold empty_unnamed; now rewrite U, V).
        rewrite Ke. cbn [negb].
        destruct (dropna (values s)) as [|[|q|z|t|b|tm] others] eqn:D;
          try (apply Numbered; [reflexivity | intros v o; discriminate]).
        destruct (Py.nonempty t && (String.length t <? 50)) eqn:T.
        -- apply andb_true_iff in T. destruct T as [T1 T2].
           destruct (Step c (_clean_column_name t)) as [c' [names [F R]]].
           exists c', (_clean_column_name t :: names).
           split; [exact F|].
           apply relabelled_value with (others := others);
             [exact U | exact D | | now apply Nat.ltb_lt | exact R].
           unfold Py.nonempty in T1. apply negb_true_iff in T1.
           now apply String.eqb_neq.
        -- apply Numbered; [reflexivity|].
           intros v o Ev. injection Ev as <- _.
           apply andb_false_iff in T. destruct T as [T|T].
           ++ left. unfold Py.nonempty in T. apply negb_false_iff in T.
              now apply String.eqb_eq.
           ++ right. now apply Nat.ltb_ge.
      * assert (Ke : empty_unnamed s = true)
          by (unfold empty_unnamed; now rewrite U, V).
        rewrite Ke. cbn [negb].
        rewrite (drop_unique_column n done rest s N). apply IH.
        rewrite map_app in *. cbn [map] in N. now apply NoDup_remove_1 in N.
    + assert (Ke : empty_unnamed s = false)
        by (unfold empty_unnamed; now rewrite U).
      rewrite Ke. cbn [negb].
      destruct (Step c (name s)) as [c' [names [F R]]].
      exists c', (name s :: names). split; [exact F | now constructor].
Qed.

(** [_handle_unnamed_columns] on a frame with distinct labels returns. It
    drops the unnamed columns that hold no value and keeps the others, with
    their cells and in their order. Every column it keeps is relabelled:
    the test on the number of new labels never fails. A column whose label
    does not contain "Unnamed" keeps it; an unnamed column whose first
    value is a non-empty text of fewer than 50 characters is labelled with
    the normalisation of that text; every other unnamed column that is kept
    is labelled "Column_k", k counting these columns from 1 in their
    order. *)
Theorem handle_unnamed_columns_spec (df : DataFrame) :
  NoDup (labels df) ->
  exists names,
    _handle_unnamed_columns df
    = Ok (set_labels
            (mkDF (nrows df)
               (filter (fun s => negb (empty_unnamed s)) (columns df)))
            names)
    /\ relabelled 0
         (filter (fun s => negb (empty_unnamed s)) (columns df)) names.
Proof.
  intros N. unfold _handle_unnamed_columns. destruct df as [n cs].
  unfold labels in *. cbn [nrows columns] in *.
  destruct (@unnamed_fold_spec n cs [] 0 [] N) as [c [names [E F]]].
  cbn [app] in E, F. exists names. split; [|exact F].
  rewrite E. cbn [bind columns].
  rewrite (relabelled_length F), Nat.eqb_refl. reflexivity.
Qed.

Lemma handle_unnamed_columns_spec_witness :
  _handle_unnamed_columns unnamed_df
  = Ok (mkDF 2 [text_column "Name" ["Name"; "x"];
                int_column "n" [1; 2]%Z;
                int_column "Column_1" [5; 6]%Z])
  /\ exists names,
       _handle_unnamed_columns unnamed_df
       = Ok (set_labels
               (mkDF (nrows unnamed_df)
                  (filter (fun s => negb (empty_unnamed s)) (columns unnamed_df)))
               names)
       /\ relabelled 0
            (filter (fun s => negb (empty_unnamed s)) (columns unnamed_df)) names.
Proof.
  split; [vm_compute; reflexivity|].
  apply (@handle_unnamed_columns_spec unnamed_df).
  repeat constructor; cbn; intuition discriminate.
Defined.

(** ** Normalised names *)

Lemma dropwhile_none (p : ascii -> bool) (l : list ascii) :
  Forall (fun c => p c = false) l -> Py.dropwhile p l = l.
Proof.
  intros H. destruct H as [|c l Hc _]; [reflexivity|].
  cbn [Py.dropwhile]. now rewrite Hc.
Qed.

Lemma strip_by_none (p : ascii -> bool) (l : list ascii) :
  Forall (fun c => p c = false) l -> Py.strip_by p l = l.
Proof.
  intros H. unfold Py.strip_by, Py.rstrip_by, Py.lstrip_by.
  rewrite (@dropwhile_none p l H), (@dropwhile_none p (rev l));
    [apply rev_involutive | now apply Forall_rev].
Qed.

Lemma collapse_none (p : ascii -> bool) (r : ascii) (l : list ascii) :
  Forall (fun c => p c = false) l -> Py.collapse p r l = l.
Proof.
  induction 1 as [|c l Hc _ IH]; [reflexivity|].
  cbn [Py.collapse]. now rewrite Hc, IH.
Qed.

Lemma dropwhile_idempotent (p : ascii -> bool) (l : list ascii) :
  Py.dropwhile p (Py.dropwhile p l) = Py.dropwhile p l.
Proof.
  induction l as [|c l IH]; [reflexivity|].
  cbn [Py.dropwhile]. destruct (p c) eqn:E; [exact IH|].
  cbn [Py.dropwhile]. now rewrite E.
Qed.

Lemma dropwhile_app (p : ascii -> bool) (a b : list ascii) :
  Py.dropwhile p (a ++ b)
  = match Py.dropwhile p a with
    | [] => Py.dropwhile p b
    | l => l ++ b
    end.
Proof.
  induction a as [|c a IH]; [reflexivity|].
  cbn [app Py.dropwhile]. destruct (p c); [exact IH | reflexivity].
Qed.

Lemma rstrip_by_cons (p : ascii -> bool) (c : ascii) (l : list ascii) :
  Py.rstrip_by p (c :: l)
  = match Py.rstrip_by p l with
    | [] => if p c then [] else [c]
    | l' => c :: l'
    end.
Proof.
  unfold Py.rstrip_by. cbn [rev]. rewrite dropwhile_app.
  destruct (Py.dropwhile p (rev l)) as [|d m] eqn:E.
  - cbn [rev Py.dropwhile]. now destruct (p c).
  - rewrite rev_app_distr. cbn [rev app].
    destruct (rev m ++ [d]) eqn:F; [|reflexivity].
    now destruct (rev m).
Qed.

(** Stripping on the right leaves the first character in place when this
    is not one to strip. *)
Lemma rstrip_by_head (p : ascii -> bool) (c : ascii) (l : list ascii) :
  p c = false -> exists l', Py.rstrip_by p (c :: l) = c :: l'.
Proof.
  intros H. rewrite rstrip_by_cons, H.
  destruct (Py.rstrip_by p l); now eexists.
Qed.

Lemma rstrip_by_idempotent (p : ascii -> bool) (l : list ascii) :
  Py.rstrip_by p (Py.rstrip_by p l) = Py.rstrip_by p l.
Proof.
  unfold Py.rstrip_by. now rewrite rev_involutive, dropwhile_idempotent.
Qed.

Lemma dropwhile_head (p : ascii -> bool) (l : list ascii) :
  match Py.dropwhile p l with
  | [] => True
  | c :: _ => p c = false
  end.
Proof.
  induction l as [|c l IH]; [exact I|].
  cbn [Py.dropwhile]. destruct (p c) eqn:E; [exact IH | exact E].
Qed.

Lemma strip_by_idempotent (p : ascii -> bool) (l : list ascii) :
  Py.strip_by p (Py.strip_by p l) = Py.strip_by p l.
Proof.
  unfold Py.strip_by, Py.lstrip_by.
  pose proof (dropwhile_head p l) as H.
  destruct (Py.dropwhile p l) as [|c m]; [reflexivity|].
  destruct (@rstrip_by_head p c m H) as [l' E]. rewrite E.
  cbn [Py.dropwhile]. rewrite H, <- E. apply rstrip_by_idempotent.
Qed.

Lemma isolated_tail (p : ascii -> bool) (c : ascii) (l : list ascii) :
  isolated p (c :: l) -> isolated p l.
Proof.
  intros H pre a b suf E. apply (H (c :: pre) a b suf). now rewrite E.
Qed.

Lemma isolated_cons (p : ascii -> bool) (c : ascii) (l : list ascii) :
  match l with
  | b :: _ => p c = true -> p b = false
  | [] => True
  end ->
  isolated p l -> isolated p (c :: l).
Proof.
  intros H1 H2 pre a b suf E. destruct pre as [|x pre].
  - cbn [app] in E. injection E as <- ->. exact H1.
  - cbn [app] in E. injection E as _ E. now apply (H2 pre a b suf).
Qed.

Lemma isolated_suffix (p : ascii -> bool) (pre l : list ascii) :
  isolated p (pre ++ l) -> isolated p l.
Proof.
  induction pre as [|c pre IH]; [trivial|].
  intros H. apply IH. now apply isolated_tail in H.
Qed.

Lemma isolated_rev (p : ascii -> bool) (l : list ascii) :
  isolated p l -> isolated p (rev l).
Proof.
  intros H pre a b suf E Ha.
  assert (E' : l = rev suf ++ b :: a :: rev pre).
  { rewrite <- (rev_involutive l), E, rev_app_distr. cbn [rev].
    now rewrite <- !app_assoc. }
  destruct (p b) eqn:Hb; [|reflexivity].
  rewrite (H _ _ _ _ E' Hb) in Ha. discriminate.
Qed.

Lemma dropwhile_suffix (p : ascii -> bool) (l : list ascii) :
  exists pre, l = pre ++ Py.dropwhile p l.
Proof.
  induction l as [|c l [pre IH]]; [now exists []|].
  cbn [Py.dropwhile]. destruct (p c); [|now exists []].
  exists (c :: pre). cbn [app]. now rewrite <- IH.
Qed.

Lemma isolated_dropwhile (p : ascii -> bool) (l : list ascii) :
  isolated p l -> isolated p (Py.dropwhile p l).
Proof.
  intros H. destruct (dropwhile_suffix p l) as [pre E].
  rewrite E in H. now apply isolated_suffix in H.
Qed.

Lemma isolated_strip_by (p : ascii -> bool) (l : list ascii) :
  isolated p l -> isolated p (Py.strip_by p l).
Proof.
  intros H. unfold Py.strip_by, Py.rstrip_by, Py.lstrip_by.
  now apply isolated_rev, isolated_dropwhile, isolated_rev, isolated_dropwhile.
Qed.

(** After the collapse no two characters of the class are neighbours. *)
Lemma collapse_isolated (p : ascii -> bool) (r : ascii) (l : list ascii) :
  isolated p (Py.collapse p r l).
Proof.
  induction l as [|c l IH]; [intros [|? ?] ? ? ? E; discriminate|].
  cbn [Py.collapse]. destruct (p c) eqn:Hc.
  - destruct l as [|c' l'].
    + intros [|? [|? ?]] ? ? ? E; discriminate.
    + destruct (p c') eqn:Hc'; [exact IH|].
      apply isolated_cons; [|exact IH].
      cbn [Py.collapse]. rewrite Hc'. intros _. exact Hc'.
  - apply isolated_cons; [|exact IH].
    destruct (Py.collapse p r l); [exact I|]. intros X. congruence.
Qed.

(** The collapse changes nothing when the characters of the class stand
    alone and are the replacement character. *)
Lemma collapse_isolated_id (p : ascii -> bool) (r : ascii) (l : list ascii) :
  (forall c, In c l -> p c = true -> c = r) -> isolated p l ->
  Py.collapse p r l = l.
Proof.
  induction l as [|c l IH]; intros R H; [reflexivity|].
  cbn [Py.collapse].
  assert (E : Py.collapse p r l = l).
  { apply IH; [|now apply isolated_tail in H].
    intros x Hx. apply R. now right. }
  destruct (p c) eqn:Hc.
  - pose proof (R c (or_introl eq_refl) Hc) as Er. subst c.
    destruct l as [|c' l']; [reflexivity|].
    rewrite (H [] r c' l' eq_refl Hc). now rewrite E.
  - now rewrite E.
Qed.

Lemma isword_not_space (c : ascii) :
  Py.isword c = true -> Py.isspace c = false.
Proof.
  destruct c as [[] [] [] [] [] [] [] []]; vm_compute; intros H;
    (reflexivity || discriminate H).
Qed.

(** [_clean_column_name] is idempotent: a normalised name is its own
    normal form. *)
Theorem clean_column_name_idempotent (n : string) :
  _clean_column_name (_clean_column_name n) = _clean_column_name n.
Proof.
  unfold _clean_column_name at 2 3.
  set (l3 := Py.collapse Py.is_underscore Py.underscore _).
  destruct (Py.strip_by Py.is_underscore l3) as [|c l] eqn:E;
    [vm_compute; reflexivity|].
  assert (W : Forall (fun x => Py.isword x = true) (c :: l)).
  { rewrite <- E. apply Forall_forall. intros x Hx. subst l3.
    apply in_strip_by, in_collapse in Hx. destruct Hx as [->|[Hx _]]; [reflexivity|].
    apply in_collapse in Hx. destruct Hx as [->|[Hx Sx]]; [reflexivity|].
    apply filter_In in Hx. destruct Hx as [_ Hx].
    rewrite Sx, orb_false_r in Hx. exact Hx. }
  assert (S : Forall (fun x => Py.isspace x = false) (c :: l)).
  { eapply Forall_impl; [|exact W]. apply isword_not_space. }
  assert (I : isolated Py.is_underscore (c :: l)).
  { rewrite <- E. apply isolated_strip_by. subst l3. apply collapse_isolated. }
  unfold _clean_column_name, Py.strip.
  rewrite !chars_str, (@strip_by_none Py.isspace (c :: l) S).
  rewrite (filter_keep_all (fun x => Py.isword x || Py.isspace x) (c :: l))
    by (intros x Hx; rewrite Forall_forall in W; now rewrite (W x Hx)).
  rewrite (@collapse_none Py.isspace Py.underscore (c :: l) S).
  rewrite (@collapse_isolated_id Py.is_underscore Py.underscore (c :: l));
    [|intros x _ Hx; now apply Ascii.eqb_eq in Hx | exact I].
  rewrite <- E, strip_by_idempotent, E. reflexivity.
Qed.

(** ** Text standardisation, a second time *)

Lemma list_pair_ind (A : Type) (Q : list A -> Prop) :
  Q [] -> (forall c, Q [c]) ->
  (forall c c' l, Q l -> Q (c' :: l) -> Q (c :: c' :: l)) ->
  forall l, Q l.
Proof.
  intros H0 H1 H2 l.
  assert (H : Q l /\ forall c, Q (c :: l)).
  { induction l as [|c l [IH1 IH2]].
    - split; [exact H0 | exact H1].
    - split; [apply IH2|]. intros c0. apply H2; [exact IH1 | apply IH2]. }
  apply H.
Qed.

Lemma ends_clear_cons (p : ascii -> bool) (c : ascii) (l : list ascii) :
  l <> [] -> ends_clear p (c :: l) = ends_clear p l.
Proof. destruct l; [congruence | reflexivity]. Qed.

Lemma ends_clear_snoc (p : ascii -> bool) (l : list ascii) (c : ascii) :
  ends_clear p (l ++ [c]) = negb (p c).
Proof.
  induction l as [|a l IH]; [reflexivity|].
  cbn [app]. rewrite ends_clear_cons; [exact IH|]. now destruct l.
Qed.

Lemma ends_clear_rev (p : ascii -> bool) (l : list ascii) :
  ends_clear p l = starts_clear p (rev l).
Proof.
  destruct (rev l) as [|c m] eqn:E.
  - apply (f_equal (@rev ascii)) in E. rewrite rev_involutive in E. now subst.
  - apply (f_equal (@rev ascii)) in E. rewrite rev_involutive in E. subst l.
    cbn [rev]. apply ends_clear_snoc.
Qed.

Lemma dropwhile_starts_clear (p : ascii -> bool) (l : list ascii) :
  starts_clear p l = true -> Py.dropwhile p l = l.
Proof.
  destruct l as [|c l]; [reflexivity|]. cbn [starts_clear Py.dropwhile].
  intros H. apply negb_true_iff in H. now rewrite H.
Qed.

Lemma strip_by_clear (p : ascii -> bool) (l : list ascii) :
  starts_clear p l = true -> ends_clear p l = true -> Py.strip_by p l = l.
Proof.
  intros S E. unfold Py.strip_by, Py.rstrip_by, Py.lstrip_by.
  rewrite (@dropwhile_starts_clear p l S).
  rewrite ends_clear_rev in E. rewrite (@dropwhile_starts_clear p (rev l) E).
  apply rev_involutive.
Qed.

Lemma starts_clear_dropwhile (p : ascii -> bool) (l : list ascii) :
  starts_clear p (Py.dropwhile p l) = true.
Proof.
  pose proof (dropwhile_head p l) as H.
  destruct (Py.dropwhile p l) as [|c m]; [reflexivity|].
  cbn [starts_clear]. now rewrite H.
Qed.

Lemma strip_by_starts_clear (p : ascii -> bool) (l : list ascii) :
  starts_clear p (Py.strip_by p l) = true.
Proof.
  unfold Py.strip_by, Py.lstrip_by.
  pose proof (dropwhile_head p l) as H.
  destruct (Py.dropwhile p l) as [|c m]; [reflexivity|].
  destruct (@rstrip_by_head p c m H) as [l' E]. rewrite E.
  cbn [starts_clear]. now rewrite H.
Qed.

Lemma strip_by_ends_clear (p : ascii -> bool) (l : list ascii) :
  ends_clear p (Py.strip_by p l) = true.
Proof.
  unfold Py.strip_by, Py.rstrip_by. rewrite ends_clear_rev, rev_involutive.
  apply starts_clear_dropwhile.
Qed.

Lemma collapse_nonempty (p : ascii -> bool) (r c : ascii) (l : list ascii) :
  Py.collapse p r (c :: l) <> [].
Proof.
  revert c. induction l as [|c' l IH]; intros c.
  - cbn [Py.collapse]. destruct (p c); discriminate.
  - cbn [Py.collapse]. destruct (p c); [|discriminate].
    destruct (p c') eqn:E; [|discriminate].
    specialize (IH c'). cbn [Py.collapse] in IH. now rewrite E in IH.
Qed.

Lemma collapse_starts_clear (p : ascii -> bool) (r : ascii) (l : list ascii) :
  starts_clear p l = true -> starts_clear p (Py.collapse p r l) = true.
Proof.
  destruct l as [|c l]; [reflexivity|]. cbn [starts_clear Py.collapse].
  intros H. apply negb_true_iff in H. rewrite H. cbn [starts_clear].
  now rewrite H.
Qed.

Lemma collapse_ends_clear (p : ascii -> bool) (r : ascii) (l : list ascii) :
  ends_clear p l = true -> ends_clear p (Py.collapse p r l) = true.
Proof.
  induction l as [|c l IH]; [reflexivity|].
  destruct l as [|c' l'].
  - cbn [ends_clear Py.collapse]. intros H. apply negb_true_iff in H.
    rewrite H. cbn [ends_clear]. now rewrite H.
  - intros H. rewrite ends_clear_cons in H by discriminate.
    specialize (IH H).
    change (Py.collapse p r (c :: c' :: l'))
      with (if p c
            then if p c' then Py.collapse p r (c' :: l')
                 else r :: Py.collapse p r (c' :: l')
            else c :: Py.collapse p r (c' :: l')).
    destruct (p c); [destruct (p c')|]; try exact IH;
      rewrite ends_clear_cons; try exact IH; apply collapse_nonempty.
Qed.

(** *** Replacement *)

Lemma replace_absent (old new : list ascii) (a : ascii) (l : list ascii) :
  ~ In a l ->
  Py.replace_from (a :: old) new 0 l = l.
Proof.
  induction l as [|c l IH]; intros H; [reflexivity|].
  cbn [Py.replace_from Py.prefixb].
  destruct (Ascii.eqb_spec a c) as [->|Ne]; [exfalso; apply H; now left|].
  cbn [andb]. rewrite IH; [reflexivity|]. intros X. apply H. now right.
Qed.

Lemma replace_single (o n : ascii) (l : list ascii) :
  Py.replace_from [o] [n] 0 l
  = map (fun c => if Ascii.eqb o c then n else c) l.
Proof.
  induction l as [|c l IH]; [reflexivity|].
  cbn [Py.replace_from Py.prefixb List.length Nat.sub app map].
  rewrite andb_true_r, IH. destruct (Ascii.eqb o c); reflexivity.
Qed.

Lemma replace_pair_cons (a b n c : ascii) (l : list ascii) :
  Py.replace_from [a; b] [n] 0 (c :: l)
  = match l with
    | c' :: l' =>
        if Ascii.eqb a c && Ascii.eqb b c'
        then n :: Py.replace_from [a; b] [n] 0 l'
        else c :: Py.replace_from [a; b] [n] 0 l
    | [] => [c]
    end.
Proof.
  destruct l as [|c' l'].
  - cbn [Py.replace_from Py.prefixb]. now rewrite andb_false_r.
  - change (Py.replace_from [a; b] [n] 0 (c :: c' :: l'))
      with (if Ascii.eqb a c && (Ascii.eqb b c' && true)
            then n :: Py.replace_from [a; b] [n] 0 l'
            else c :: Py.replace_from [a; b] [n] 0 (c' :: l')).
    now rewrite andb_true_r.
Qed.

Section PairFacts.

Variables (p : ascii -> bool) (a b n : ascii).
Hypothesis new_clear : p n = false.

Let f := Py.replace_from [a; b] [n] 0.

Lemma replace_pair_In (l : list ascii) (x : ascii) :
  In x (f l) -> x = n \/ In x l.
Proof.
  revert x. induction l as [| c | c c' l IH1 IH2] using list_pair_ind;
    intros x.
  - intros [].
  - unfold f. rewrite replace_pair_cons. intros H. now right.
  - unfold f in *. rewrite replace_pair_cons.
    destruct (Ascii.eqb a c && Ascii.eqb b c').
    + intros [<-|H]; [now left|].
      destruct (IH1 x H) as [->|H']; [now left | right; right; now right].
    + intros [<-|H]; [right; now left|].
      destruct (IH2 x H) as [->|H']; [now left | right; now right].
Qed.

Lemma replace_pair_head (c : ascii) (l : list ascii) :
  exists h t, f (c :: l) = h :: t /\ (h = n \/ h = c).
Proof.
  unfold f. rewrite replace_pair_cons. destruct l as [|c' l'].
  - exists c, []. split; [reflexivity | now right].
  - destruct (Ascii.eqb a c && Ascii.eqb b c'); eexists; eexists;
      (split; [reflexivity|]); [now left | now right].
Qed.

Lemma replace_pair_starts_clear (l : list ascii) :
  starts_clear p l = true -> starts_clear p (f l) = true.
Proof.
  destruct l as [|c l]; [reflexivity|]. cbn [starts_clear]. intros H.
  destruct (@replace_pair_head c l) as [h [t [E [->| ->]]]]; rewrite E;
    cbn [starts_clear]; [now rewrite new_clear | exact H].
Qed.

Lemma replace_pair_nonempty (c : ascii) (l : list ascii) : f (c :: l) <> [].
Proof.
  destruct (@replace_pair_head c l) as [h [t [E _]]]. rewrite E. discriminate.
Qed.

Lemma replace_pair_ends_clear (l : list ascii) :
  ends_clear p l = true -> ends_clear p (f l) = true.
Proof.
  induction l as [| c | c c' l IH1 IH2] using list_pair_ind.
  - reflexivity.
  - unfold f. now rewrite replace_pair_cons.
  - intros H. rewrite ends_clear_cons in H by discriminate.
    unfold f in *. rewrite replace_pair_cons.
    destruct (Ascii.eqb a c && Ascii.eqb b c').
    + destruct l as [|c'' l''].
      * cbn [Py.replace_from ends_clear]. now rewrite new_clear.
      * rewrite ends_clear_cons by apply replace_pair_nonempty.
        apply IH1. now rewrite ends_clear_cons in H by discriminate.
    + rewrite ends_clear_cons by apply replace_pair_nonempty.
      now apply IH2.
Qed.

Lemma replace_pair_isolated (l : list ascii) :
  isolated p l -> isolated p (f l).
Proof.
  induction l as [| c | c c' l IH1 IH2] using list_pair_ind; intros H.
  - exact H.
  - unfold f. now rewrite replace_pair_cons.
  - unfold f in *. rewrite replace_pair_cons.
    pose proof (@isolated_tail p c (c' :: l) H) as H'.
    destruct (Ascii.eqb a c && Ascii.eqb b c').
    + apply isolated_cons.
      * destruct (Py.replace_from [a; b] [n] 0 l); [exact I|].
        intros X. congruence.
      * apply IH1. now apply isolated_tail in H'.
    + apply isolated_cons; [|now apply IH2].
      destruct (@replace_pair_head c' l) as [h [t [E [->| ->]]]];
        unfold f in E; rewrite E; intros X; [exact new_clear|].
      exact (H [] c c' l eq_refl X).
Qed.

End PairFacts.

Lemma isolated_map (p : ascii -> bool) (g : ascii -> ascii) (l : list ascii) :
  (forall c, p (g c) = p c) -> isolated p l -> isolated p (map g l).
Proof.
  intros G H pre x y suf E Hx.
  apply map_eq_app in E. destruct E as [pre' [rest [-> [_ E]]]].
  destruct rest as [|x' [|y' suf']]; try discriminate.
  cbn [map] in E. injection E as <- <- _.
  rewrite G in *. exact (H pre' x' y' suf' eq_refl Hx).
Qed.

Lemma ends_clear_map (p : ascii -> bool) (g : ascii -> ascii) (l : list ascii) :
  (forall c, p (g c) = p c) -> ends_clear p (map g l) = ends_clear p l.
Proof.
  intros G. induction l as [|c l IH]; [reflexivity|].
  destruct l as [|c' l'].
  - cbn [map ends_clear]. now rewrite G.
  - cbn [map] in *. rewrite !ends_clear_cons by discriminate. exact IH.
Qed.

Lemma starts_clear_map (p : ascii -> bool) (g : ascii -> ascii) (l : list ascii) :
  (forall c, p (g c) = p c) -> starts_clear p (map g l) = starts_clear p l.
Proof.
  intros G. destruct l as [|c l]; [reflexivity|].
  cbn [map starts_clear]. now rewrite G.
Qed.

Lemma text_pass_standard (l : list ascii) : standard_chars (text_pass l).
Proof.
  unfold text_pass.
  set (z := Py.collapse Py.isspace " "%char (Py.strip_by Py.isspace l)).
  assert (Z1 : starts_clear Py.isspace z = true)
    by apply collapse_starts_clear, strip_by_starts_clear.
  assert (Z2 : ends_clear Py.isspace z = true)
    by apply collapse_ends_clear, strip_by_ends_clear.
  assert (Z3 : isolated Py.isspace z) by apply collapse_isolated.
  assert (Z4 : forall c, In c z -> Py.isspace c = true -> c = " "%char).
  { intros c Hc Sc. apply in_collapse in Hc.
    destruct Hc as [->|[_ Hc]]; [reflexivity | congruence]. }
  change (Py.chars A_tilde_copyright)
    with [ascii_of_nat 195; ascii_of_nat 169].
  change (Py.chars e_acute) with [ascii_of_nat 233].
  change (Py.chars A_tilde) with [ascii_of_nat 195].
  change (Py.chars a_grave) with [ascii_of_nat 224].
  set (y := Py.replace_from [ascii_of_nat 195; ascii_of_nat 169]
              [ascii_of_nat 233] 0 z).
  assert (N : Py.isspace (ascii_of_nat 233) = false) by reflexivity.
  assert (Y1 : starts_clear Py.isspace y = true)
    by now apply replace_pair_starts_clear.
  assert (Y2 : ends_clear Py.isspace y = true)
    by now apply replace_pair_ends_clear.
  assert (Y3 : isolated Py.isspace y) by now apply replace_pair_isolated.
  assert (Y4 : forall c, In c y -> Py.isspace c = true -> c = " "%char).
  { intros c Hc Sc. apply replace_pair_In in Hc.
    destruct Hc as [->|Hc]; [discriminate | now apply Z4]. }
  rewrite replace_single.
  set (g := fun c => if Ascii.eqb (ascii_of_nat 195) c
                     then ascii_of_nat 224 else c).
  assert (G : forall c, Py.isspace (g c) = Py.isspace c).
  { intros c. unfold g.
    destruct (Ascii.eqb_spec (ascii_of_nat 195) c) as [E|_];
      [subst c|]; reflexivity. }
  repeat split.
  - now rewrite starts_clear_map.
  - now rewrite ends_clear_map.
  - now apply isolated_map.
  - intros c Hc Sc. apply in_map_iff in Hc. destruct Hc as [c0 [<- Hc]].
    rewrite G in Sc. rewrite (Y4 c0 Hc Sc). reflexivity.
  - intros H. apply in_map_iff in H. destruct H as [c0 [E _]]. unfold g in E.
    destruct (Ascii.eqb_spec (ascii_of_nat 195) c0) as [_|Ne];
      [discriminate | congruence].
Qed.

Lemma standard_pass_id (l : list ascii) :
  standard_chars l -> text_pass l = l.
Proof.
  intros [S1 [S2 [S3 [S4 S5]]]]. unfold text_pass.
  rewrite (@strip_by_clear Py.isspace l S1 S2).
  rewrite (@collapse_isolated_id Py.isspace " "%char l S4 S3).
  change (Py.chars A_tilde_copyright)
    with [ascii_of_nat 195; ascii_of_nat 169].
  change (Py.chars A_tilde) with [ascii_of_nat 195].
  rewrite (@replace_absent [ascii_of_nat 169] (Py.chars e_acute)
             (ascii_of_nat 195) l S5).
  exact (@replace_absent [] (Py.chars a_grave) (ascii_of_nat 195) l S5).
Qed.

Section TextFacts.

Context {P : Pandas}.

Lemma standard_text_chars (v : value) :
  standard_text v = Py.str (text_pass (Py.chars (py_str v))).
Proof.
  unfold standard_text, text_pass, Py.replace, Py.strip.
  now rewrite !chars_str.
Qed.

Lemma standard_text_fixed (v : value) :
  standard_text (VStr (standard_text v)) = standard_text v.
Proof.
  rewrite (standard_text_chars (VStr _)). cbn [py_str].
  rewrite standard_text_chars, chars_str.
  now rewrite (@standard_pass_id _ (text_pass_standard _)).
Qed.

Lemma standardize_cell_idempotent (v : value) :
  standardize_cell (standardize_cell v) = standardize_cell v.
Proof.
  unfold standardize_cell at 2 3.
  destruct (Py.mem (standard_text v) null_literals) eqn:M.
  - reflexivity.
  - unfold standardize_cell. now rewrite standard_text_fixed, M.
Qed.

Lemma standardize_column_idempotent (s : Series) :
  standardize_column (standardize_column s) = standardize_column s.
Proof.
  unfold standardize_column at 2 3.
  destruct (dtype s) eqn:D; unfold standardize_column; rewrite ?D;
    try reflexivity.
  cbn [dtype values name].
  set (vs := map standardize_cell (values s)).
  assert (E : map standardize_cell vs = vs).
  { subst vs. rewrite map_map. apply map_ext. intros v.
    apply standardize_cell_idempotent. }
  unfold infer_replaced at 1.
  destruct vs as [|v vs'] eqn:V; [reflexivity|].
  destruct (forallb isnull (v :: vs')) eqn:F; [reflexivity|].
  rewrite E. unfold infer_replaced. now rewrite F.
Qed.

(** [_standardize_text_columns] is idempotent on the frames with distinct
    labels: a second pass changes no cell and no type. *)
Theorem standardize_text_columns_idempotent (df : DataFrame) :
  NoDup (labels df) ->
  _standardize_text_columns (_standardize_text_columns df)
  = _standardize_text_columns df.
Proof.
  intros _. unfold _standardize_text_columns. cbn [nrows columns]. f_equal.
  rewrite map_map. apply map_ext. intros s.
  apply standardize_column_idempotent.
Qed.

End TextFacts.

Lemma standardize_text_columns_idempotent_witness :
  _standardize_text_columns (P := ref_pandas)
    (_standardize_text_columns (P := ref_pandas) null_text_df)
  = mkDF 2 [mkSeries "a" float64 [NaN; NaN]; text_column "b" ["x"; "y"]].
Proof.
  rewrite (@standardize_text_columns_idempotent ref_pandas null_text_df).
  - vm_compute. reflexivity.
  - repeat constructor; cbn; intuition discriminate.
Defined.

(** ** The upload route *)

Lemma last_segment_no_dot (l : list ascii) :
  existsb is_dot l = false -> last_segment l = l.
Proof.
  destruct l as [|c l]; [reflexivity|]. cbn [last_segment]. now intros ->.
Qed.

Lemma last_segment_dot (stem ext : list ascii) :
  existsb is_dot ext = false ->
  last_segment (stem ++ "."%char :: ext) = ext.
Proof.
  intros H. induction stem as [|c stem IH].
  - cbn [app last_segment].
    replace (existsb is_dot ("."%char :: ext)) with true by reflexivity.
    now apply last_segment_no_dot.
  - cbn [app last_segment].
    assert (E : existsb is_dot (c :: stem ++ "."%char :: ext) = true).
    { apply existsb_exists. exists "."%char. split; [|reflexivity].
      right. apply in_or_app. right. now left. }
    now rewrite E.
Qed.

Section RouteFacts.

Variable Upload : Type.
Variable process_upload : string -> outcome Upload.
Variable exception_str : exception -> string.
Variable unsupported_detail : string.

(** The upload route. Every error that leaves it has status 500: the two
    errors that the validation raises with status 400 are caught by the
    route's own handler and sent with status 500. A file name is accepted
    exactly when what follows its last dot, or the whole name when it has
    no dot, is xlsx, xls or csv in any case; only then is the file
    processed. *)
Theorem upload_file_spec (filename : option string) :
  (forall status detail,
     upload_file process_upload exception_str unsupported_detail filename
     = HTTPError status detail -> status = 500)
  /\ (forall name, filename = Some name -> name <> "" ->
      (In (extension name) ["xlsx"; "xls"; "csv"] ->
       upload_file process_upload exception_str unsupported_detail filename
       = match process_upload name with
         | Returned result => Body result
         | Raised e => HTTPError 500 (exception_str e)
         end)
      /\ (~ In (extension name) ["xlsx"; "xls"; "csv"] ->
          upload_file process_upload exception_str unsupported_detail filename
          = HTTPError 500
              (exception_str (HTTPException 400 unsupported_detail))))
  /\ (filename = None \/ filename = Some "" ->
      upload_file process_upload exception_str unsupported_detail filename
      = HTTPError 500 (exception_str (HTTPException 400 "No file provided")))
  /\ (forall stem ext, existsb is_dot (Py.chars ext) = false ->
        extension (stem ++ "." ++ ext) = Py.lower ext)
  /\ (forall name, existsb is_dot (Py.chars name) = false ->
        extension name = Py.lower name).
Proof.
  split; [|split; [|split; [|split]]]; cycle 3.
  - intros stem ext H. unfold extension.
    rewrite chars_app. change (Py.chars ("." ++ ext)) with ("."%char :: Py.chars ext).
    now rewrite (@last_segment_dot (Py.chars stem) (Py.chars ext) H), str_chars.
  - intros name H. unfold extension.
    now rewrite (@last_segment_no_dot (Py.chars name) H), str_chars.
  - unfold upload_file. intros status detail H.
    destruct (validate_and_process _ _ _); [discriminate|].
    now injection H as <- _.
  - intros name -> Hne. unfold upload_file, validate_and_process.
    assert (N : Py.nonempty name = true).
    { unfold Py.nonempty. apply negb_true_iff. now apply String.eqb_neq. }
    rewrite N. fold (extension name).
    assert (M : Py.mem ("." ++ extension name)%string ALLOWED_EXTENSIONS = true
                <-> In (extension name) ["xlsx"; "xls"; "csv"]).
    { rewrite mem_In. unfold ALLOWED_EXTENSIONS. cbn [In append].
      split; intros [H|[H|[H|[]]]];
        ((injection H as H; auto) || (rewrite <- H; auto)). }
    split; intros H.
    + apply M in H. now rewrite H.
    + destruct (Py.mem _ ALLOWED_EXTENSIONS) eqn:E; [|reflexivity].
      exfalso. apply H, M. reflexivity.
  - intros [->| ->]; reflexivity.
Qed.

End RouteFacts.

Lemma upload_file_spec_witness :
  upload_file (fun _ => Returned tt) (fun _ => "") "" (Some "csv") = Body tt
  /\ upload_file (fun _ => Returned tt) (fun _ => "") "" (Some "sales.CSV")
     = Body tt
  /\ upload_file (fun _ => Returned tt) (fun _ => "") "" (Some "sales.csv.txt")
     = HTTPError 500 "".
Proof.
  assert (N : forall name : string, String.length name <> 0 -> name <> "")
    by (intros name H E; subst name; now apply H).
  split; [|split].
  - destruct (@upload_file_spec unit (fun _ => Returned tt) (fun _ => "") ""
                (Some "csv")) as [_ [H _]].
    destruct (H "csv" eq_refl (N "csv" ltac:(discriminate))) as [A _].
    apply A. right. right. now left.
  - destruct (@upload_file_spec unit (fun _ => Returned tt) (fun _ => "") ""
                (Some "sales.CSV")) as [_ [H _]].
    destruct (H "sales.CSV" eq_refl (N "sales.CSV" ltac:(discriminate)))
      as [A _].
    apply A. right. right. now left.
  - destruct (@upload_file_spec unit (fun _ => Returned tt) (fun _ => "") ""
                (Some "sales.csv.txt")) as [_ [H _]].
    destruct (H "sales.csv.txt" eq_refl
                (N "sales.csv.txt" ltac:(discriminate))) as [_ A].
    apply A. vm_compute. intuition discriminate.
Defined.

(** ** The SQL text for a fallback intent *)

Lemma aggregate_operation (q : string) :
  any_word aggregate_words q = true ->
  In (_detect_operation q) ["sum"; "mean"; "count"].
Proof.
  unfold any_word, aggregate_words, _detect_operation. cbn [existsb].
  destruct (Py.contains "sum" q), (Py.contains "total" q),
    (Py.contains "average" q), (Py.contains "mean" q),
    (Py.contains "count" q); cbn; intros H; try discriminate; auto.
Qed.

Section SqlFacts.

Context {P : Pandas}.

(** The SQL text for an intent of the fallback classifier. A filter intent
    gives a query whose WHERE clause is empty, since the classifier never
    finds a filter. An aggregate intent gives a query without LIMIT that
    reduces each column of the intent with sum, mean or count, written in
    capitals. Every other intent gives the first ten rows. *)
Theorem fallback_sql_query (query : string) (ctx : DataContext)
  (table_name : string) :
  let i := _fallback_analysis query ctx in
  (intent i = Some "filter" ->
   generate_sql_query i table_name
   = ("SELECT * FROM " ++ table_name ++ " WHERE  LIMIT 100")%string)
  /\ (intent i = Some "aggregate" ->
      exists op,
        In op ["sum"; "mean"; "count"] /\ operation i = Some op
        /\ generate_sql_query i table_name
           = ("SELECT "
                ++ Py.join ", "
                     (map (fun col => (upper op ++ "(" ++ col ++ ") as " ++ col
                                         ++ "_" ++ op)%string)
                          (filter (fun col => negb (String.eqb col "*"))
                                  (get_default (intent_columns i) [])))
                ++ " FROM " ++ table_name)%string)
  /\ (intent i <> Some "filter" -> intent i <> Some "aggregate" ->
      generate_sql_query i table_name
      = ("SELECT * FROM " ++ table_name ++ " LIMIT 10")%string).
Proof.
  cbv zeta. unfold generate_sql_query, _fallback_analysis.
  cbn [intent intent_columns operation filters get_default].
  set (ql := Py.lower query). unfold detect_intent.
  destruct (any_word visualize_words ql);
    [split; [discriminate | split; [discriminate | reflexivity]]|].
  destruct (any_word filter_words ql);
    [split; [reflexivity | split; [discriminate | congruence]]|].
  destruct (any_word aggregate_words ql) eqn:A.
  - split; [discriminate|]. split; [|congruence]. intros _.
    pose proof (aggregate_operation ql A) as O.
    exists (_detect_operation ql). split; [exact O|]. split; [reflexivity|].
    cbn [String.eqb Ascii.eqb Bool.eqb].
    assert (M : Py.mem (_detect_operation ql)
                       ["sum"; "mean"; "count"; "max"; "min"] = true).
    { apply mem_In. destruct O as [<-|[<-|[<-|[]]]]; cbn; auto. }
    now rewrite M.
  - destruct (any_word compare_words ql);
      [split; [discriminate | split; [discriminate | reflexivity]]|].
    destruct (any_word correlation_words ql);
      split; try discriminate; split; try discriminate; reflexivity.
Qed.

End SqlFacts.

Lemma fallback_sql_query_witness :
  generate_sql_query (P := ref_pandas)
    (_fallback_analysis "Show only east" sales_context) "data"
  = "SELECT * FROM data WHERE  LIMIT 100"
  /\ generate_sql_query (P := ref_pandas)
       (_fallback_analysis "total sales" sales_context) "data"
     = "SELECT SUM(sales) as sales_sum FROM data".
Proof.
  split.
  - apply (@fallback_sql_query ref_pandas "Show only east" sales_context "data").
    reflexivity.
  - destruct (@fallback_sql_query ref_pandas "total sales" sales_context "data")
      as [_ [H _]].
    destruct (H eq_refl) as [op [_ [E ->]]].
    injection E as <-. reflexivity.
Defined.

(** ** Charts of a table without columns *)

Section EmptyTable.

Context {P : Pandas}.

(** On a table without columns a request for a chart is answered with the
    apology, and with no chart: the visualization handler fails when it
    unpacks the first two columns, and the router reports the failure. *)
Theorem visualization_without_columns (df : DataFrame) (i : Intent)
  (query : string) :
  columns df = [] ->
  intent i = Some "visualize" \/ truthy (chart_type i) = true ->
  exists e,
    dispatch df i = Raise e
    /\ _execute_intent df i query
       = say ("I encountered an error processing your request: " ++ e
                ++ ". Could you please rephrase your question?")%string.
Proof.
  intros C H. unfold _execute_intent, dispatch.
  assert (E : String.eqb (get_default (intent i) "summarize") "visualize"
              || truthy (chart_type i) = true).
  { destruct H as [H|H]; [rewrite H; reflexivity|].
    rewrite H. apply orb_true_r. }
  rewrite E, (visualization_no_columns _ _ _ _ C).
  eexists. split; reflexivity.
Qed.

End EmptyTable.

Lemma visualization_without_columns_witness :
  exists e,
    dispatch (P := ref_pandas) (mkDF 0 []) scatter_intent = Raise e
    /\ _execute_intent (P := ref_pandas) (mkDF 0 []) scatter_intent "plot it"
       = say ("I encountered an error processing your request: " ++ e
                ++ ". Could you please rephrase your question?")%string.
Proof.
  apply (@visualization_without_columns ref_pandas (mkDF 0 []) scatter_intent
           "plot it").
  - reflexivity.
  - now left.
Defined.

(** ** A second pass of [clean] *)

(** *** The names of a cleaned table are in normal form *)












Section SecondPass.

Context {P : Pandas}.





End SecondPass.



(** Each condition of the amended claim is needed: for each of them a
    table that the first pass leaves short of it alone, and that the second
    pass changes. *)

(** The normalisation of the names makes the label "Unnamed", which the
    second pass replaces by the first value of the column. *)
Lemma second_pass_renames :
  clean_dataframe (P := ref_pandas) hyphen_label_df
  = Ok (mkDF 2 [text_column "Unnamed" ["x"; "y"]])
  /\ clean_dataframe (P := ref_pandas) (mkDF 2 [text_column "Unnamed" ["x"; "y"]])
     = Ok (mkDF 2 [text_column "x" ["x"; "y"]]).
Proof. split; vm_compute; reflexivity. Qed.

(** Two cells of five parse as numbers; the repeated rows gone, they are
    two of three, and the second pass reads the column as numbers and fills
    the cell that does not parse. *)
Lemma second_pass_reads_numbers :
  clean_dataframe (P := ref_pandas) late_numeric_df
  = Ok (mkDF 3 [text_column "t" ["5"; "7"; "x"]])
  /\ clean_dataframe (P := ref_pandas) (mkDF 3 [text_column "t" ["5"; "7"; "x"]])
     = Ok (mkDF 3 [mkSeries "t" float64 [VFloat 5; VFloat 7; VFloat 6]]).
Proof. split; vm_compute; reflexivity. Qed.

(** Half of the numeric column is missing, so the first pass leaves it;
    the repeated row gone, a third is, and the second pass fills it. *)
Lemma second_pass_fills :
  clean_dataframe (P := ref_pandas) late_gap_df
  = Ok (mkDF 3 [mkSeries "a" float64 [VFloat 1; VFloat 2; NaN];
                text_column "b" ["p"; "q"; "r"]])
  /\ clean_dataframe (P := ref_pandas)
       (mkDF 3 [mkSeries "a" float64 [VFloat 1; VFloat 2; NaN];
                text_column "b" ["p"; "q"; "r"]])
     = Ok (mkDF 3 [mkSeries "a" float64 [VFloat 1; VFloat 2; VFloat (3 # 2)];
                   text_column "b" ["p"; "q"; "r"]]).
Proof. split; vm_compute; reflexivity. Qed.

(** The standardisation empties the second row, and the second pass drops
    it. *)
Lemma second_pass_drops_a_row :
  clean_dataframe (P := ref_pandas) late_empty_row_df
  = Ok (mkDF 2 [mkSeries "t" object [VStr "x"; NaN]])
  /\ clean_dataframe (P := ref_pandas) (mkDF 2 [mkSeries "t" object [VStr "x"; NaN]])
     = Ok (mkDF 1 [text_column "t" ["x"]]).
Proof. split; vm_compute; reflexivity. Qed.

(** The standardisation makes the two rows equal, and the second pass
    drops the second. *)
Lemma second_pass_drops_a_repeat :
  clean_dataframe (P := ref_pandas) late_repeat_df
  = Ok (mkDF 2 [text_column "t" ["a"; "a"]])
  /\ clean_dataframe (P := ref_pandas) (mkDF 2 [text_column "t" ["a"; "a"]])
     = Ok (mkDF 1 [text_column "t" ["a"]]).
Proof. split; vm_compute; reflexivity. Qed.
